(** * MAVProxy Teltonika module: a shallow embedding and its properties

    This development embeds [MAVProxy/modules/mavproxy_teltonika.py] in
    Gallina.  Python values that the module manipulates are represented
    as follows:

    - [str] is [string], the bytes of the UTF-8 text; stripping,
      slicing and the reading of numbers go by code points;
    - [float] is an IEEE-754 binary64 value, [spec_float] with
      precision 53 and maximal exponent 1024, rounded to nearest even;
    - [int] is [Z];
    - a decoded JSON document is [json], a dictionary being an
      association list in the order of the document (keys distinct);
    - an exception is a constructor of [exn], and code that can raise
      returns a [pyresult].

    Stateful code runs in the monad [M]: it threads the fields of the
    module instance and accumulates the externally visible effects
    (console lines, RPC exchanges, MAVLink sends, outgoing SMS) in the
    order in which they happen.

    What the environment decides is a parameter of the module: the
    replies of the gateway, the fate of an outgoing SMS, the decoding of
    a message body (base64, then UTF-8) and the two functions of libm.
    Text built by an f-string is kept as its template with its
    arguments.  The lines that [self.log] writes at debug levels and the
    packing of MAVLink messages by pymavlink are left out.

    The file has two parts: the embedding with the vocabulary of the
    properties and a sample installation, then the lemmas and the
    theorems. *)

From Stdlib Require Import ZArith List String Ascii Bool Lia.
From Stdlib Require Import Floats.SpecFloat.
Import ListNotations.

#[local] Set Warnings "-register-all".
Local Open Scope string_scope.
Local Open Scope Z_scope.

(** ** Python strings *)

Module PyStr.

(** A [str] is held as its UTF-8 encoding: a code point is a byte below
    128, or a leading byte followed by one to three continuation
    bytes. *)

Definition byte (a : ascii) : Z := Z.of_nat (nat_of_ascii a).

Definition of_byte (n : Z) : ascii := ascii_of_nat (Z.to_nat n).

Definition is_cont (a : ascii) : bool :=
  (128 <=? byte a) && (byte a <? 192).

(** The code point at the head of a text, with the rest of the text. *)
Definition decode (s : string) : option (Z * string) :=
  match s with
  | EmptyString => None
  | String a r =>
      let x := byte a in
      if x <? 128 then Some (x, r)
      else if x <? 192 then None
      else if x <? 224 then
        match r with
        | String b r2 =>
            if is_cont b
            then Some ((x - 192) * 64 + (byte b - 128), r2)
            else None
        | _ => None
        end
      else if x <? 240 then
        match r with
        | String b (String c r3) =>
            if is_cont b && is_cont c
            then Some (((x - 224) * 64 + (byte b - 128)) * 64
                       + (byte c - 128), r3)
            else None
        | _ => None
        end
      else if x <? 248 then
        match r with
        | String b (String c (String d r4)) =>
            if is_cont b && is_cont c && is_cont d
            then Some ((((x - 240) * 64 + (byte b - 128)) * 64
                        + (byte c - 128)) * 64 + (byte d - 128), r4)
            else None
        | _ => None
        end
      else None
  end.

(** [str.isspace] of a code point: the white space that [str.strip]
    removes. *)
Definition is_space (c : Z) : bool :=
  ((9 <=? c) && (c <=? 13)) || ((28 <=? c) && (c <=? 32))
  || (c =? 0x85) || (c =? 0xA0) || (c =? 0x1680)
  || ((0x2000 <=? c) && (c <=? 0x200A))
  || (c =? 0x2028) || (c =? 0x2029) || (c =? 0x202F)
  || (c =? 0x205F) || (c =? 0x3000).

(** [Py_ISSPACE] of a byte: the white space that [float] and [int] skip
    around a literal. *)
Definition is_c_space (a : ascii) : bool :=
  ((9 <=? byte a) && (byte a <=? 13)) || (byte a =? 32).

Definition is_digit (a : ascii) : bool :=
  (48 <=? byte a) && (byte a <=? 57).

Definition digit_val (a : ascii) : Z := byte a - 48.

(** The code points of the digit zero of each script, other than the
    ASCII one (Unicode 14.0): the ten digits of a script are
    consecutive. *)
Definition decimal_zeros : list Z :=
  [
    0x660; 0x6F0; 0x7C0; 0x966; 0x9E6; 0xA66; 0xAE6; 0xB66; 0xBE6;
    0xC66; 0xCE6; 0xD66; 0xDE6; 0xE50; 0xED0; 0xF20; 0x1040; 0x1090;
    0x17E0; 0x1810; 0x1946; 0x19D0; 0x1A80; 0x1A90; 0x1B50; 0x1BB0;
    0x1C40; 0x1C50; 0xA620; 0xA8D0; 0xA900; 0xA9D0; 0xA9F0; 0xAA50;
    0xABF0; 0xFF10; 0x104A0; 0x10D30; 0x11066; 0x110F0; 0x11136;
    0x111D0; 0x112F0; 0x11450; 0x114D0; 0x11650; 0x116C0; 0x11730;
    0x118E0; 0x11950; 0x11C50; 0x11D50; 0x11DA0; 0x16A60; 0x16AC0;
    0x16B50; 0x1D7CE; 0x1D7D8; 0x1D7E2; 0x1D7EC; 0x1D7F6; 0x1E140;
    0x1E2F0; 0x1E950; 0x1FBF0
  ].

(** [Py_UNICODE_TODECIMAL] of a code point above 127. *)
Definition decimal (c : Z) : option Z :=
  option_map (fun z => c - z)
    (find (fun z => (z <=? c) && (c <? z + 10)) decimal_zeros).

(** The ASCII lower and upper case.  The words the module compares a
    lowercased text with are ASCII words without the letter k, the only
    ASCII letter that is also the lower case of another character
    (U+212A); other code points are kept as they are. *)
Definition lower_char (a : ascii) : ascii :=
  let n := nat_of_ascii a in
  if ((65 <=? n) && (n <=? 90))%nat then ascii_of_nat (n + 32) else a.

Definition upper_char (a : ascii) : ascii :=
  let n := nat_of_ascii a in
  if ((97 <=? n) && (n <=? 122))%nat then ascii_of_nat (n - 32) else a.

Fixpoint map_chars (f : ascii -> ascii) (s : string) : string :=
  match s with
  | EmptyString => EmptyString
  | String a r => String (f a) (map_chars f r)
  end.

Definition lower : string -> string := map_chars lower_char.
Definition upper : string -> string := map_chars upper_char.

(** The rest of a text that begins with a white space character. *)
Definition space_at_head (s : string) : option string :=
  match decode s with
  | Some (c, r) => if is_space c then Some r else None
  | None => None
  end.

(** [s.lstrip()]; no text has more white space than bytes. *)
Fixpoint lstrip_from (fuel : nat) (s : string) : string :=
  match fuel with
  | O => s
  | S n =>
      match space_at_head s with
      | Some r => lstrip_from n r
      | None => s
      end
  end.

Definition lstrip (s : string) : string := lstrip_from (String.length s) s.

(** A text that is one white space character. *)
Definition is_one_space (s : string) : bool :=
  match space_at_head s with
  | Some EmptyString => true
  | _ => false
  end.

(** [s.rstrip()]: what is left of the text once the rest is stripped
    goes too if it is one white space character. *)
Fixpoint rstrip (s : string) : string :=
  match s with
  | EmptyString => EmptyString
  | String a r =>
      let t := String a (rstrip r) in
      if is_one_space t then EmptyString else t
  end.

Definition strip (s : string) : string := rstrip (lstrip s).

(** The same with the white space of [Py_ISSPACE]. *)
Fixpoint lstrip_c (s : string) : string :=
  match s with
  | String a r => if is_c_space a then lstrip_c r else s
  | EmptyString => EmptyString
  end.

Fixpoint rstrip_c (s : string) : string :=
  match s with
  | EmptyString => EmptyString
  | String a r =>
      match rstrip_c r with
      | EmptyString =>
          if is_c_space a then EmptyString else String a EmptyString
      | r' => String a r'
      end
  end.

Definition strip_c (s : string) : string := rstrip_c (lstrip_c s).

(** What [float] and [int] make of a [str] before they read it
    ([_PyUnicode_TransformDecimalAndSpaceToASCII]): above the ASCII
    range a white space character becomes a space, a decimal digit its
    ASCII digit, and at any other character the text ends on a question
    mark. *)
Fixpoint to_ascii_from (fuel : nat) (s : string) : string :=
  match fuel with
  | O => EmptyString
  | S n =>
      match s with
      | EmptyString => EmptyString
      | _ =>
          match decode s with
          | Some (c, r) =>
              if c <? 128 then String (of_byte c) (to_ascii_from n r)
              else if is_space c then String " " (to_ascii_from n r)
              else
                match decimal c with
                | Some d => String (of_byte (48 + d)) (to_ascii_from n r)
                | None => "?"
                end
          | None => "?"
          end
      end
  end.

Definition to_ascii (s : string) : string :=
  to_ascii_from (String.length s) s.

(** [s.rstrip(c)] for [c] the degree sign U+00B0, which is the two
    bytes C2 B0. *)
Fixpoint rstrip_degree (s : string) : string :=
  match s with
  | EmptyString => EmptyString
  | String a r =>
      match rstrip_degree r with
      | EmptyString => String a EmptyString
      | String b EmptyString =>
          if (Ascii.eqb a "194" && Ascii.eqb b "176")%bool then EmptyString
          else String a (String b EmptyString)
      | r' => String a r'
      end
  end.

Definition startswith (p s : string) : bool := String.prefix p s.

(** The continuation bytes at the head of a text, and what follows
    them. *)
Fixpoint take_conts (s : string) : string :=
  match s with
  | String a r => if is_cont a then String a (take_conts r) else EmptyString
  | EmptyString => EmptyString
  end.

Fixpoint drop_conts (s : string) : string :=
  match s with
  | String a r => if is_cont a then drop_conts r else s
  | EmptyString => EmptyString
  end.

(** [s[n:]] and [s[:n]], counted in characters. *)
Fixpoint drop (n : nat) (s : string) : string :=
  match n, s with
  | O, _ => s
  | S n', String _ r => drop n' (drop_conts r)
  | S _, EmptyString => EmptyString
  end.

Fixpoint take (n : nat) (s : string) : string :=
  match n, s with
  | O, _ => EmptyString
  | S n', String a r => String a (take_conts r ++ take n' (drop_conts r))
  | S _, EmptyString => EmptyString
  end.

(** [s[a:b]] for [0 <= a <= b] *)
Definition slice (a b : nat) (s : string) : string := take (b - a) (drop a s).

(** [s.split(' ')]: every single space separates, so consecutive spaces
    give empty fields. *)
Fixpoint split_space_aux (cur : string) (s : string) : list string :=
  match s with
  | EmptyString => [cur]
  | String a r =>
      if Ascii.eqb a " " then cur :: split_space_aux EmptyString r
      else split_space_aux (cur ++ String a EmptyString) r
  end.

Definition split_space (s : string) : list string := split_space_aux EmptyString s.

Definition is_empty (s : string) : bool :=
  match s with EmptyString => true | _ => false end.

(** [needle in s] for strings *)
Fixpoint contains (needle s : string) : bool :=
  String.prefix needle s ||
  match s with
  | EmptyString => false
  | String _ r => contains needle r
  end.

Definition mem (s : string) (l : list string) : bool :=
  existsb (String.eqb s) l.

End PyStr.

(** ** Python numbers *)

Definition float := spec_float.

Module F64.

Definition prec : Z := 53.
Definition emax : Z := 1024.

Definition add : float -> float -> float := SFadd prec emax.
Definition sub : float -> float -> float := SFsub prec emax.
Definition mul : float -> float -> float := SFmul prec emax.
Definition div : float -> float -> float := SFdiv prec emax.
Definition opp : float -> float := SFopp.
Definition abs : float -> float := SFabs.
Definition compare : float -> float -> option comparison := SFcompare.

Definition pzero : float := S754_zero false.

Definition is_nan (x : float) : bool :=
  match x with S754_nan => true | _ => false end.

Definition is_zero (x : float) : bool :=
  match x with S754_zero _ => true | _ => false end.

(** The sign bit of a number: [true] for a negative one. *)
Definition sign_bit (x : float) : option bool :=
  match x with
  | S754_zero s | S754_infinity s | S754_finite s _ _ => Some s
  | S754_nan => None
  end.

(** The nearest double of an integer (an exact zero is [+0.0]). *)
Definition of_Z (z : Z) : float := binary_normalize prec emax z 0 false.

(** The nearest double of [(-1)^neg * m * 10^e10], as the correctly
    rounded decimal-to-binary conversion of the interpreter gives. *)
Definition of_decimal (neg : bool) (m : Z) (e10 : Z) : float :=
  match m with
  | Zpos p =>
      match e10 with
      | Zneg k => div (S754_finite neg p 0) (S754_finite false (Pos.pow 10 k) 0)
      | Z0 => binary_round prec emax neg p 0
      | Zpos k => binary_round prec emax neg (p * Pos.pow 10 k) 0
      end
  | _ => S754_zero neg
  end.

(** [0.5] and [1e7] as doubles. *)
Definition half : float := S754_finite false 4503599627370496 (-53).
Definition ten_million : float := S754_finite false 5368709120000000 (-29).

(** [math.pi / 180.0], the factor of [math.radians]. *)
Definition pi : float := S754_finite false 7074237752028440 (-51).
Definition deg_to_rad : float := div pi (of_Z 180).

End F64.

(** A Python number: [int] or [float]. *)
Inductive num :=
| Int (z : Z)
| Float (f : float).

(** ** JSON documents, exceptions and fallible results *)

Inductive json :=
| JNull
| JBool (b : bool)
| JInt (z : Z)
| JFloat (f : float)
| JStr (s : string)
| JList (l : list json)
| JDict (d : list (string * json)).

(** The exceptions the module can meet.  [JsonRPCError] is the module's
    own class; [ValueError] also stands for its subclasses raised by the
    base64 and UTF-8 decoders; [TransportError] is whatever [requests]
    raises when the exchange or the decoding of the reply fails. *)
Inductive exn :=
| JsonRPCError (code message : json)
| KeyError
| IndexError
| TypeError
| AttributeError
| ValueError
| OverflowError
| ZeroDivisionError
| TransportError.

Inductive pyresult (A : Type) :=
| Ok (a : A)
| Raise (e : exn).

Arguments Ok {A} a.
Arguments Raise {A} e.

Definition rbind {A B} (r : pyresult A) (k : A -> pyresult B) : pyresult B :=
  match r with
  | Ok a => k a
  | Raise e => Raise e
  end.

Declare Scope py_scope.
Delimit Scope py_scope with py.
Notation "'let?' x ':=' r 'in' k" := (rbind r (fun x => k))
  (at level 61, x pattern, r at next level, right associativity) : py_scope.
Local Open Scope py_scope.

Module PyNum.

(** Conversion of an [int] operand of a mixed operation. *)
Definition to_float (z : Z) : pyresult float :=
  match F64.of_Z z with
  | S754_infinity _ => Raise OverflowError
  | f => Ok f
  end.

Definition arith (fz : Z -> Z -> Z) (ff : float -> float -> float)
    (a b : num) : pyresult num :=
  match a, b with
  | Int x, Int y => Ok (Int (fz x y))
  | Int x, Float y => let? x' := to_float x in Ok (Float (ff x' y))
  | Float x, Int y => let? y' := to_float y in Ok (Float (ff x y'))
  | Float x, Float y => Ok (Float (ff x y))
  end.

Definition add : num -> num -> pyresult num := arith Z.add F64.add.
Definition sub : num -> num -> pyresult num := arith Z.sub F64.sub.
Definition mul : num -> num -> pyresult num := arith Z.mul F64.mul.

(** True division [a / b]. *)
Definition div (a b : num) : pyresult num :=
  let? x := match a with Int z => to_float z | Float f => Ok f end in
  let? y := match b with Int z => to_float z | Float f => Ok f end in
  if F64.is_zero y then Raise ZeroDivisionError else Ok (Float (F64.div x y)).

Definition neg (a : num) : num :=
  match a with
  | Int z => Int (- z)
  | Float f => Float (F64.opp f)
  end.

Definition abs (a : num) : num :=
  match a with
  | Int z => Int (Z.abs z)
  | Float f => Float (F64.abs f)
  end.

(** Comparison of a double with an integer is exact: both are compared
    as rationals, without rounding the integer. *)
Definition compare_float_int (f : float) (z : Z) : option comparison :=
  match f with
  | S754_nan => None
  | S754_infinity s => Some (if s then Lt else Gt)
  | S754_zero _ => Some (0 ?= z)
  | S754_finite s m e =>
      let v := cond_Zopp s (Zpos m) in
      match e with
      | Zneg k => Some (v ?= z * Zpos (Pos.pow 2 k))
      | Z0 => Some (v ?= z)
      | Zpos k => Some (v * Zpos (Pos.pow 2 k) ?= z)
      end
  end.

Definition compare (a b : num) : option comparison :=
  match a, b with
  | Int x, Int y => Some (x ?= y)
  | Float x, Float y => F64.compare x y
  | Float x, Int y => compare_float_int x y
  | Int x, Float y => option_map CompOpp (compare_float_int y x)
  end.

(** [a > b], [a < b], [a == b]: false as soon as a NaN is involved. *)
Definition gt (a b : num) : bool :=
  match compare a b with Some Gt => true | _ => false end.
Definition lt (a b : num) : bool :=
  match compare a b with Some Lt => true | _ => false end.
Definition eq (a b : num) : bool :=
  match compare a b with Some Eq => true | _ => false end.

(** [int(x)] of a float: truncation towards zero. *)
Definition int_of_float (f : float) : pyresult Z :=
  match f with
  | S754_nan => Raise ValueError
  | S754_infinity _ => Raise OverflowError
  | S754_zero _ => Ok 0
  | S754_finite s m e => Ok (cond_Zopp s (Z.shiftl (Zpos m) e))
  end.

(** *** Numeric literals

    [float(s)] and [int(s)] first bring [s] to ASCII, then skip the
    white space of [Py_ISSPACE] around it.  Single underscores are
    accepted between two digits and dropped. *)

Fixpoint drop_underscores (prev : option ascii) (s : string) : option string :=
  match s with
  | EmptyString =>
      match prev with
      | Some "_"%char => None
      | _ => Some EmptyString
      end
  | String a r =>
      if Ascii.eqb a "_" then
        match prev with
        | Some p => if PyStr.is_digit p then drop_underscores (Some a) r else None
        | None => None
        end
      else
        match prev with
        | Some "_"%char =>
            if PyStr.is_digit a
            then option_map (String a) (drop_underscores (Some a) r)
            else None
        | _ => option_map (String a) (drop_underscores (Some a) r)
        end
  end.

Definition take_sign (s : string) : bool * string :=
  match s with
  | String "-" r => (true, r)
  | String "+" r => (false, r)
  | _ => (false, s)
  end.

(** Reads a maximal run of digits: the value accumulated on [acc], the
    number of digits read, and the rest of the text. *)
Fixpoint scan_digits (s : string) (acc : Z) (n : Z) : Z * Z * string :=
  match s with
  | String a r =>
      if PyStr.is_digit a
      then scan_digits r (10 * acc + PyStr.digit_val a) (n + 1)
      else (acc, n, s)
  | EmptyString => (acc, n, s)
  end.

(** The exponent part, if any, must reach the end of the literal. *)
Definition scan_exponent (s : string) : option Z :=
  match s with
  | EmptyString => Some 0
  | String c r =>
      if (Ascii.eqb c "e" || Ascii.eqb c "E")%bool then
        let '(sg, r1) := take_sign r in
        match scan_digits r1 0 0 with
        | (v, n, EmptyString) =>
            if n =? 0 then None else Some (if sg then - v else v)
        | _ => None
        end
      else None
  end.

Definition float_of_string (s : string) : pyresult float :=
  match drop_underscores None (PyStr.strip_c (PyStr.to_ascii s)) with
  | None => Raise ValueError
  | Some t =>
      let '(sg, body) := take_sign t in
      let word := PyStr.lower body in
      if (String.eqb word "inf" || String.eqb word "infinity")%bool
      then Ok (S754_infinity sg)
      else if String.eqb word "nan" then Ok S754_nan
      else
        let '(ip, ni, r1) := scan_digits body 0 0 in
        let '(m, nf, r2) :=
          match r1 with
          | String "." r => scan_digits r ip 0
          | _ => (ip, 0, r1)
          end in
        if ni + nf =? 0 then Raise ValueError
        else
          match scan_exponent r2 with
          | Some ex => Ok (F64.of_decimal sg m (ex - nf))
          | None => Raise ValueError
          end
  end.

(** [int(s)]; a literal of more than 4300 digits is refused, which is
    the default of [sys.set_int_max_str_digits]. *)
Definition int_of_string (s : string) : pyresult Z :=
  match drop_underscores None (PyStr.strip_c (PyStr.to_ascii s)) with
  | None => Raise ValueError
  | Some t =>
      let '(sg, body) := take_sign t in
      match scan_digits body 0 0 with
      | (v, n, EmptyString) =>
          if ((n =? 0) || (4300 <? n))%bool then Raise ValueError
          else Ok (if sg then - v else v)
      | _ => Raise ValueError
      end
  end.

(** [int(float(s.strip()))] *)
Definition int_of_float_string (s : string) : pyresult Z :=
  let? f := float_of_string (PyStr.strip s) in int_of_float f.

End PyNum.

(** ** Operations on decoded JSON values *)

Module Json.

Fixpoint lookup (k : string) (d : list (string * json)) : option json :=
  match d with
  | [] => None
  | (k', v) :: r => if String.eqb k k' then Some v else lookup k r
  end.

Definition is_none (j : json) : bool :=
  match j with JNull => true | _ => false end.

(** Truth value of [j], as [or] and [if] test it. *)
Definition truthy (j : json) : bool :=
  match j with
  | JNull => false
  | JBool b => b
  | JInt z => negb (z =? 0)
  | JFloat f => negb (F64.is_zero f)
  | JStr s => negb (PyStr.is_empty s)
  | JList l => match l with [] => false | _ => true end
  | JDict d => match d with [] => false | _ => true end
  end.

(** [j == 0]: true of the integer zero, of both float zeros and of
    [False]. *)
Definition eq_zero (j : json) : bool :=
  match j with
  | JInt z => z =? 0
  | JFloat f => F64.is_zero f
  | JBool b => negb b
  | _ => false
  end.

(** [j == s] for a string literal [s]. *)
Definition eq_str (j : json) (s : string) : bool :=
  match j with
  | JStr t => String.eqb t s
  | _ => false
  end.

(** [j[k]] for a string key. *)
Definition getitem (j : json) (k : string) : pyresult json :=
  match j with
  | JDict d => match lookup k d with Some v => Ok v | None => Raise KeyError end
  | _ => Raise TypeError
  end.

(** [j.get(k)] *)
Definition get (j : json) (k : string) : pyresult json :=
  match j with
  | JDict d => Ok match lookup k d with Some v => v | None => JNull end
  | _ => Raise AttributeError
  end.

(** [j.values()] *)
Definition values (j : json) : pyresult (list json) :=
  match j with
  | JDict d => Ok (map snd d)
  | _ => Raise AttributeError
  end.

(** [k in j] for a string [k]. *)
Definition contains (k : string) (j : json) : pyresult bool :=
  match j with
  | JDict d => Ok match lookup k d with Some _ => true | None => false end
  | JList l => Ok (existsb (fun x => eq_str x k) l)
  | JStr s => Ok (PyStr.contains k s)
  | _ => Raise TypeError
  end.

(** [j.strip()] *)
Definition strip (j : json) : pyresult string :=
  match j with
  | JStr s => Ok (PyStr.strip s)
  | _ => Raise AttributeError
  end.

(** The pair [j[0], j[1] if len(j) > 1 else None], evaluated from left
    to right. *)
Definition unpack_pair (j : json) : pyresult (json * json) :=
  match j with
  | JList [] => Raise IndexError
  | JList [x] => Ok (x, JNull)
  | JList (x :: y :: _) => Ok (x, y)
  | JStr EmptyString => Raise IndexError
  | JStr s =>
      Ok (JStr (PyStr.take 1 s),
          match PyStr.drop 1 s with
          | EmptyString => JNull
          | r => JStr (PyStr.take 1 r)
          end)
  | JDict _ => Raise KeyError
  | _ => Raise TypeError
  end.

Definition of_option (o : option string) : json :=
  match o with Some s => JStr s | None => JNull end.

End Json.

(** ** The module instance and its environment *)

(** [self.teltonika_settings] *)
Record settings := {
  router : option string;
  port : Z;
  username : option string;
  password : option string;
  path : string;
  freq : float;
  logfile : option string;
  sendalllinks : bool;
  sendalloutputs : bool;
  sms_enabled : bool
}.

(** An outbound MAVLink connection; [has_cellular_status] is
    [hasattr(link.mav, "cellular_status_send")]. *)
Record link := {
  link_id : nat;
  has_cellular_status : bool
}.

(** The fields of [TeltonikaModule] that [idle_task] and [incoming_sms]
    read or write, [mpstate.mav_master] (a list object that the poll can
    extend in place), and [net_posts], the number of HTTP POST exchanges
    attempted so far, which indexes the replies of the gateway. *)
Record mstate := {
  cfg : settings;
  started : bool;
  session : json;
  last_status : json;
  last_update : num;
  last_login : num;
  request_num : Z;
  last_status_message_update : num;
  modem : json;
  cmdlong : bool;
  mav_master : list link;
  net_posts : nat
}.

(** The state [__init__] leaves. *)
Definition init (c : settings) (has_cmdlong : bool) (links : list link) : mstate :=
  {| cfg := c; started := false; session := JNull; last_status := JNull;
     last_update := Int 0; last_login := Int 0; request_num := 1;
     last_status_message_update := Int 0; modem := JNull;
     cmdlong := has_cmdlong; mav_master := links; net_posts := 0 |}.

Definition set_started (v : bool) (s : mstate) : mstate :=
  {| cfg := cfg s; started := v; session := session s;
     last_status := last_status s; last_update := last_update s;
     last_login := last_login s; request_num := request_num s;
     last_status_message_update := last_status_message_update s;
     modem := modem s; cmdlong := cmdlong s; mav_master := mav_master s;
     net_posts := net_posts s |}.

Definition set_session (v : json) (s : mstate) : mstate :=
  {| cfg := cfg s; started := started s; session := v;
     last_status := last_status s; last_update := last_update s;
     last_login := last_login s; request_num := request_num s;
     last_status_message_update := last_status_message_update s;
     modem := modem s; cmdlong := cmdlong s; mav_master := mav_master s;
     net_posts := net_posts s |}.

Definition set_last_status (v : json) (s : mstate) : mstate :=
  {| cfg := cfg s; started := started s; session := session s;
     last_status := v; last_update := last_update s;
     last_login := last_login s; request_num := request_num s;
     last_status_message_update := last_status_message_update s;
     modem := modem s; cmdlong := cmdlong s; mav_master := mav_master s;
     net_posts := net_posts s |}.

Definition set_last_update (v : num) (s : mstate) : mstate :=
  {| cfg := cfg s; started := started s; session := session s;
     last_status := last_status s; last_update := v;
     last_login := last_login s; request_num := request_num s;
     last_status_message_update := last_status_message_update s;
     modem := modem s; cmdlong := cmdlong s; mav_master := mav_master s;
     net_posts := net_posts s |}.

Definition set_last_login (v : num) (s : mstate) : mstate :=
  {| cfg := cfg s; started := started s; session := session s;
     last_status := last_status s; last_update := last_update s;
     last_login := v; request_num := request_num s;
     last_status_message_update := last_status_message_update s;
     modem := modem s; cmdlong := cmdlong s; mav_master := mav_master s;
     net_posts := net_posts s |}.

Definition set_last_status_message_update (v : num) (s : mstate) : mstate :=
  {| cfg := cfg s; started := started s; session := session s;
     last_status := last_status s; last_update := last_update s;
     last_login := last_login s; request_num := request_num s;
     last_status_message_update := v;
     modem := modem s; cmdlong := cmdlong s; mav_master := mav_master s;
     net_posts := net_posts s |}.

Definition set_modem (v : json) (s : mstate) : mstate :=
  {| cfg := cfg s; started := started s; session := session s;
     last_status := last_status s; last_update := last_update s;
     last_login := last_login s; request_num := request_num s;
     last_status_message_update := last_status_message_update s;
     modem := v; cmdlong := cmdlong s; mav_master := mav_master s;
     net_posts := net_posts s |}.

Definition set_mav_master (v : list link) (s : mstate) : mstate :=
  {| cfg := cfg s; started := started s; session := session s;
     last_status := last_status s; last_update := last_update s;
     last_login := last_login s; request_num := request_num s;
     last_status_message_update := last_status_message_update s;
     modem := modem s; cmdlong := cmdlong s; mav_master := v;
     net_posts := net_posts s |}.

(** One HTTP POST was attempted; [answered] tells whether a reply was
    decoded, in which case [request_num] is incremented. *)
Definition posted (answered : bool) (s : mstate) : mstate :=
  {| cfg := cfg s; started := started s; session := session s;
     last_status := last_status s; last_update := last_update s;
     last_login := last_login s;
     request_num := if answered then request_num s + 1 else request_num s;
     last_status_message_update := last_status_message_update s;
     modem := modem s; cmdlong := cmdlong s; mav_master := mav_master s;
     net_posts := S (net_posts s) |}.

(** The cached telemetry of the vehicle, [self.master.messages]. *)
Record sys_status := { battery_remaining : Z; voltage_battery : Z }.
Record global_position_int := { lat : Z; lon : Z; vx : Z; vy : Z; hdg : Z }.
Record wind := { speed : float; direction : float }.

(** What the host offers at the time of a call: the selected link
    [self.master] with its flight mode, arming state and cached
    messages, the output-only links, and the target ids. *)
Record vehicle := {
  master : link;
  mav_outputs : list link;
  flightmode : string;
  motors_armed : bool;
  SYS_STATUS : option sys_status;
  GLOBAL_POSITION_INT : option global_position_int;
  WIND : option wind;
  target_system : Z;
  target_component : Z;
  settings_target_system : Z
}.

(** *** Visible effects *)

(** A keyword argument of an RPC call.  The two message templates are
    f-strings over the position and the wall clock; they are kept as the
    template and the position. *)
Inductive param :=
| PJson (j : json)
| PStatusTemplate (lat lon : Z)
| PEventTemplate (lat lon : Z).

(** The body of a POST: [id], [method] and the four positional
    [params]: session token, object, action, keyword arguments. *)
Record rpc_request := {
  rq_id : Z;
  rq_method : string;
  rq_session : json;
  rq_object : string;
  rq_action : string;
  rq_parameters : list (string * param)
}.

Inductive rpc_reply :=
| NoReply
| Reply (body : json).

(** The frame that the module names and that [mavutil.mavlink]
    defines. *)
Inductive mav_frame :=
| MAV_FRAME_LOCAL_OFFSET_NED.

(** Console lines, by template. *)
Inductive line :=
| LineSmsFrom (sender message : string)
| LineMoving (distance_x distance_y : num)
| LineSessionStarted
| LineFailedToLogin
| LineModemSelected (m : json)
| LineInvalidSession
| LineStatusSet (sr sr2 ar : json)
| LinePositionUnknown.

(** Texts of outgoing SMS, by template. *)
Inductive sms_text :=
| SmsStatus (armed : bool) (mode : string) (status : sys_status)
    (position : global_position_int) (w : wind)
| SmsUsageMove
| SmsNotInGuided (mode : string)
| SmsUsageGoto (cmd : string)
| SmsGoingTo (lat lon : num)
| SmsUsageSpeed
| SmsUsageWp
| SmsUnknownCommand (cmd : string).

Inductive event :=
| EvPrint (l : line)
| EvRpc (req : rpc_request) (reply : rpc_reply)
| EvSms (number : string) (text : sms_text)
| EvArm (target_system target_component : Z)
| EvSetMode (mode : string)
| EvSetPositionTargetLocal (target_system : Z) (frame : mav_frame) (x y : num)
| EvSetPositionTargetGlobal (target_system : Z) (lat_int lon_int : Z)
| EvChangeSpeed (args : list string)
| EvWaypointSetCurrent (seq : Z)
| EvCellularStatus (l : link) (status failure_reason type quality mcc mnc lac : Z)
| EvRadioStatus (l : link) (rssi remrssi txbuf noise remnoise rxerrors fixed : Z).

(** Commands to the vehicle. *)
Definition is_vehicle_command (e : event) : bool :=
  match e with
  | EvArm _ _ | EvSetMode _ | EvSetPositionTargetLocal _ _ _ _
  | EvSetPositionTargetGlobal _ _ _ | EvChangeSpeed _
  | EvWaypointSetCurrent _ => true
  | _ => false
  end.

Definition is_rpc (e : event) : bool :=
  match e with EvRpc _ _ => true | _ => false end.

(** Telemetry sent on a link. *)
Definition is_link_status (e : event) : bool :=
  match e with
  | EvCellularStatus _ _ _ _ _ _ _ _ | EvRadioStatus _ _ _ _ _ _ _ _ => true
  | _ => false
  end.

(** ** The monad of module code *)

Definition M (A : Type) : Type := mstate -> pyresult A * mstate * list event.

Definition ret {A} (a : A) : M A := fun s => (Ok a, s, []).

Definition bind {A B} (m : M A) (k : A -> M B) : M B := fun s =>
  match m s with
  | (Ok a, s1, t1) => let '(r, s2, t2) := k a s1 in (r, s2, (t1 ++ t2)%list)
  | (Raise e, s1, t1) => (Raise e, s1, t1)
  end.

Definition lift {A} (r : pyresult A) : M A := fun s => (r, s, []).
Definition read : M mstate := fun s => (Ok s, s, []).
Definition update (f : mstate -> mstate) : M unit := fun s => (Ok tt, f s, []).
Definition emit (e : event) : M unit := fun s => (Ok tt, s, [e]).

Notation "x <- m ;; k" := (bind m (fun x => k))
  (at level 61, m at next level, right associativity) : py_scope.
Notation "' p <- m ;; k" := (bind m (fun x => let p := x in k))
  (at level 61, p pattern, m at next level, right associativity) : py_scope.
Notation "m ;; k" := (bind m (fun _ => k))
  (at level 61, right associativity) : py_scope.

(** Result, final state and effects of a run. *)
Definition result_of {A} (r : pyresult A * mstate * list event) := fst (fst r).
Definition state_of {A} (r : pyresult A * mstate * list event) := snd (fst r).
Definition trace_of {A} (r : pyresult A * mstate * list event) := snd r.

(** How a block of [idle_task] ends: control falls through to the next
    statement, or the function returns. *)
Inductive flow := Continue | Return.

(** The session token sent when none is held. *)
Definition placeholder : string := "00000000000000000000000000000000".

(** The error code of the gateway for an invalid session. *)
Definition invalid_session : string := "-32002".

(** ** The module *)

(** [cmd_start]: [teltonika start] *)
Definition cmd_start (s : mstate) : mstate :=
  match router (cfg s) with
  | None => s
  | Some _ => set_started true s
  end.

(** [teltonika stop] *)
Definition cmd_stop (s : mstate) : mstate :=
  set_last_status JNull (set_session JNull (set_started false s)).

Section Teltonika.

(** The replies of the gateway, in the order of the POST exchanges. *)
Variable gateway : nat -> rpc_reply.

(** Whether the HTTP GET of [send_sms] completes. *)
Variable sms_gateway : string -> sms_text -> bool.

(** [base64.decodebytes(m.encode('ascii')).decode('utf-8')] *)
Variable decode_message : string -> pyresult string.

(** [math.cos] and [math.sin] on finite arguments. *)
Variables math_cos math_sin : float -> float.

(** What [_json_rpc] makes of a decoded reply. *)
Definition read_reply (result : json) : pyresult (json * json) :=
  match result with
  | JDict d =>
      match Json.lookup "error" d with
      | Some err =>
          let? code := Json.getitem err "code" in
          let? message := Json.getitem err "message" in
          Raise (JsonRPCError code message)
      | None =>
          let? r := Json.getitem result "result" in
          Json.unpack_pair r
      end
  | _ => Raise TypeError
  end.

Definition _json_rpc (method obj action : string)
    (parameters : list (string * param)) : M (json * json) := fun s =>
  let req := {| rq_id := request_num s;
                rq_method := method;
                rq_session := if Json.truthy (session s) then session s
                              else JStr placeholder;
                rq_object := obj;
                rq_action := action;
                rq_parameters := parameters |} in
  match gateway (net_posts s) with
  | NoReply => (Raise TransportError, posted false s, [EvRpc req NoReply])
  | Reply result => (read_reply result, posted true s, [EvRpc req (Reply result)])
  end.

(** [except JsonRPCError as e: if e.code == '-32002': ...] around a
    block; any other exception goes through. *)
Definition on_JsonRPCError (code : json) : M unit :=
  if Json.eq_str code invalid_session
  then emit (EvPrint LineInvalidSession) ;; update (set_session JNull)
  else ret tt.

Definition try_except_JsonRPCError (body : M flow) : M flow := fun s =>
  match body s with
  | (Raise (JsonRPCError code _), s1, t1) =>
      let '(r, s2, t2) := (on_JsonRPCError code ;; ret Continue) s1 in
      (r, s2, (t1 ++ t2)%list)
  | r => r
  end.

Fixpoint _any_int (info : json) (keys : list string) : pyresult (option Z) :=
  match keys with
  | [] => Ok None
  | key :: rest =>
      let? value := Json.get info key in
      if Json.is_none value then _any_int info rest
      else
        let? text := Json.strip value in
        match (let? f := PyNum.float_of_string text in PyNum.int_of_float f) with
        | Ok n => Ok (Some n)
        | Raise ValueError => _any_int info rest
        | Raise e => Raise e
        end
  end.

(** [x or d] for an optional integer [x]. *)
Definition or_else (x : option Z) (d : Z) : Z :=
  match x with
  | Some n => if n =? 0 then d else n
  | None => d
  end.

Definition signal_keys : list string := ["signal"; "rsrp"; "rscp"; "rsrq"].

(** [-(_any_int(mobile, 'signal', 'rsrp', 'rscp', 'rsrq') or -255)] *)
Definition rssi_of (mobile : json) : pyresult Z :=
  let? x := _any_int mobile signal_keys in Ok (- or_else x (-255)).

(** [abs(_any_int(mobile, 'sinr') or -255)] *)
Definition snr_of (mobile : json) : pyresult Z :=
  let? x := _any_int mobile ["sinr"] in Ok (Z.abs (or_else x (-255))).

(** The first section of [networks.values()] that has a ['modem']. *)
Fixpoint find_modem (sections : list json) : pyresult (option json) :=
  match sections with
  | [] => Ok None
  | network :: rest =>
      let? has := Json.contains "modem" network in
      if has then let? m := Json.getitem network "modem" in Ok (Some m)
      else find_modem rest
  end.

Definition resolve_modem : M unit :=
  ' (result, info) <- _json_rpc "call" "uci" "get"
                        [("config", PJson (JStr "network"))] ;;
  if Json.eq_zero result then
    networks <- lift (Json.getitem info "values") ;;
    sections <- lift (Json.values networks) ;;
    found <- lift (find_modem sections) ;;
    match found with
    | Some m => update (set_modem m) ;; emit (EvPrint (LineModemSelected m))
    | None => ret tt
    end
  else ret tt.

(** The links of a poll.  With [sendalllinks] the list is
    [mpstate.mav_master] itself, so [links += mav_outputs] extends that
    list. *)
Definition choose_links (veh : vehicle) : M (list link) := fun s =>
  let links := if sendalllinks (cfg s) then mav_master s else [master veh] in
  if sendalloutputs (cfg s) then
    let links' := (links ++ mav_outputs veh)%list in
    (Ok links', if sendalllinks (cfg s) then set_mav_master links' s else s, [])
  else (Ok links, s, []).

Fixpoint send_status (links : list link) (rssi snr : Z) (mcc mnc : string)
    : M unit :=
  match links with
  | [] => ret tt
  | l :: rest =>
      (if has_cellular_status l then
         c <- lift (PyNum.int_of_string mcc) ;;
         n <- lift (PyNum.int_of_string mnc) ;;
         emit (EvCellularStatus l 12 0 4 rssi c n 0)
       else emit (EvRadioStatus l rssi 255 100 snr 255 0 0)) ;;
      send_status rest rssi snr mcc mnc
  end.

(** What the poll does with the reply [info] of [mobile_info] once its
    result code is 0. *)
Definition report_status (now : float) (veh : vehicle) (info : json) : M flow :=
  links <- choose_links veh ;;
  mobile <- lift (Json.getitem info "mobile") ;;
  rssi <- lift (rssi_of mobile) ;;
  snr <- lift (snr_of mobile) ;;
  imsi_field <- lift (Json.getitem mobile "imsi") ;;
  imsi <- lift (Json.strip imsi_field) ;;
  let mcc := PyStr.slice 0 3 imsi in
  let mnc := PyStr.slice 3 5 imsi in
  update (set_last_status mobile) ;;
  update (set_last_update (Float now)) ;;
  send_status links rssi snr mcc mnc ;;
  ret Continue.

(** The body of the [try] of the telemetry poll. *)
Definition poll_body (now : float) (veh : vehicle) : M flow :=
  s <- read ;;
  (if Json.is_none (modem s) then resolve_modem else ret tt) ;;
  s <- read ;;
  if Json.is_none (modem s) then ret Return
  else
    ' (result, info) <- _json_rpc "call" "vuci.network.mobile" "mobile_info"
                          [("modem", PJson (modem s))] ;;
    if Json.eq_zero result then report_status now veh info
    else ret Continue.

(** [if self.session is None: ...] *)
Definition login_block (now : float) : M flow :=
  s <- read ;;
  if Json.is_none (session s) then
    elapsed <- lift (PyNum.sub (Float now) (last_login s)) ;;
    if PyNum.gt elapsed (Int 5) then
      update (set_last_login (Float now)) ;;
      ' (login_result, login_response) <-
          _json_rpc "call" "session" "login"
            [("username", PJson (Json.of_option (username (cfg s))));
             ("password", PJson (Json.of_option (password (cfg s))))] ;;
      if Json.eq_zero login_result then
        sid <- lift (Json.getitem login_response "ubus_rpc_session") ;;
        update (set_session sid) ;;
        emit (EvPrint LineSessionStarted) ;;
        ret Continue
      else
        emit (EvPrint LineFailedToLogin) ;;
        ret Return
    else ret Continue
  else ret Continue.

(** [if now - self.last_update > 1 / self.teltonika_settings.freq: ...] *)
Definition poll_block (now : float) (veh : vehicle) : M flow :=
  s <- read ;;
  elapsed <- lift (PyNum.sub (Float now) (last_update s)) ;;
  period <- lift (PyNum.div (Int 1) (Float (freq (cfg s)))) ;;
  if PyNum.gt elapsed period
  then try_except_JsonRPCError (poll_body now veh)
  else ret Continue.

(** The body of the [try] of the status publication. *)
Definition publish_body (now : float) (position : global_position_int)
    : M flow :=
  ' (sr, _) <- _json_rpc "call" "uci" "set"
                 [("config", PJson (JStr "sms_utils"));
                  ("section", PJson (JStr "cfg0392bd"));
                  ("values", PStatusTemplate (lat position) (lon position))] ;;
  ' (sr2, _) <- _json_rpc "call" "uci" "set"
                  [("config", PJson (JStr "events_reporting"));
                   ("section", PJson (JStr "cfg0292bd"));
                   ("values", PEventTemplate (lat position) (lon position))] ;;
  ' (ar, _) <- _json_rpc "call" "uci" "apply" [("timeout", PJson (JInt 10))] ;;
  (if (negb (Json.eq_zero sr) || negb (Json.eq_zero sr2)
       || negb (Json.eq_zero ar))%bool
   then emit (EvPrint (LineStatusSet sr sr2 ar))
   else ret tt) ;;
  update (set_last_status_message_update (Float now)) ;;
  ret Continue.

(** [if self.session is not None: ...] *)
Definition publish_block (now : float) (veh : vehicle) : M unit :=
  s <- read ;;
  if negb (Json.is_none (session s)) then
    elapsed <- lift (PyNum.sub (Float now) (last_status_message_update s)) ;;
    if PyNum.gt elapsed (Int 30) then
      match GLOBAL_POSITION_INT veh with
      | Some position =>
          try_except_JsonRPCError (publish_body now position) ;; ret tt
      | None => emit (EvPrint LinePositionUnknown)
      end
    else ret tt
  else ret tt.

(** [idle_task], called with the reading [now] of [time.time()]. *)
Definition idle_task (now : float) (veh : vehicle) : M unit :=
  s <- read ;;
  if negb (started s) then ret tt
  else
    f <- login_block now ;;
    match f with
    | Return => ret tt
    | Continue =>
        f <- poll_block now veh ;;
        match f with
        | Return => ret tt
        | Continue => publish_block now veh
        end
    end.

(** The rest of [idle_task] when control falls through the login
    block. *)
Definition after_login (now : float) (veh : vehicle) : M unit :=
  f <- poll_block now veh ;;
  match f with
  | Return => ret tt
  | Continue => publish_block now veh
  end.

(** *** Inbound SMS *)

(** [self.send_sms(to, message)] *)
Definition send_sms (to : string) (message : sms_text) : M unit :=
  emit (EvSms to message) ;;
  if sms_gateway to message then ret tt else lift (Raise TransportError).

(** [[a.strip() for a in text.split(' ') if a.strip()]] *)
Definition tokens (text : string) : list string :=
  map PyStr.strip
    (filter (fun a => negb (PyStr.is_empty (PyStr.strip a)))
       (PyStr.split_space text)).

(** [args[i]], for an index within the list. *)
Definition arg (args : list string) (i : nat) : string := nth i args "".

Definition compass : list string :=
  ["s"; "e"; "w"; "n"; "north"; "south"; "east"; "west"].

(** [d if direction in pos else -d if direction in neg else 0] *)
Definition along (d : float) (direction : string) (pos neg : list string)
    : num :=
  if PyStr.mem direction pos then Float d
  else if PyStr.mem direction neg then Float (F64.opp d)
  else Int 0.

(** [math.radians(bearing)] for an integer bearing. *)
Definition radians (bearing : Z) : pyresult float :=
  let? b := PyNum.to_float bearing in Ok (F64.mul b F64.deg_to_rad).

(** The frame and displacement that [move] computes from its three or
    five tokens.  Without a bearing, and unless the directions are
    compass words, the frame is to be
    [mavutil.mavlink.MAV_FRAME_BODY_OFFSET_FRD]: the MAVLink frames of
    the body are [BODY_NED], [BODY_OFFSET_NED] and [BODY_FRD], no
    attribute has that name, and the assignment raises
    [AttributeError]. *)
Definition move_displacement (args : list string)
    : pyresult (mav_frame * num * num) :=
  let five := (List.length args =? 5)%nat in
  let? distance1 := PyNum.float_of_string (arg args 1) in
  let direction1 := PyStr.lower (arg args 2) in
  let? distance2 :=
    if five then PyNum.float_of_string (arg args 3) else Ok F64.pzero in
  let direction2 := if five then PyStr.lower (arg args 4) else "" in
  let? bearing :=
    if String.eqb direction2 "" then
      match PyNum.int_of_string direction1 with
      | Ok b => Ok (Some b)
      | Raise ValueError => Ok None
      | Raise e => Raise e
      end
    else Ok None in
  match bearing with
  | Some b =>
      let? r := radians b in
      let distance_x := F64.mul distance1 (math_cos r) in
      let? r' := radians b in
      let distance_y := F64.mul distance1 (math_sin r') in
      Ok (MAV_FRAME_LOCAL_OFFSET_NED, Float distance_x, Float distance_y)
  | None =>
      let? axes :=
        if (PyStr.mem direction1 compass
            && PyStr.mem direction2 ("" :: compass))%bool
        then Ok (MAV_FRAME_LOCAL_OFFSET_NED,
                 ["n"; "north"], ["s"; "south"], ["e"; "east"], ["w"; "west"])
        else Raise AttributeError in
      let '(frame, pos_x, neg_x, pos_y, neg_y) := axes in
      let? distance_x := PyNum.add (along distance1 direction1 pos_x neg_x)
                                   (along distance2 direction2 pos_x neg_x) in
      let? distance_y := PyNum.add (along distance1 direction1 pos_y neg_y)
                                   (along distance2 direction2 pos_y neg_y) in
      Ok (frame, distance_x, distance_y)
  end.

Definition cmd_move (sender : string) (args : list string) (veh : vehicle)
    : M string :=
  if negb ((List.length args =? 3)%nat || (List.length args =? 5)%nat) then
    send_sms sender SmsUsageMove ;; ret "OK"
  else if negb (String.eqb (flightmode veh) "GUIDED") then
    send_sms sender (SmsNotInGuided (flightmode veh)) ;; ret "OK"
  else
    ' (frame, distance_x, distance_y) <- lift (move_displacement args) ;;
    emit (EvPrint (LineMoving distance_x distance_y)) ;;
    (if (PyNum.gt (PyNum.abs distance_x) (Float F64.half)
         || PyNum.gt (PyNum.abs distance_y) (Float F64.half))%bool
     then emit (EvSetPositionTargetLocal (settings_target_system veh) frame
                  distance_x distance_y)
     else ret tt) ;;
    ret "Thanks".

(** [1 if token[0] == letter else -1] *)
Definition hemisphere (token : string) (letter : ascii) : pyresult num :=
  match token with
  | String c _ => Ok (Int (if Ascii.eqb c letter then 1 else -1))
  | EmptyString => Raise IndexError
  end.

(** The coordinates that [goto] computes from its three or five
    tokens. *)
Definition goto_target (args : list string) : pyresult (num * num) :=
  if (List.length args =? 3)%nat then
    let? lat := PyNum.float_of_string (arg args 1) in
    let? lon := PyNum.float_of_string (arg args 2) in
    Ok (Float lat, Float lon)
  else
    let? a := PyNum.float_of_string (PyStr.rstrip_degree (arg args 1)) in
    let? sa := hemisphere (arg args 2) "N" in
    let? lat := PyNum.mul (Float a) sa in
    let? b := PyNum.float_of_string (PyStr.rstrip_degree (arg args 3)) in
    let? sb := hemisphere (arg args 4) "E" in
    let? lon := PyNum.mul (Float b) sb in
    Ok (lat, lon).

(** [int(x * 1e7)] *)
Definition scaled_int (x : num) : pyresult Z :=
  let? y := PyNum.mul x (Float F64.ten_million) in
  match y with
  | Int z => Ok z
  | Float f => PyNum.int_of_float f
  end.

Definition cmd_goto (cmd sender : string) (args : list string) (veh : vehicle)
    : M string :=
  if negb ((List.length args =? 3)%nat || (List.length args =? 5)%nat) then
    send_sms sender (SmsUsageGoto cmd) ;; ret "OK"
  else if negb (String.eqb (flightmode veh) "GUIDED") then
    send_sms sender (SmsNotInGuided (flightmode veh)) ;; ret "OK"
  else
    ' (lat, lon) <- lift (goto_target args) ;;
    send_sms sender (SmsGoingTo lat lon) ;;
    lat_int <- lift (scaled_int lat) ;;
    lon_int <- lift (scaled_int lon) ;;
    emit (EvSetPositionTargetGlobal (settings_target_system veh)
            lat_int lon_int) ;;
    ret "Thanks".

(** The dispatch on the lowercased first token. *)
Definition command (sender : string) (args : list string) (veh : vehicle)
    : M string :=
  match args with
  | [] => lift (Raise IndexError)
  | first :: _ =>
      let cmd := PyStr.lower first in
      if String.eqb cmd "arm" then
        emit (EvArm (target_system veh) (target_component veh)) ;;
        ret "Thanks"
      else if String.eqb cmd "status" then
        match SYS_STATUS veh, GLOBAL_POSITION_INT veh, WIND veh with
        | Some status, Some position, Some w =>
            send_sms sender
              (SmsStatus (motors_armed veh) (flightmode veh) status position w) ;;
            ret "Thanks"
        | _, _, _ => lift (Raise AttributeError)
        end
      else if PyStr.mem cmd ["rtl"; "auto"; "guided"; "hold"] then
        emit (EvSetMode (PyStr.upper cmd)) ;; ret "Thanks"
      else if PyStr.mem cmd ["loit"; "loiter"] then
        emit (EvSetMode "LOITER") ;; ret "Thanks"
      else if String.eqb cmd "move" then cmd_move sender args veh
      else if PyStr.mem cmd ["goto"; "go"] then cmd_goto cmd sender args veh
      else if String.eqb cmd "pause" then
        emit (EvSetMode "LOITER") ;; ret "Thanks"
      else if String.eqb cmd "speed" then
        if negb (List.length args =? 2)%nat then
          send_sms sender SmsUsageSpeed ;; ret "OK"
        else
          s <- read ;;
          if cmdlong s then
            emit (EvChangeSpeed (tl args)) ;; ret "Thanks"
          else lift (Raise AttributeError)
      else if PyStr.mem cmd ["start"; "resume"] then
        (if String.eqb (flightmode veh) "AUTO"
         then emit (EvSetMode "LOITER") else ret tt) ;;
        emit (EvSetMode "AUTO") ;;
        ret "Thanks"
      else if String.eqb cmd "wp" then
        if negb (List.length args =? 2)%nat then
          send_sms sender SmsUsageWp ;; ret "OK"
        else
          n <- lift (PyNum.int_of_string (arg args 1)) ;;
          emit (EvWaypointSetCurrent n) ;;
          ret "Thanks"
      else
        send_sms sender (SmsUnknownCommand cmd) ;; ret "Thanks"
  end.

(** [request.args[key]] *)
Definition request_arg (query : list (string * string)) (key : string)
    : pyresult string :=
  match find (fun kv => String.eqb (fst kv) key) query with
  | Some kv => Ok (snd kv)
  | None => Raise KeyError
  end.

(** [incoming_sms], serving a GET whose query string is [query]. *)
Definition incoming_sms (query : list (string * string)) (veh : vehicle)
    : M string :=
  s <- read ;;
  if negb (sms_enabled (cfg s)) then ret "DISABLED"
  else
    sender <- lift (request_arg query "sender") ;;
    raw <- lift (request_arg query "message") ;;
    decoded <- lift (decode_message raw) ;;
    let message := PyStr.strip decoded in
    emit (EvPrint (LineSmsFrom sender message)) ;;
    if PyStr.startswith "!!" message
    then command sender (tokens (PyStr.drop 2 message)) veh
    else ret "Thanks".

(** *** Runs of the module *)

(** The host calls [idle_task] again and again, and the REST server
    calls [incoming_sms] when a message arrives. *)
Inductive step :=
| Tick (now : float) (veh : vehicle)
| Sms (query : list (string * string)) (veh : vehicle).

(** State and effects of one call; an exception that leaves the call
    does not undo what the call did before. *)
Definition run_step (st : step) (s : mstate) : mstate * list event :=
  match st with
  | Tick now veh => let '(_, s1, t) := idle_task now veh s in (s1, t)
  | Sms query veh => let '(_, s1, t) := incoming_sms query veh s in (s1, t)
  end.

Fixpoint run (steps : list step) (s : mstate) : mstate * list event :=
  match steps with
  | [] => (s, [])
  | st :: rest =>
      let '(s1, t1) := run_step st s in
      let '(s2, t2) := run rest s1 in
      (s2, (t1 ++ t2)%list)
  end.

End Teltonika.

(** The request of the first RPC exchange of a trace. *)
Fixpoint first_rpc (t : list event) : option rpc_request :=
  match t with
  | [] => None
  | EvRpc req _ :: _ => Some req
  | _ :: rest => first_rpc rest
  end.

(** The token that a call sends when [held] is the stored session. *)
Definition token (held : json) : json :=
  if Json.truthy held then held else JStr placeholder.

(** ** The command line of the module *)

(** Console lines of [cmd_teltonika], by template; an entry of the
    status listing keeps the key, the width it is padded to and the
    stripped value. *)
Inductive console_line :=
| ConsoleUsage
| ConsoleRequireRouter
| ConsoleNotStarted
| ConsoleNoData
| ConsoleEntry (key : string) (width : nat) (value : string).

(** The loop of [teltonika_status]: one line per entry; a value that is
    not a string stops the listing with the lines written so far. *)
Fixpoint print_entries (width : nat) (entries : list (string * json))
    : pyresult unit * list console_line :=
  match entries with
  | [] => (Ok tt, [])
  | (key, value) :: rest =>
      match Json.strip value with
      | Ok text =>
          let '(r, out) := print_entries width rest in
          (r, ConsoleEntry key width text :: out)
      | Raise e => (Raise e, [])
      end
  end.

(** [teltonika_status]; [max] of no key raises [ValueError]. *)
Definition teltonika_status (s : mstate) : pyresult unit * list console_line :=
  if negb (started s) then (Ok tt, [ConsoleNotStarted])
  else if Json.is_none (last_status s) then (Ok tt, [ConsoleNoData])
  else
    match last_status s with
    | JDict d =>
        match d with
        | [] => (Raise ValueError, [])
        | _ => print_entries (list_max (map (fun kv => String.length (fst kv)) d)) d
        end
    | _ => (Raise AttributeError, [])
    end.

Definition set_cfg (v : settings) (s : mstate) : mstate :=
  {| cfg := v; started := started s; session := session s;
     last_status := last_status s; last_update := last_update s;
     last_login := last_login s; request_num := request_num s;
     last_status_message_update := last_status_message_update s;
     modem := modem s; cmdlong := cmdlong s; mav_master := mav_master s;
     net_posts := net_posts s |}.

Section CommandLine.

(** [self.teltonika_settings.command], of the host's settings class. *)
Variable settings_command : list string -> settings -> settings.

(** [cmd_teltonika]: [start] is tested on its own, then [stop],
    [status] and [set] in a chain. *)
Definition cmd_teltonika (args : list string) (s : mstate)
    : pyresult unit * mstate * list console_line :=
  match args with
  | [] => (Ok tt, s, [ConsoleUsage])
  | a0 :: rest =>
      let s1 := if String.eqb a0 "start" then cmd_start s else s in
      let out1 :=
        if String.eqb a0 "start" then
          match router (cfg s) with
          | None => [ConsoleRequireRouter]
          | Some _ => []
          end
        else [] in
      if String.eqb a0 "stop" then (Ok tt, cmd_stop s1, out1)
      else if String.eqb a0 "status" then
        let '(r, out) := teltonika_status s1 in (r, s1, (out1 ++ out)%list)
      else if String.eqb a0 "set" then
        (Ok tt, set_cfg (settings_command rest (cfg s1)) s1, out1)
      else (Ok tt, s1, out1)
  end.

End CommandLine.

(** ** The joystick module: channel overrides

    The loop of [idle_task] in [mavproxy_joystick], once a joystick is
    active: each pending event takes a reading of the controls and
    writes it over the first channels of the RC override. *)

Module Joystick.

(** The [rc] module as the loop sees it: the override list and the
    number of times [override_period.force()] was called. *)
Record rc := {
  override : list Z;
  forced : nat
}.

(** [values + override[len(values):]] *)
Definition merge (values current : list Z) : list Z :=
  (values ++ skipn (List.length values) current)%list.

Fixpoint list_eqb (a b : list Z) : bool :=
  match a, b with
  | [], [] => true
  | x :: a', y :: b' => (x =? y) && list_eqb a' b'
  | _, _ => false
  end.

(** The body of the loop for one event, [values] being what
    [self.joystick.read()] returns. *)
Definition on_event (values : list Z) (r : rc) : rc :=
  let merged := merge values (override r) in
  if negb (list_eqb merged (override r))
  then {| override := merged; forced := S (forced r) |}
  else r.

(** The loop over the pending events, each with its reading. *)
Definition process_events (readings : list (list Z)) (r : rc) : rc :=
  fold_left (fun acc values => on_event values acc) readings r.

End Joystick.

(** * Vocabulary of the properties *)

(** ** Signal strength *)

(** A key that [_any_int] passes over: it is absent, its value is
    [null], or its text is not a number. *)
Definition passed_over (d : list (string * json)) (k : string) : Prop :=
  Json.lookup k d = None \/ Json.lookup k d = Some JNull \/
  exists s, Json.lookup k d = Some (JStr s) /\
            PyNum.int_of_float_string s = Raise ValueError.

(** The first of the keys that is present in the map, in the words of
    the specification. *)
Fixpoint first_present (d : list (string * json)) (keys : list string)
    : option json :=
  match keys with
  | [] => None
  | k :: rest =>
      match Json.lookup k d with
      | Some v => Some v
      | None => first_present d rest
      end
  end.

(** The rule of the specification: the first present key decides, and
    its absence gives 255. *)
Definition first_present_rule (d : list (string * json)) : Prop :=
  match first_present d signal_keys with
  | Some v =>
      exists s n, v = JStr s /\ PyNum.int_of_float_string s = Ok n /\
                  rssi_of (JDict d) = Ok (- n)
  | None => rssi_of (JDict d) = Ok 255
  end.

(** A status in which [signal] is not numeric and [rsrp] is. *)
Definition mobile_no_signal_reading : list (string * json) :=
  [("signal", JStr "N/A"); ("rsrp", JStr "-95"); ("imsi", JStr "246011234567890")].

(** ** Frame conditions *)

(** [keeps proj Q m]: whatever its outcome, [m] leaves the part [proj]
    of the state as it was, and every effect of [m] satisfies [Q] at
    the value of that part. *)
Definition keeps {X : Type} (proj : mstate -> X) (Q : X -> event -> Prop)
    {A} (m : M A) : Prop :=
  forall s,
    proj (state_of (m s)) = proj s /\ Forall (Q (proj s)) (trace_of (m s)).

(** A result of the built-in operations: a value, or any exception but
    [JsonRPCError]. *)
Definition builtin {A} (r : pyresult A) : Prop :=
  match r with
  | Raise (JsonRPCError _ _) => False
  | _ => True
  end.

(** [never_faults m]: [m] does not end in a [JsonRPCError]. *)
Definition never_faults {A} (m : M A) : Prop :=
  forall s, builtin (result_of (m s)).

(** [clean_on_fault proj Q m]: when [m] ends in a [JsonRPCError], it
    has left the part [proj] of the state as it was and all its effects
    satisfy [Q]. *)
Definition clean_on_fault {X : Type} (proj : mstate -> X)
    (Q : X -> event -> Prop) {A} (m : M A) : Prop :=
  forall s,
    ~ builtin (result_of (m s)) ->
    proj (state_of (m s)) = proj s /\ Forall (Q (proj s)) (trace_of (m s)).

(** ** Displacements and coordinates *)

(** [a] and [b] are the same number: they are equal as [==] compares
    them (which identifies the two zeros), or they are the same value
    (which a NaN is to itself, though [==] denies it). *)
Definition same_number (a b : num) : Prop :=
  PyNum.eq a b = true \/ a = b.

(** [w] is the negation of [v], component by component. *)
Definition negated (v w : num * num) : Prop :=
  same_number (fst w) (PyNum.neg (fst v)) /\
  same_number (snd w) (PyNum.neg (snd v)).

(** The float that results from adding the integer 0. *)
Definition plus_int_zero (x : float) : float :=
  if F64.is_zero x then F64.pzero else x.

(** The factor applied to a coordinate: [1.0] when the first character
    of the hemisphere token is [letter], [-1.0] otherwise. *)
Definition hemisphere_factor (c letter : ascii) : float :=
  F64.of_Z (if Ascii.eqb c letter then 1 else -1).

(** ** Calls and messages of a tick *)

(** The call [session login]. *)
Definition is_login_call (e : event) : bool :=
  match e with
  | EvRpc req _ =>
      (String.eqb (rq_object req) "session" && String.eqb (rq_action req) "login")%bool
  | _ => false
  end.

(** The snapshot of the last poll: [last_status] with its time. *)
Definition snapshot (s : mstate) : json * num := (last_status s, last_update s).

(** The result code of an exchange that completes: the reply is
    decoded and carries a result. *)
Definition completed (reply : rpc_reply) : option json :=
  match reply with
  | Reply body =>
      match read_reply body with
      | Ok (code, _) => Some code
      | Raise _ => None
      end
  | NoReply => None
  end.

(** A call on the object [obj] with the action [action]. *)
Definition is_rpc_of (obj action : string) (e : event) : bool :=
  match e with
  | EvRpc req _ =>
      (String.eqb (rq_object req) obj && String.eqb (rq_action req) action)%bool
  | _ => false
  end.

(** A link message that carries the signal strength [rssi] and, in the
    radio shape, the noise [snr]. *)
Definition carries (rssi snr : Z) (e : event) : Prop :=
  match e with
  | EvCellularStatus _ _ _ _ quality _ _ _ => quality = rssi
  | EvRadioStatus _ r _ _ noise _ _ _ => r = rssi /\ noise = snr
  | _ => True
  end.

(** Every call of a trace sends the token of the session [held]. *)
Definition sends_token (held : json) (e : event) : Prop :=
  match e with
  | EvRpc req _ => rq_session req = token held
  | _ => True
  end.

(** What a call leaves to the next one: no session, or a trace whose
    first call sent the placeholder. *)
Definition placeholder_first (s : mstate) (t : list event) : Prop :=
  match first_rpc t with
  | Some req => rq_session req = JStr placeholder
  | None => session s = JNull
  end.

(** ** A sample installation *)

Module Sample.

Definition one : float := S754_finite false 4503599627370496 (-52).
Definition ten : float := S754_finite false 5629499534213120 (-49).
Definition fifteen : float := S754_finite false 8444249301319680 (-49).
Definition hundred : float := S754_finite false 7036874417766400 (-46).

Definition config : settings :=
  {| router := Some "192.168.1.1"; port := 80;
     username := Some "admin"; password := Some "secret";
     path := "ubus"; freq := one; logfile := None;
     sendalllinks := false; sendalloutputs := false; sms_enabled := true |}.

Definition config_no_sms : settings :=
  {| router := Some "192.168.1.1"; port := 80;
     username := Some "admin"; password := Some "secret";
     path := "ubus"; freq := one; logfile := None;
     sendalllinks := false; sendalloutputs := false; sms_enabled := false |}.

Definition radio : link := {| link_id := 0; has_cellular_status := false |}.

Definition position : global_position_int :=
  {| lat := 546871550; lon := 252796510; vx := 0; vy := 0; hdg := 9000 |}.

Definition guided : vehicle :=
  {| master := radio; mav_outputs := []; flightmode := "GUIDED";
     motors_armed := true; SYS_STATUS := None;
     GLOBAL_POSITION_INT := Some position; WIND := None;
     target_system := 1; target_component := 1;
     settings_target_system := 1 |}.

(** The module after [teltonika start]. *)
Definition fresh : mstate := cmd_start (init config true [radio]).

(** The module ten seconds into the run, a login having just failed. *)
Definition login_failed : mstate := set_last_login (Float ten) fresh.

(** The module logged in, the modem known. *)
Definition logged_in : mstate :=
  set_modem (JStr "3-1") (set_session (JStr "5c1a9ed2e4b84dbba8b07d10c4a1f2a3") fresh).

Definition sms_off : mstate := init config_no_sms true [radio].

(** A gateway that refuses the session of every call. *)
Definition refusing : nat -> rpc_reply := fun _ =>
  Reply (JDict [("jsonrpc", JStr "2.0");
                ("error", JDict [("code", JStr "-32002");
                                 ("message", JStr "Access denied")])]).

(** A gateway that accepts every call with the result code 0. *)
Definition accepting : nat -> rpc_reply := fun _ =>
  Reply (JDict [("jsonrpc", JStr "2.0"); ("result", JList [JInt 0])]).

Definition sms_sent : string -> sms_text -> bool := fun _ _ => true.

(** The decoding of the three message bodies used below. *)
Definition decode (raw : string) : pyresult string :=
  if String.eqb raw "ISFtb3ZlIDAuMyBu" then Ok "!!move 0.3 n"
  else if String.eqb raw "aGVsbG8gdGhlcmU=" then Ok "hello there"
  else Raise ValueError.

(** Stand-ins for the two libm functions, which no sample reaches. *)
Definition cos : float -> float := fun _ => one.
Definition sin : float -> float := fun _ => F64.pzero.

Definition query (raw : string) : list (string * string) :=
  [("sender", "+37060000000"); ("message", raw)].

End Sample.

(** * Vocabulary of the further properties *)

(** ** Effects of the two entry points *)

Definition is_sms (e : event) : bool :=
  match e with EvSms _ _ => true | _ => false end.

(** What the telemetry path can do: write a console line, call the
    gateway, send a status message on a link. *)
Definition is_telemetry_effect (e : event) : bool :=
  match e with
  | EvPrint _ | EvRpc _ _ => true
  | _ => is_link_status e
  end.

(** What the SMS path can do: write a console line, send an SMS,
    command the vehicle. *)
Definition is_sms_effect (e : event) : bool :=
  match e with
  | EvPrint _ | EvSms _ _ => true
  | _ => is_vehicle_command e
  end.

(** The fields that neither entry point writes. *)
Definition installation (s : mstate) : settings * bool * bool :=
  (cfg s, started s, cmdlong s).

(** ** Request ids *)

(** The ids of the calls of a trace follow the counter [n]: each call
    carries the current value, and an answered call advances it by one.
    The result is the counter after the trace. *)
Fixpoint numbered (n : Z) (t : list event) : option Z :=
  match t with
  | [] => Some n
  | EvRpc req reply :: rest =>
      if rq_id req =? n then
        numbered (match reply with Reply _ => n + 1 | NoReply => n end) rest
      else None
  | _ :: rest => numbered n rest
  end.

(** [counts m]: the calls of [m] are numbered from [request_num], which
    ends at the counter after them. *)
Definition counts {A} (m : M A) : Prop :=
  forall s,
    numbered (request_num s) (trace_of (m s)) =
    Some (request_num (state_of (m s))).

(** ** The modem handle *)

(** [modem_cached m]: run with a modem already known, [m] leaves the
    handle as it is and makes no [uci get] call. *)
Definition modem_cached {A} (m : M A) : Prop :=
  forall s,
    Json.is_none (modem s) = false ->
    modem (state_of (m s)) = modem s /\
    Forall (fun e => is_rpc_of "uci" "get" e = false) (trace_of (m s)).

(** A section of the network configuration without a [modem] member. *)
Definition plain_section (section : json) : Prop :=
  exists d, section = JDict d /\ Json.lookup "modem" d = None.

(** ** The report of a poll *)

(** The links of a poll: the selected link or all the links, then the
    outputs if they are asked for. *)
Definition selected_links (s : mstate) (veh : vehicle) : list link :=
  ((if sendalllinks (cfg s) then mav_master s else [master veh]) ++
   (if sendalloutputs (cfg s) then mav_outputs veh else []))%list.

(** The module after the links are selected: with both flags set the
    list of all links has been extended by the outputs. *)
Definition after_selection (s : mstate) (veh : vehicle) : mstate :=
  if (sendalllinks (cfg s) && sendalloutputs (cfg s))%bool
  then set_mav_master (mav_master s ++ mav_outputs veh)%list s
  else s.

(** The message that a link gets, in the shape it supports. *)
Definition status_message (rssi snr mcc mnc : Z) (l : link) : event :=
  if has_cellular_status l
  then EvCellularStatus l 12 0 4 rssi mcc mnc 0
  else EvRadioStatus l rssi 255 100 snr 255 0 0.

(** The message of a link that only supports the radio shape. *)
Definition radio_message (rssi snr : Z) (l : link) : event :=
  EvRadioStatus l rssi 255 100 snr 255 0 0.

(** The module after [k] reports of [info]. *)
Fixpoint after_reports (k : nat) (now : float) (veh : vehicle) (info : json)
    (s : mstate) : mstate :=
  match k with
  | O => s
  | S k' => state_of (report_status now veh info (after_reports k' now veh info s))
  end.

(** ** Login *)

(** The login call of the module in the state [s]. *)
Definition login_request (s : mstate) : rpc_request :=
  {| rq_id := request_num s;
     rq_method := "call";
     rq_session := JStr placeholder;
     rq_object := "session";
     rq_action := "login";
     rq_parameters :=
       [("username", PJson (Json.of_option (username (cfg s))));
        ("password", PJson (Json.of_option (password (cfg s))))] |}.

(** A tick on which a login is due: the module is started, holds no
    session, and counts more than 5 seconds since the last attempt. *)
Definition login_due (now : float) (s : mstate) : Prop :=
  started s = true /\
  session s = JNull /\
  exists elapsed,
    PyNum.sub (Float now) (last_login s) = Ok elapsed /\
    PyNum.gt elapsed (Int 5) = true.

(** ** The command line *)

(** A run made of ticks only. *)
Definition ticks (l : list (float * vehicle)) : list step :=
  map (fun p => Tick (fst p) (snd p)) l.

(** The text of a value of the status map, stripped. *)
Definition entry_text (v : json) : string :=
  match v with
  | JStr t => PyStr.strip t
  | _ => ""
  end.

Definition is_text (v : json) : Prop := exists t, v = JStr t.

(** The line of the status listing for an entry. *)
Definition status_line (width : nat) (kv : string * json) : console_line :=
  ConsoleEntry (fst kv) width (entry_text (snd kv)).

(** ** Commands by SMS *)

(** The request [query] carries a command: SMS handling is enabled,
    the request names the sender, and its message decodes to a text
    that, stripped, is [message], begins with [!!] and has the tokens
    [args] after that mark. *)
Definition received (decode_message : string -> pyresult string)
    (query : list (string * string)) (s : mstate)
    (sender message : string) (args : list string) : Prop :=
  sms_enabled (cfg s) = true /\
  request_arg query "sender" = Ok sender /\
  (exists raw text,
      request_arg query "message" = Ok raw /\
      decode_message raw = Ok text /\
      message = PyStr.strip text) /\
  PyStr.startswith "!!" message = true /\
  tokens (PyStr.drop 2 message) = args.

(** A call that only sends the SMS [text] to [to] and answers [OK],
    unless the HTTP request of the SMS fails. *)
Definition sms_reply (sms_gateway : string -> sms_text -> bool)
    (to : string) (text : sms_text) (s : mstate)
    : pyresult string * mstate * list event :=
  (if sms_gateway to text then Ok "OK" else Raise TransportError,
   s, [EvSms to text]).

(** Every value that [m] returns satisfies [P]. *)
Definition returns {A} (P : A -> Prop) (m : M A) : Prop :=
  forall s a, result_of (m s) = Ok a -> P a.

(** The direction words of the body frame. *)
Definition body_words : list string := ["fwd"; "aft"; "stb"; "port"].

(** ** Further sample data *)

Module Scenario.

Definition cellular : link := {| link_id := 1; has_cellular_status := true |}.
Definition output : link := {| link_id := 2; has_cellular_status := false |}.

Definition config_all : settings :=
  {| router := Some "192.168.1.1"; port := 80;
     username := Some "admin"; password := Some "secret";
     path := "ubus"; freq := Sample.one; logfile := None;
     sendalllinks := true; sendalloutputs := true; sms_enabled := true |}.

Definition config_outputs : settings :=
  {| router := Some "192.168.1.1"; port := 80;
     username := Some "admin"; password := Some "secret";
     path := "ubus"; freq := Sample.one; logfile := None;
     sendalllinks := false; sendalloutputs := true; sms_enabled := true |}.

Definition config_zero_freq : settings :=
  {| router := Some "192.168.1.1"; port := 80;
     username := Some "admin"; password := Some "secret";
     path := "ubus"; freq := F64.pzero; logfile := None;
     sendalllinks := false; sendalloutputs := false; sms_enabled := true |}.

(** The sample vehicle with one more output, of the radio or of the
    cellular kind, and in another flight mode. *)
Definition with_output (l : link) : vehicle :=
  {| master := Sample.radio; mav_outputs := [l]; flightmode := "GUIDED";
     motors_armed := true; SYS_STATUS := None;
     GLOBAL_POSITION_INT := Some Sample.position; WIND := None;
     target_system := 1; target_component := 1;
     settings_target_system := 1 |}.

Definition in_auto : vehicle :=
  {| master := Sample.radio; mav_outputs := []; flightmode := "AUTO";
     motors_armed := true; SYS_STATUS := None;
     GLOBAL_POSITION_INT := Some Sample.position; WIND := None;
     target_system := 1; target_component := 1;
     settings_target_system := 1 |}.

Definition token_held : json := JStr "5c1a9ed2e4b84dbba8b07d10c4a1f2a3".

(** Logged in, and no modem known yet. *)
Definition session_only : mstate := set_session token_held Sample.fresh.

(** Logged in with the modem known, under each configuration. *)
Definition ready (c : settings) : mstate :=
  set_modem (JStr "3-1")
    (set_session token_held (cmd_start (init c true [Sample.radio]))).

(** Replies of [mobile_info]: a full one, one of a modem without a SIM,
    one whose signal is a JSON number. *)
Definition info : json :=
  JDict [("mobile", JDict [("signal", JStr "-71"); ("sinr", JStr "12");
                           ("imsi", JStr "246020123456789")])].

Definition info_no_sim : json :=
  JDict [("mobile", JDict [("signal", JStr "-71"); ("sinr", JStr "12");
                           ("imsi", JStr "")])].

Definition info_numeric : json :=
  JDict [("mobile", JDict [("signal", JInt (-71)); ("sinr", JStr "12");
                           ("imsi", JStr "246020123456789")])].


Definition listed_with_number : mstate :=
  set_last_status (JDict [("signal", JStr "-71"); ("band", JInt 3);
                          ("operator", JStr "Tele2")])
    Sample.logged_in.

(** Gateways: one whose network configuration has no modem, one that
    denies every call with the code 6, one that grants a session, one
    that never answers. *)
Definition no_modem : nat -> rpc_reply := fun _ =>
  Reply (JDict [("jsonrpc", JStr "2.0");
                ("result",
                 JList [JInt 0;
                        JDict [("values",
                                JDict [("lan",
                                        JDict [("proto", JStr "static")])])]])]).

Definition denying : nat -> rpc_reply := fun _ =>
  Reply (JDict [("jsonrpc", JStr "2.0"); ("result", JList [JInt 6])]).

Definition granting : nat -> rpc_reply := fun _ =>
  Reply (JDict [("jsonrpc", JStr "2.0");
                ("result",
                 JList [JInt 0;
                        JDict [("ubus_rpc_session",
                                JStr "9f2b6c1de0a74c55b3a1d2e8f7c40612")]])]).

Definition silent : nat -> rpc_reply := fun _ => NoReply.

(** The decoding of the message body used below. *)
Definition decode (raw : string) : pyresult string :=
  if String.eqb raw "ISFzdGF0dXM=" then Ok "!!status" else Raise ValueError.

(** A tick, then an ordinary SMS. *)
Definition steps : list step :=
  [Tick Sample.hundred Sample.guided;
   Sms (Sample.query "aGVsbG8gdGhlcmU=") Sample.guided].

End Scenario.

(** ** Sample texts beyond ASCII *)

Module Texts.

(** U+00A0, the no-break space. *)
Definition nbsp : string := String "194" (String "160" "").

(** U+2003, the em space. *)
Definition em_space : string := String "226" (String "128" (String "131" "")).

(** U+001C, the file separator. *)
Definition fs : string := String "028" "".

(** The Arabic-Indic digits 9 and 5, U+0669 and U+0665. *)
Definition arabic_95 : string :=
  String "217" (String "169" (String "217" (String "165" ""))).

(** The degree sign, U+00B0. *)
Definition degree : string := String "194" (String "176" "").

(** A message body whose command is preceded by a no-break space. *)
Definition decode_arm (raw : string) : pyresult string :=
  Ok (nbsp ++ "!!ARM").

End Texts.

(** * Properties *)

(** ** Signal strength of a poll *)

(** What [_any_int] does with the entry of one key. *)
Lemma any_int_absent d k rest :
  Json.lookup k d = None \/ Json.lookup k d = Some JNull ->
  _any_int (JDict d) (k :: rest) = _any_int (JDict d) rest.
Proof.
  intros [H | H]; simpl; rewrite H; reflexivity.
Qed.

Lemma any_int_unparsable d k s rest :
  Json.lookup k d = Some (JStr s) ->
  PyNum.int_of_float_string s = Raise ValueError ->
  _any_int (JDict d) (k :: rest) = _any_int (JDict d) rest.
Proof.
  intros H P. simpl. rewrite H. simpl.
  unfold PyNum.int_of_float_string in P. rewrite P. reflexivity.
Qed.

Lemma any_int_parsed d k s n rest :
  Json.lookup k d = Some (JStr s) ->
  PyNum.int_of_float_string s = Ok n ->
  _any_int (JDict d) (k :: rest) = Ok (Some n).
Proof.
  intros H P. simpl. rewrite H. simpl.
  unfold PyNum.int_of_float_string in P. rewrite P. reflexivity.
Qed.

Lemma any_int_passed_over d pre rest :
  Forall (passed_over d) pre ->
  _any_int (JDict d) (pre ++ rest) = _any_int (JDict d) rest.
Proof.
  induction 1 as [| k pre Hk _ IH]; [reflexivity |].
  rewrite <- app_comm_cons.
  destruct Hk as [H | [H | (s & H & P)]].
  - rewrite any_int_absent by auto. exact IH.
  - rewrite any_int_absent by auto. exact IH.
  - rewrite (any_int_unparsable _ _ _ _ H P). exact IH.
Qed.

Lemma absent_passed_over d pre :
  Forall (fun k => Json.lookup k d = None) pre -> Forall (passed_over d) pre.
Proof.
  intros H. eapply Forall_impl; [| exact H]. intros k Hk. left. exact Hk.
Qed.

(** C1, as stated, fails.  In the first status the first present key
    is [signal], whose text is not a number: the poll goes on to [rsrp]
    and reports 95.  In the second the first present key reads 0, whose
    negation is 0, and the poll reports 255. *)
Lemma rssi_first_present_counterexample :
  (first_present mobile_no_signal_reading signal_keys = Some (JStr "N/A") /\
   rssi_of (JDict mobile_no_signal_reading) = Ok 95 /\
   ~ first_present_rule mobile_no_signal_reading) /\
  (first_present [("signal", JStr "0")] signal_keys = Some (JStr "0") /\
   rssi_of (JDict [("signal", JStr "0")]) = Ok 255 /\
   ~ first_present_rule [("signal", JStr "0")]).
Proof.
  split.
  - split; [reflexivity |]. split; [vm_compute; reflexivity |].
    unfold first_present_rule. simpl.
    intros (s & n & Hs & Hn & _). injection Hs as <-.
    vm_compute in Hn. discriminate Hn.
  - split; [reflexivity |]. split; [vm_compute; reflexivity |].
    unfold first_present_rule. simpl.
    intros (s & n & Hs & Hn & Hr). injection Hs as <-.
    vm_compute in Hn. injection Hn as <-.
    vm_compute in Hr. discriminate Hr.
Qed.

(** C1 (amended): among [signal], [rsrp], [rscp], [rsrq] in that order,
    keys that are absent, null or not numeric are passed over; the first
    key whose text parses (as a float, truncated) to a non-zero integer
    [n] gives [rssi = -n]; if none of the keys is present the rssi is
    255. *)
Theorem rssi_first_numeric_key (d : list (string * json)) :
  (forall pre k post s n,
      signal_keys = (pre ++ k :: post)%list ->
      Forall (passed_over d) pre ->
      Json.lookup k d = Some (JStr s) ->
      PyNum.int_of_float_string s = Ok n ->
      n <> 0 ->
      rssi_of (JDict d) = Ok (- n)) /\
  (Forall (fun k => Json.lookup k d = None) signal_keys ->
   rssi_of (JDict d) = Ok 255).
Proof.
  split.
  - intros pre k post s n Hkeys Hpre Hk Hn Hnz.
    unfold rssi_of. rewrite Hkeys, (any_int_passed_over _ _ _ Hpre).
    rewrite (any_int_parsed _ _ _ _ _ Hk Hn). simpl.
    destruct (Z.eqb_spec n 0); [contradiction | reflexivity].
  - intros Habs. unfold rssi_of.
    rewrite <- (app_nil_r signal_keys).
    rewrite (any_int_passed_over _ _ _ (absent_passed_over _ _ Habs)).
    reflexivity.
Qed.

Lemma rssi_first_numeric_key_witness :
  rssi_of (JDict mobile_no_signal_reading) = Ok (- -95).
Proof.
  apply (proj1 (rssi_first_numeric_key mobile_no_signal_reading)
           ["signal"] "rsrp" ["rscp"; "rsrq"] "-95" (-95)).
  - reflexivity.
  - constructor; [| constructor]. right. right. exists "N/A".
    split; vm_compute; reflexivity.
  - reflexivity.
  - vm_compute; reflexivity.
  - discriminate.
Defined.

(** C9: when the first of the signal keys that is not passed over
    (in particular the first present one) reads zero, the rssi is 255
    and not 0; and when [sinr] reads zero the snr is 255. *)
Theorem zero_reading_reported_as_unknown (d : list (string * json)) :
  (forall pre k post s,
      signal_keys = (pre ++ k :: post)%list ->
      Forall (passed_over d) pre ->
      Json.lookup k d = Some (JStr s) ->
      PyNum.int_of_float_string s = Ok 0 ->
      rssi_of (JDict d) = Ok 255) /\
  (forall s,
      Json.lookup "sinr" d = Some (JStr s) ->
      PyNum.int_of_float_string s = Ok 0 ->
      snr_of (JDict d) = Ok 255).
Proof.
  split.
  - intros pre k post s Hkeys Hpre Hk Hz.
    unfold rssi_of.
    rewrite Hkeys, (any_int_passed_over _ _ _ Hpre).
    rewrite (any_int_parsed _ _ _ _ _ Hk Hz). reflexivity.
  - intros s Hk Hz. unfold snr_of.
    rewrite (any_int_parsed _ _ _ _ _ Hk Hz). reflexivity.
Qed.

Lemma zero_reading_reported_as_unknown_witness :
  rssi_of (JDict [("rsrp", JStr "0.4"); ("sinr", JStr "-0.0")]) = Ok 255 /\
  snr_of (JDict [("rsrp", JStr "0.4"); ("sinr", JStr "-0.0")]) = Ok 255.
Proof.
  split.
  - apply (proj1 (zero_reading_reported_as_unknown
                    [("rsrp", JStr "0.4"); ("sinr", JStr "-0.0")])
             ["signal"] "rsrp" ["rscp"; "rsrq"] "0.4").
    + reflexivity.
    + constructor; [left; reflexivity | constructor].
    + reflexivity.
    + vm_compute; reflexivity.
  - apply (proj2 (zero_reading_reported_as_unknown
                    [("rsrp", JStr "0.4"); ("sinr", JStr "-0.0")]) "-0.0").
    + reflexivity.
    + vm_compute; reflexivity.
Defined.

(** ** Comparisons of numbers *)

Module NumFacts.

Lemma lt_not_gt a b : PyNum.lt a b = true -> PyNum.gt a b = false.
Proof.
  unfold PyNum.lt, PyNum.gt.
  destruct (PyNum.compare a b) as [[ | | ] |]; easy.
Qed.

Lemma gt_compare a b : PyNum.gt a b = true <-> PyNum.compare a b = Some Gt.
Proof.
  unfold PyNum.gt.
  destruct (PyNum.compare a b) as [[ | | ] |]; split; easy.
Qed.

(** Adding the integer 0 to a float leaves every non-zero value as it
    is and turns both zeros into [+0.0]. *)
Lemma add_int_zero x :
  PyNum.add (Float x) (Int 0) =
  Ok (Float (if F64.is_zero x then F64.pzero else x)).
Proof.
  destruct x as [[|] | [|] | | s m e]; reflexivity.
Qed.

(** *** The sign of a product *)

Lemma shr_1_nonneg mrs : 0 <= shr_m mrs -> 0 <= shr_m (shr_1 mrs).
Proof.
  destruct mrs as [m r t]. simpl.
  destruct m as [| p | p]; try destruct p; simpl; intros H;
    try apply Pos2Z.is_nonneg; try reflexivity;
    try (exfalso; apply H; reflexivity); discriminate.
Qed.

Lemma iter_pos_nonneg p : forall mrs,
  0 <= shr_m mrs -> 0 <= shr_m (iter_pos shr_1 p mrs).
Proof.
  induction p as [p IH | p IH |]; intros mrs H; simpl.
  - apply IH, IH, shr_1_nonneg, H.
  - apply IH, IH, H.
  - apply shr_1_nonneg, H.
Qed.

Lemma shr_fexp_nonneg m e l :
  0 <= m -> 0 <= shr_m (fst (shr_fexp F64.prec F64.emax m e l)).
Proof.
  intros H. unfold shr_fexp, shr.
  assert (H0 : 0 <= shr_m (shr_record_of_loc m l))
    by (destruct l as [| []]; exact H).
  destruct (fexp F64.prec F64.emax (Zdigits2 m + e) - e); simpl;
    [exact H0 | apply iter_pos_nonneg, H0 | exact H0].
Qed.

Lemma round_nearest_even_nonneg m l : 0 <= m -> 0 <= round_nearest_even m l.
Proof.
  intros H. unfold round_nearest_even.
  destruct l as [| []]; try exact H; try destruct (Z.even m); lia.
Qed.

(** Rounding a non-negative magnitude gives a number of the requested
    sign, never a NaN. *)
Lemma binary_round_aux_sign sx mx ex lx :
  0 <= mx ->
  F64.sign_bit (binary_round_aux F64.prec F64.emax sx mx ex lx) = Some sx.
Proof.
  intros H. unfold binary_round_aux.
  pose proof (shr_fexp_nonneg mx ex lx H) as H1.
  destruct (shr_fexp F64.prec F64.emax mx ex lx) as [mrs' e']. simpl in H1.
  pose proof (shr_fexp_nonneg _ e' loc_Exact
                (round_nearest_even_nonneg (shr_m mrs')
                   (loc_of_shr_record mrs') H1)) as H2.
  destruct (shr_fexp F64.prec F64.emax
              (round_nearest_even (shr_m mrs') (loc_of_shr_record mrs'))
              e' loc_Exact) as [mrs'' e''].
  simpl in H2.
  destruct (shr_m mrs'') as [| p | p]; [reflexivity | |].
  - destruct (e'' <=? F64.emax - F64.prec); reflexivity.
  - exfalso. apply H2. reflexivity.
Qed.

(** The product of a number by a finite non-zero one has the exclusive
    or of their sign bits. *)
Lemma mul_sign_bit x sx sy my ey :
  F64.sign_bit x = Some sx ->
  F64.sign_bit (F64.mul x (S754_finite sy my ey)) = Some (xorb sx sy).
Proof.
  destruct x as [s | s | | s m e]; simpl; try discriminate;
    intros H; injection H as <-; try reflexivity.
  apply binary_round_aux_sign. apply Pos2Z.is_nonneg.
Qed.

End NumFacts.

(** ** Frame conditions of module code *)

Section Keeps.

Context {X : Type} (proj : mstate -> X) (Q : X -> event -> Prop).

Lemma keeps_ret {A} (a : A) : keeps proj Q (ret a).
Proof. intros s. split; [reflexivity | constructor]. Qed.

Lemma keeps_lift {A} (r : pyresult A) : keeps proj Q (lift r).
Proof. intros s. split; [reflexivity | constructor]. Qed.

Lemma keeps_read : keeps proj Q read.
Proof. intros s. split; [reflexivity | constructor]. Qed.

Lemma keeps_emit e : (forall x, Q x e) -> keeps proj Q (emit e).
Proof. intros H s. split; [reflexivity | repeat constructor; apply H]. Qed.

Lemma keeps_update f :
  (forall s, proj (f s) = proj s) -> keeps proj Q (update f).
Proof. intros H s. split; [apply H | constructor]. Qed.

Lemma keeps_bind {A B} (m : M A) (k : A -> M B) :
  keeps proj Q m -> (forall a, keeps proj Q (k a)) -> keeps proj Q (bind m k).
Proof.
  intros Hm Hk s. unfold bind.
  specialize (Hm s). destruct (m s) as [[[a | e] s1] t1]; [| exact Hm].
  specialize (Hk a s1). destruct (k a s1) as [[r s2] t2].
  unfold state_of, trace_of in *. simpl in *.
  destruct Hm as [Hs1 Ht1], Hk as [Hs2 Ht2]. split.
  - congruence.
  - rewrite Hs1 in Ht2. apply Forall_app. split; assumption.
Qed.

End Keeps.

(** Breaks a computation down along its binds and branches. *)
Ltac keeps_step :=
  match goal with
  | |- keeps _ _ (bind _ _) => apply keeps_bind; [| intros ?]
  | |- keeps _ _ (ret _) => apply keeps_ret
  | |- keeps _ _ (lift _) => apply keeps_lift
  | |- keeps _ _ read => apply keeps_read
  | |- keeps _ _ (emit _) => apply keeps_emit; intros ?; simpl; try easy
  | |- keeps _ _ (update _) => apply keeps_update; intros ?; reflexivity
  | |- keeps _ _ (if ?c then _ else _) => destruct c
  | |- keeps _ _ (match ?x with _ => _ end) => destruct x
  | |- keeps _ _ (let _ := _ in _) => cbv zeta
  end.

(** ** Where faults come from

    [JsonRPCError] is raised by [_json_rpc] alone: the operations on
    values raise built-in exceptions only. *)

Module Builtin.

Ltac cases :=
  repeat match goal with
         | |- builtin (Ok _) => exact I
         | |- builtin (Raise _) => exact I
         | |- builtin (rbind ?r _) => destruct r; cbn [rbind]
         | |- builtin (match ?x with _ => _ end) => destruct x
         | |- builtin (if ?x then _ else _) => destruct x
         | |- builtin (let _ := _ in _) => cbv zeta
         end.

Lemma getitem j k : builtin (Json.getitem j k).
Proof. unfold Json.getitem. cases. Qed.

Lemma get j k : builtin (Json.get j k).
Proof. unfold Json.get. cases. Qed.

Lemma strip j : builtin (Json.strip j).
Proof. unfold Json.strip. cases. Qed.

Lemma to_float z : builtin (PyNum.to_float z).
Proof. unfold PyNum.to_float. cases. Qed.

Lemma arith fz ff a b : builtin (PyNum.arith fz ff a b).
Proof.
  unfold PyNum.arith. destruct a, b; try exact I;
    match goal with
    | |- context [PyNum.to_float ?z] =>
        pose proof (to_float z) as H; destruct (PyNum.to_float z)
    end; try exact I; exact H.
Qed.

Lemma int_of_float f : builtin (PyNum.int_of_float f).
Proof. unfold PyNum.int_of_float. cases. Qed.

Lemma float_of_string t : builtin (PyNum.float_of_string t).
Proof. unfold PyNum.float_of_string. cases. Qed.

Lemma int_of_string t : builtin (PyNum.int_of_string t).
Proof. unfold PyNum.int_of_string. cases. Qed.

Lemma any_int info keys : builtin (_any_int info keys).
Proof.
  induction keys as [| key rest IH]; simpl; [exact I |].
  pose proof (get info key) as Hg.
  destruct (Json.get info key) as [value |]; cbn [rbind]; [| exact Hg].
  destruct (Json.is_none value); [exact IH |].
  pose proof (strip value) as Hs.
  destruct (Json.strip value) as [text |]; cbn [rbind]; [| exact Hs].
  pose proof (float_of_string text) as Hf.
  destruct (PyNum.float_of_string text) as [f |]; cbn [rbind].
  - pose proof (int_of_float f) as Hi.
    destruct (PyNum.int_of_float f) as [n | []]; try exact I; try exact IH.
    exact Hi.
  - destruct e; try exact I; try exact IH. exact Hf.
Qed.

Lemma rssi_of mobile : builtin (rssi_of mobile).
Proof.
  unfold rssi_of. pose proof (any_int mobile signal_keys) as H.
  destruct (_any_int mobile signal_keys); [exact I | exact H].
Qed.

Lemma snr_of mobile : builtin (snr_of mobile).
Proof.
  unfold snr_of. pose proof (any_int mobile ["sinr"]) as H.
  destruct (_any_int mobile ["sinr"]); [exact I | exact H].
Qed.

End Builtin.

Section NeverFaults.

Lemma never_faults_ret {A} (a : A) : never_faults (ret a).
Proof. intros s. exact I. Qed.

Lemma never_faults_lift {A} (r : pyresult A) : builtin r -> never_faults (lift r).
Proof. intros H s. exact H. Qed.

Lemma never_faults_update f : never_faults (update f).
Proof. intros s. exact I. Qed.

Lemma never_faults_emit e : never_faults (emit e).
Proof. intros s. exact I. Qed.

Lemma never_faults_bind {A B} (m : M A) (k : A -> M B) :
  never_faults m -> (forall a, never_faults (k a)) -> never_faults (bind m k).
Proof.
  intros Hm Hk s. unfold bind. specialize (Hm s).
  destruct (m s) as [[[a | e] s1] t1]; [| exact Hm].
  specialize (Hk a s1). destruct (k a s1) as [[r s2] t2]. exact Hk.
Qed.

Lemma never_faults_choose_links veh : never_faults (choose_links veh).
Proof.
  intros s. unfold choose_links.
  destruct (sendalloutputs (cfg s)); exact I.
Qed.

Lemma never_faults_send_status links rssi snr mcc mnc :
  never_faults (send_status links rssi snr mcc mnc).
Proof.
  induction links as [| l rest IH]; simpl; [apply never_faults_ret |].
  apply never_faults_bind; [| intros _; exact IH].
  destruct (has_cellular_status l); [| apply never_faults_emit].
  apply never_faults_bind;
    [apply never_faults_lift, Builtin.int_of_string | intros c].
  apply never_faults_bind;
    [apply never_faults_lift, Builtin.int_of_string | intros n].
  apply never_faults_emit.
Qed.

(** Once [mobile_info] has answered, the rest of the poll raises no
    [JsonRPCError]. *)
Lemma never_faults_report_status now veh info :
  never_faults (report_status now veh info).
Proof.
  unfold report_status.
  repeat first
    [ apply never_faults_bind; [| intros ?]
    | apply never_faults_choose_links
    | apply never_faults_send_status
    | apply never_faults_update
    | apply never_faults_ret
    | apply never_faults_lift;
      first [ apply Builtin.getitem | apply Builtin.rssi_of
            | apply Builtin.snr_of | apply Builtin.strip ] ].
Qed.

End NeverFaults.

(** ** Inbound SMS *)

Section SmsProperties.

Variable sms_gateway : string -> sms_text -> bool.
Variable decode_message : string -> pyresult string.
Variables math_cos math_sin : float -> float.

Lemma keeps_send_sms {X} (proj : mstate -> X) Q to text :
  (forall x, Q x (EvSms to text)) ->
  keeps proj Q (send_sms sms_gateway to text).
Proof.
  intros H. unfold send_sms. repeat keeps_step; apply H.
Qed.

(** [incoming_sms] writes no field of the module and makes no RPC
    call, whatever the message. *)
Lemma incoming_sms_keeps query veh :
  keeps (fun s => s) (fun _ e => is_rpc e = false)
    (incoming_sms sms_gateway decode_message math_cos math_sin query veh).
Proof.
  unfold incoming_sms.
  repeat keeps_step.
  unfold command.
  repeat first [ keeps_step | apply keeps_send_sms; reflexivity ];
  unfold cmd_move, cmd_goto;
  repeat first [ keeps_step | apply keeps_send_sms; reflexivity ].
Qed.

(** C7: with SMS handling disabled the handler answers [DISABLED]
    without reading the request; a text that does not begin with [!!]
    is answered [Thanks], the only effect being the console line: no
    vehicle command, no RPC call, no change of the module state. *)
Theorem ordinary_sms_is_acknowledged query veh s :
  (sms_enabled (cfg s) = false ->
   incoming_sms sms_gateway decode_message math_cos math_sin query veh s =
   (Ok "DISABLED", s, [])) /\
  (forall sender raw text,
      sms_enabled (cfg s) = true ->
      request_arg query "sender" = Ok sender ->
      request_arg query "message" = Ok raw ->
      decode_message raw = Ok text ->
      PyStr.startswith "!!" (PyStr.strip text) = false ->
      incoming_sms sms_gateway decode_message math_cos math_sin query veh s =
      (Ok "Thanks", s, [EvPrint (LineSmsFrom sender (PyStr.strip text))])).
Proof.
  split.
  - intros Hoff. unfold incoming_sms, bind, read.
    rewrite Hoff. reflexivity.
  - intros sender raw text Hon Hsender Hraw Hdec Hpre.
    unfold incoming_sms, bind, read, lift, emit.
    rewrite Hon, Hsender, Hraw, Hdec. simpl. rewrite Hpre. reflexivity.
Qed.

(** The run of a [move] command in guided mode, once the tokens are
    three or five and the displacement is computed. *)
Lemma cmd_move_guided sender args veh s frame dx dy :
  (List.length args = 3 \/ List.length args = 5)%nat ->
  flightmode veh = "GUIDED" ->
  move_displacement math_cos math_sin args = Ok (frame, dx, dy) ->
  cmd_move sms_gateway math_cos math_sin sender args veh s =
  (Ok "Thanks", s,
   EvPrint (LineMoving dx dy) ::
   if (PyNum.gt (PyNum.abs dx) (Float F64.half)
       || PyNum.gt (PyNum.abs dy) (Float F64.half))%bool
   then [EvSetPositionTargetLocal (settings_target_system veh) frame dx dy]
   else []).
Proof.
  intros Hlen Hmode Hmove. unfold cmd_move.
  replace (negb ((List.length args =? 3)%nat || (List.length args =? 5)%nat))
    with false by (destruct Hlen as [-> | ->]; reflexivity).
  rewrite Hmode. simpl. unfold bind, lift. rewrite Hmove. simpl.
  destruct (PyNum.gt (PyNum.abs dx) (Float F64.half)
            || PyNum.gt (PyNum.abs dy) (Float F64.half))%bool; reflexivity.
Qed.

(** The run of the handler on a command text whose first token is
    [move]. *)
Lemma incoming_sms_move query veh s sender raw text first rest :
  sms_enabled (cfg s) = true ->
  request_arg query "sender" = Ok sender ->
  request_arg query "message" = Ok raw ->
  decode_message raw = Ok text ->
  PyStr.startswith "!!" (PyStr.strip text) = true ->
  tokens (PyStr.drop 2 (PyStr.strip text)) = first :: rest ->
  PyStr.lower first = "move" ->
  incoming_sms sms_gateway decode_message math_cos math_sin query veh s =
  bind (emit (EvPrint (LineSmsFrom sender (PyStr.strip text))))
    (fun _ => cmd_move sms_gateway math_cos math_sin sender (first :: rest) veh)
    s.
Proof.
  intros Hon Hsender Hraw Hdec Hpre Htok Hcmd.
  assert (Hdispatch :
    command sms_gateway math_cos math_sin sender (first :: rest) veh =
    cmd_move sms_gateway math_cos math_sin sender (first :: rest) veh)
    by (unfold command; rewrite Hcmd; reflexivity).
  unfold incoming_sms, bind, read, lift, emit.
  rewrite Hon, Hsender, Hraw, Hdec. cbv beta iota zeta.
  rewrite Hpre, Htok, Hdispatch. cbv beta iota delta [negb].
  destruct (cmd_move sms_gateway math_cos math_sin sender (first :: rest) veh s)
    as [[r s2] t2].
  reflexivity.
Qed.

(** C5: a [move] in guided mode whose displacement is below 0.5 in
    absolute value on both axes sends no position target: the handler
    answers [Thanks] and only writes its two console lines.  The text
    [!!move 0.3 n] is such a command and issues no vehicle command. *)
Theorem negligible_move_sends_nothing query veh s sender raw text :
  sms_enabled (cfg s) = true ->
  request_arg query "sender" = Ok sender ->
  request_arg query "message" = Ok raw ->
  decode_message raw = Ok text ->
  flightmode veh = "GUIDED" ->
  (forall first rest frame dx dy,
      PyStr.startswith "!!" (PyStr.strip text) = true ->
      tokens (PyStr.drop 2 (PyStr.strip text)) = first :: rest ->
      PyStr.lower first = "move" ->
      (List.length rest = 2 \/ List.length rest = 4)%nat ->
      move_displacement math_cos math_sin (first :: rest) = Ok (frame, dx, dy) ->
      PyNum.lt (PyNum.abs dx) (Float F64.half) = true ->
      PyNum.lt (PyNum.abs dy) (Float F64.half) = true ->
      incoming_sms sms_gateway decode_message math_cos math_sin query veh s =
      (Ok "Thanks", s,
       [EvPrint (LineSmsFrom sender (PyStr.strip text));
        EvPrint (LineMoving dx dy)])) /\
  (text = "!!move 0.3 n" ->
   filter is_vehicle_command
     (trace_of (incoming_sms sms_gateway decode_message math_cos math_sin
                  query veh s)) = []).
Proof.
  intros Hon Hsender Hraw Hdec Hmode.
  assert (General : forall first rest frame dx dy,
      PyStr.startswith "!!" (PyStr.strip text) = true ->
      tokens (PyStr.drop 2 (PyStr.strip text)) = first :: rest ->
      PyStr.lower first = "move" ->
      (List.length rest = 2 \/ List.length rest = 4)%nat ->
      move_displacement math_cos math_sin (first :: rest) = Ok (frame, dx, dy) ->
      PyNum.lt (PyNum.abs dx) (Float F64.half) = true ->
      PyNum.lt (PyNum.abs dy) (Float F64.half) = true ->
      incoming_sms sms_gateway decode_message math_cos math_sin query veh s =
      (Ok "Thanks", s,
       [EvPrint (LineSmsFrom sender (PyStr.strip text));
        EvPrint (LineMoving dx dy)])).
  { intros first rest frame dx dy Hpre Htok Hcmd Hlen Hmove Hx Hy.
    rewrite (incoming_sms_move _ _ _ _ _ _ _ _ Hon Hsender Hraw Hdec Hpre Htok Hcmd).
    unfold bind, emit.
    rewrite (cmd_move_guided sender (first :: rest) veh s frame dx dy);
      [| simpl; destruct Hlen as [-> | ->]; auto | exact Hmode | exact Hmove].
    rewrite (NumFacts.lt_not_gt _ _ Hx), (NumFacts.lt_not_gt _ _ Hy).
    reflexivity. }
  split; [exact General |].
  intros ->.
  rewrite (General "move" ["0.3"; "n"] MAV_FRAME_LOCAL_OFFSET_NED
             (Float (S754_finite false 5404319552844595 (-54))) (Int 0));
    try reflexivity.
  left; reflexivity.
Qed.

(** The displacement of a single move along a compass letter. *)
Lemma compass_move d x :
  PyNum.float_of_string d = Ok x ->
  move_displacement math_cos math_sin ["move"; d; "n"] =
    Ok (MAV_FRAME_LOCAL_OFFSET_NED, Float (plus_int_zero x), Int 0) /\
  move_displacement math_cos math_sin ["move"; d; "s"] =
    Ok (MAV_FRAME_LOCAL_OFFSET_NED, Float (plus_int_zero (F64.opp x)), Int 0) /\
  move_displacement math_cos math_sin ["move"; d; "e"] =
    Ok (MAV_FRAME_LOCAL_OFFSET_NED, Int 0, Float (plus_int_zero x)) /\
  move_displacement math_cos math_sin ["move"; d; "w"] =
    Ok (MAV_FRAME_LOCAL_OFFSET_NED, Int 0, Float (plus_int_zero (F64.opp x))).
Proof.
  intros Hd. unfold move_displacement, arg. cbn [List.length Nat.eqb nth].
  rewrite Hd. cbn [rbind].
  repeat split;
    match goal with
    | |- context [PyStr.lower ?l] =>
        let v := eval vm_compute in (PyStr.lower l) in
        change (PyStr.lower l) with v
    end;
    match goal with
    | |- context [PyNum.int_of_string ?l] =>
        let v := eval vm_compute in (PyNum.int_of_string l) in
        change (PyNum.int_of_string l) with v
    end;
    cbn -[PyNum.add]; rewrite NumFacts.add_int_zero; reflexivity.
Qed.

(** C6: for every distance token [d] that [float] accepts, the
    displacement of [move d s] is the negation of that of [move d n]
    and conversely, and the displacement of [move d w] is the negation
    of that of [move d e] and conversely. *)
Theorem opposite_compass_moves_negate d x :
  PyNum.float_of_string d = Ok x ->
  exists n s e w,
    move_displacement math_cos math_sin ["move"; d; "n"] =
      Ok (MAV_FRAME_LOCAL_OFFSET_NED, fst n, snd n) /\
    move_displacement math_cos math_sin ["move"; d; "s"] =
      Ok (MAV_FRAME_LOCAL_OFFSET_NED, fst s, snd s) /\
    move_displacement math_cos math_sin ["move"; d; "e"] =
      Ok (MAV_FRAME_LOCAL_OFFSET_NED, fst e, snd e) /\
    move_displacement math_cos math_sin ["move"; d; "w"] =
      Ok (MAV_FRAME_LOCAL_OFFSET_NED, fst w, snd w) /\
    negated n s /\ negated s n /\ negated e w /\ negated w e.
Proof.
  intros Hd.
  destruct (compass_move d x Hd) as (Hn & Hs & He & Hw).
  exists (Float (plus_int_zero x), Int 0),
         (Float (plus_int_zero (F64.opp x)), Int 0),
         (Int 0, Float (plus_int_zero x)),
         (Int 0, Float (plus_int_zero (F64.opp x))).
  split; [exact Hn |]. split; [exact Hs |].
  split; [exact He |]. split; [exact Hw |].
  assert (Hint : same_number (Int 0) (PyNum.neg (Int 0)))
    by (right; reflexivity).
  assert (Hfwd : same_number (Float (plus_int_zero (F64.opp x)))
                   (PyNum.neg (Float (plus_int_zero x)))).
  { destruct x as [sg | sg | | sg m e]; [left | left | right | left];
      try reflexivity; unfold PyNum.eq; cbn;
      rewrite ?Z.compare_refl, ?Pos.compare_cont_refl;
      destruct sg; reflexivity. }
  assert (Hback : same_number (Float (plus_int_zero x))
                    (PyNum.neg (Float (plus_int_zero (F64.opp x))))).
  { destruct x as [sg | sg | | sg m e]; [left | left | right | left];
      try reflexivity; unfold PyNum.eq; cbn;
      rewrite ?Z.compare_refl, ?Pos.compare_cont_refl;
      destruct sg; reflexivity. }
  unfold negated. cbn [fst snd]. repeat split; assumption.
Qed.

Lemma mul_hemisphere x token c rest letter :
  token = String c rest ->
  (let? sg := hemisphere token letter in PyNum.mul (Float x) sg) =
  Ok (Float (F64.mul x (hemisphere_factor c letter))).
Proof.
  intros ->. unfold hemisphere, hemisphere_factor. cbn [rbind].
  destruct (Ascii.eqb c letter); reflexivity.
Qed.

Lemma hemisphere_sign_bit x sx c letter :
  F64.sign_bit x = Some sx ->
  F64.sign_bit (F64.mul x (hemisphere_factor c letter)) =
  Some (if Ascii.eqb c letter then sx else negb sx).
Proof.
  intros H. unfold hemisphere_factor. destruct (Ascii.eqb c letter).
  - change (F64.of_Z 1) with (S754_finite false 4503599627370496 (-52)).
    rewrite (NumFacts.mul_sign_bit _ _ _ _ _ H). destruct sx; reflexivity.
  - change (F64.of_Z (-1)) with (S754_finite true 4503599627370496 (-52)).
    rewrite (NumFacts.mul_sign_bit _ _ _ _ _ H). destruct sx; reflexivity.
Qed.

(** C10, as stated, fails: the hemisphere letter alone does not decide
    the sign of a coordinate.  With [N] and [E], a negative number gives
    a negative latitude and a zero gives a zero, which is not positive;
    with [S] and [W], a negative number gives a positive latitude. *)
Lemma goto_north_not_positive_counterexample :
  (exists lat lon,
      goto_target ["goto"; "-5"; "N"; "10"; "E"] = Ok (Float lat, Float lon) /\
      PyNum.lt (Float lat) (Int 0) = true) /\
  (exists lat lon,
      goto_target ["goto"; "0"; "N"; "0"; "E"] = Ok (Float lat, Float lon) /\
      PyNum.gt (Float lat) (Int 0) = false /\
      PyNum.gt (Float lon) (Int 0) = false) /\
  (exists lat lon,
      goto_target ["goto"; "-5"; "S"; "-10"; "W"] = Ok (Float lat, Float lon) /\
      PyNum.gt (Float lat) (Int 0) = true /\
      PyNum.gt (Float lon) (Int 0) = true).
Proof.
  split; [| split]; eexists; eexists; repeat split; vm_compute; reflexivity.
Qed.

(** C10 (amended): in the five-token form of [goto], the latitude is
    the number of the second token times [1.0] if the third token
    begins with the capital [N] and times [-1.0] otherwise, and the
    longitude is the number of the fourth token times [1.0] if the
    fifth token begins with the capital [E] and times [-1.0] otherwise;
    only the first character counts.  So the coordinate has the sign of
    its number exactly when that character is [N] (resp. [E]), and the
    opposite sign for any other token, a lowercase [n] or [e] included.
    In guided mode the handler then announces these coordinates: no
    error reply is made. *)
Theorem goto_hemisphere_by_first_letter cmd a ns b ew x y c1 r1 c2 r2 :
  PyNum.float_of_string (PyStr.rstrip_degree a) = Ok x ->
  PyNum.float_of_string (PyStr.rstrip_degree b) = Ok y ->
  ns = String c1 r1 ->
  ew = String c2 r2 ->
  let lat := Float (F64.mul x (hemisphere_factor c1 "N")) in
  let lon := Float (F64.mul y (hemisphere_factor c2 "E")) in
  goto_target [cmd; a; ns; b; ew] = Ok (lat, lon) /\
  (hemisphere_factor c1 "N" = F64.of_Z 1 <-> c1 = "N"%char) /\
  (hemisphere_factor c2 "E" = F64.of_Z 1 <-> c2 = "E"%char) /\
  (forall sx,
      F64.sign_bit x = Some sx ->
      F64.sign_bit (F64.mul x (hemisphere_factor c1 "N")) =
      Some (if Ascii.eqb c1 "N" then sx else negb sx)) /\
  (forall sy,
      F64.sign_bit y = Some sy ->
      F64.sign_bit (F64.mul y (hemisphere_factor c2 "E")) =
      Some (if Ascii.eqb c2 "E" then sy else negb sy)) /\
  (hemisphere_factor "n" "N" = F64.of_Z (-1) /\
   hemisphere_factor "e" "E" = F64.of_Z (-1)) /\
  (forall sender veh s,
      flightmode veh = "GUIDED" ->
      exists rest,
        trace_of (cmd_goto sms_gateway cmd sender [cmd; a; ns; b; ew] veh s) =
        EvSms sender (SmsGoingTo lat lon) :: rest).
Proof.
  intros Ha Hb Hns Hew lat lon.
  assert (Hgoto : goto_target [cmd; a; ns; b; ew] = Ok (lat, lon)).
  { unfold goto_target, arg. cbn [List.length Nat.eqb nth].
    rewrite Ha. cbn [rbind].
    pose proof (mul_hemisphere x ns c1 r1 "N" Hns) as Hlat.
    destruct (hemisphere ns "N") as [sa |]; [| discriminate Hlat].
    cbn [rbind] in Hlat |- *. rewrite Hlat. cbn [rbind].
    rewrite Hb. cbn [rbind].
    pose proof (mul_hemisphere y ew c2 r2 "E" Hew) as Hlon.
    destruct (hemisphere ew "E") as [sb |]; [| discriminate Hlon].
    cbn [rbind] in Hlon |- *. rewrite Hlon. reflexivity. }
  split; [exact Hgoto |].
  split; [| split; [| split; [| split; [| split; [split; reflexivity |]]]]].
  - unfold hemisphere_factor. destruct (Ascii.eqb_spec c1 "N"); split;
      try easy; intros H; vm_compute in H; discriminate H.
  - unfold hemisphere_factor. destruct (Ascii.eqb_spec c2 "E"); split;
      try easy; intros H; vm_compute in H; discriminate H.
  - intros sx. apply hemisphere_sign_bit.
  - intros sy. apply hemisphere_sign_bit.
  - intros sender veh s Hmode. unfold cmd_goto.
    cbn [List.length Nat.eqb orb negb]. rewrite Hmode.
    cbn [String.eqb Ascii.eqb Bool.eqb negb].
    unfold bind at 1. unfold lift at 1. rewrite Hgoto.
    unfold bind at 1. unfold send_sms, bind at 1, emit.
    destruct (sms_gateway sender (SmsGoingTo lat lon)).
    + unfold ret at 1.
      match goal with
      | |- context [bind ?m ?k s] => destruct (bind m k s) as [[r s2] t2]
      end.
      eexists. reflexivity.
    + eexists. reflexivity.
Qed.

End SmsProperties.

(** ** Frame conditions of the blocks of [idle_task] *)

Section BlockFrames.

Variable gateway : nat -> rpc_reply.

Context {X : Type} (proj : mstate -> X) (Q : X -> event -> Prop).

Lemma keeps_json_rpc method obj action parameters :
  (forall b s, proj (posted b s) = proj s) ->
  (forall s req reply,
      rq_object req = obj -> rq_action req = action ->
      rq_session req = token (session s) ->
      Q (proj s) (EvRpc req reply)) ->
  keeps proj Q (_json_rpc gateway method obj action parameters).
Proof.
  intros Hp HQ s. unfold _json_rpc, state_of, trace_of.
  destruct (gateway (net_posts s)); simpl;
    (split; [apply Hp | repeat constructor; apply HQ; reflexivity]).
Qed.

Lemma keeps_try_except body :
  (forall s, proj (set_session JNull s) = proj s) ->
  (forall x, Q x (EvPrint LineInvalidSession)) ->
  keeps proj Q body -> keeps proj Q (try_except_JsonRPCError body).
Proof.
  intros Hp HQ Hbody s. unfold try_except_JsonRPCError.
  specialize (Hbody s).
  destruct (body s) as [[[f | e] s1] t1]; [exact Hbody |].
  destruct e; try exact Hbody.
  unfold on_JsonRPCError.
  destruct (Json.eq_str code invalid_session);
    unfold state_of, trace_of in *; simpl in *; destruct Hbody as [Hs Ht].
  - split; [rewrite Hp; exact Hs |].
    apply Forall_app. split; [exact Ht | repeat constructor; apply HQ].
  - split; [exact Hs | rewrite app_nil_r; exact Ht].
Qed.

Lemma keeps_choose_links veh :
  (forall v s, proj (set_mav_master v s) = proj s) ->
  keeps proj Q (choose_links veh).
Proof.
  intros Hp s. unfold choose_links, state_of, trace_of.
  destruct (sendalloutputs (cfg s)), (sendalllinks (cfg s)); simpl;
    (split; [try apply Hp; reflexivity | constructor]).
Qed.

Lemma keeps_send_status links rssi snr mcc mnc :
  (forall x e, is_link_status e = true -> Q x e) ->
  keeps proj Q (send_status links rssi snr mcc mnc).
Proof.
  intros HQ. induction links as [| l rest IH]; simpl.
  - apply keeps_ret.
  - repeat keeps_step; try (apply HQ; reflexivity). exact IH.
Qed.

End BlockFrames.

Section CleanOnFault.

Context {X : Type} (proj : mstate -> X) (Q : X -> event -> Prop).

Lemma clean_of_keeps {A} (m : M A) :
  keeps proj Q m -> clean_on_fault proj Q m.
Proof. intros H s _. apply H. Qed.

Lemma clean_of_never_faults {A} (m : M A) :
  never_faults m -> clean_on_fault proj Q m.
Proof. intros H s Hf. contradiction (Hf (H s)). Qed.

Lemma clean_bind {A B} (m : M A) (k : A -> M B) :
  keeps proj Q m -> (forall a, clean_on_fault proj Q (k a)) ->
  clean_on_fault proj Q (bind m k).
Proof.
  intros Hm Hk s. unfold bind. specialize (Hm s).
  destruct (m s) as [[[a | e] s1] t1]; [| intros _; exact Hm].
  specialize (Hk a s1). destruct (k a s1) as [[r s2] t2].
  unfold result_of, state_of, trace_of in *. simpl in *.
  intros Hf. destruct Hm as [Hs1 Ht1], (Hk Hf) as [Hs2 Ht2]. split.
  - congruence.
  - rewrite Hs1 in Ht2. apply Forall_app. split; assumption.
Qed.

End CleanOnFault.

(** Uses the frame lemmas of the building blocks, with side conditions
    that hold by computation. *)
Ltac keeps_block :=
  repeat first
    [ keeps_step
    | apply keeps_json_rpc;
      [ intros ? ?; reflexivity
      | intros ? ? ? Hobj Hact Htoken; simpl;
        try rewrite Hobj; try rewrite Hact;
        try reflexivity; try easy; try exact Htoken ]
    | apply keeps_try_except; [ intros ?; reflexivity | intros ?; try easy | ]
    | apply keeps_choose_links; intros ? ?; reflexivity
    | apply keeps_send_status; intros ? [] ?; try easy ].

(** ** Login attempts *)

Section TickProperties.

Variable gateway : nat -> rpc_reply.

Lemma resolve_modem_keeps_last_login :
  keeps last_login (fun _ e => is_login_call e = false) (resolve_modem gateway).
Proof. unfold resolve_modem. keeps_block. Qed.

Lemma poll_block_keeps_last_login now veh :
  keeps last_login (fun _ e => is_login_call e = false)
    (poll_block gateway now veh).
Proof.
  unfold poll_block, poll_body, report_status.
  keeps_block; apply resolve_modem_keeps_last_login.
Qed.

Lemma publish_block_keeps_last_login now veh :
  keeps last_login (fun _ e => is_login_call e = false)
    (publish_block gateway now veh).
Proof. unfold publish_block, publish_body. keeps_block. Qed.

Lemma filter_none {A} (f : A -> bool) l :
  Forall (fun x => f x = false) l -> filter f l = [].
Proof.
  induction 1 as [| x l Hx _ IH]; simpl; [reflexivity |].
  rewrite Hx. exact IH.
Qed.

Lemma idle_task_started now veh s :
  started s = true ->
  idle_task gateway now veh s =
  bind (login_block gateway now)
    (fun f => match f with
              | Return => ret tt
              | Continue => after_login gateway now veh
              end) s.
Proof.
  intros H. unfold idle_task at 1. unfold bind at 1, read.
  rewrite H. cbn [negb].
  destruct (bind _ _ s) as [[r s2] t2]. reflexivity.
Qed.

Lemma after_login_keeps_last_login now veh :
  keeps last_login (fun _ e => is_login_call e = false) (after_login gateway now veh).
Proof.
  unfold after_login. keeps_block.
  - apply poll_block_keeps_last_login.
  - apply publish_block_keeps_last_login.
Qed.

(** Without a session and with no more than 5 seconds counted since
    the last attempt, the login block does nothing. *)
Lemma login_block_waits now s elapsed :
  session s = JNull ->
  PyNum.sub (Float now) (last_login s) = Ok elapsed ->
  PyNum.gt elapsed (Int 5) = false ->
  login_block gateway now s = (Ok Continue, s, []).
Proof.
  intros Hs He Hgt. unfold login_block, bind, read, lift.
  rewrite Hs, He. cbn [Json.is_none]. rewrite Hgt. reflexivity.
Qed.

(** Otherwise it stamps [last_login] and posts the login call, which
    is its only RPC exchange. *)
Lemma login_block_attempts now s elapsed :
  session s = JNull ->
  PyNum.sub (Float now) (last_login s) = Ok elapsed ->
  PyNum.gt elapsed (Int 5) = true ->
  exists req rest,
    trace_of (login_block gateway now s) =
      EvRpc req (gateway (net_posts s)) :: rest /\
    is_login_call (EvRpc req (gateway (net_posts s))) = true /\
    rq_session req = JStr placeholder /\
    Forall (fun e => is_rpc e = false) rest /\
    last_login (state_of (login_block gateway now s)) = Float now.
Proof.
  intros Hs He Hgt. unfold login_block, bind, read, lift, update, _json_rpc.
  rewrite Hs, He. cbn [Json.is_none Json.truthy]. rewrite Hgt.
  cbn [net_posts set_last_login request_num session]. rewrite Hs.
  cbn [Json.truthy].
  destruct (gateway (net_posts s)) as [| body].
  - eexists; exists []. repeat split. constructor.
  - destruct (read_reply body) as [[login_result login_response] | e].
    + destruct (Json.eq_zero login_result).
      * destruct (Json.getitem login_response "ubus_rpc_session");
          eexists; eexists; repeat split; repeat constructor.
      * eexists; eexists; repeat split; repeat constructor.
    + eexists; exists []. repeat split. constructor.
Qed.

(** C4 (amended): on a tick of the started module with no session
    held, a login call is posted if and only if the time counted since
    the last attempt is strictly greater than 5 seconds: a tick before,
    or exactly at, 5 seconds posts none and leaves the last-attempt
    time as it was; a tick after 5 seconds posts exactly one, as the
    first exchange of the tick, and sets the last-attempt time to the
    current time whatever the outcome of the call. *)
Theorem login_rate_limit now veh s elapsed :
  started s = true ->
  session s = JNull ->
  PyNum.sub (Float now) (last_login s) = Ok elapsed ->
  let r := idle_task gateway now veh s in
  match PyNum.compare elapsed (Int 5) with
  | Some Gt =>
      (exists req rest,
          trace_of r = EvRpc req (gateway (net_posts s)) :: rest /\
          filter is_login_call (trace_of r) =
            [EvRpc req (gateway (net_posts s))]) /\
      last_login (state_of r) = Float now
  | _ =>
      filter is_login_call (trace_of r) = [] /\
      last_login (state_of r) = last_login s
  end.
Proof.
  intros Hstarted Hs He r. subst r.
  rewrite (idle_task_started _ _ _ Hstarted).
  assert (Hwait : PyNum.gt elapsed (Int 5) = false ->
    filter is_login_call
      (trace_of (bind (login_block gateway now)
         (fun f => match f with
                   | Return => ret tt
                   | Continue => after_login gateway now veh
                   end) s)) = [] /\
    last_login
      (state_of (bind (login_block gateway now)
         (fun f => match f with
                   | Return => ret tt
                   | Continue => after_login gateway now veh
                   end) s)) = last_login s).
  { intros Hgt. unfold bind.
    rewrite (login_block_waits now s elapsed Hs He Hgt).
    pose proof (after_login_keeps_last_login now veh s) as [Hs2 Ht2].
    destruct (after_login gateway now veh s) as [[r2 s2] t2].
    unfold trace_of, state_of in *; simpl in *.
    split; [apply filter_none; exact Ht2 | exact Hs2]. }
  destruct (PyNum.compare elapsed (Int 5)) as [[ | | ] |] eqn:Hcmp;
    try (apply Hwait; unfold PyNum.gt; rewrite Hcmp; reflexivity).
  clear Hwait.
  apply NumFacts.gt_compare in Hcmp as Hgt.
  destruct (login_block_attempts now s elapsed Hs He Hgt)
    as (req & rest & Ht & Hlogin & _ & Hrest & Hll).
  assert (Hquiet : filter is_login_call rest = []).
  { apply filter_none.
    eapply Forall_impl; [| exact Hrest]. intros [] H; try reflexivity.
    discriminate H. }
  unfold bind.
  destruct (login_block gateway now s) as [[[f | e] s1] t1];
    unfold trace_of, state_of in *; simpl in Ht, Hll; subst t1.
  - assert (Hk : keeps last_login (fun _ e => is_login_call e = false)
                   (match f with
                    | Return => ret tt
                    | Continue => after_login gateway now veh
                    end))
      by (destruct f; [apply after_login_keeps_last_login | apply keeps_ret]).
    specialize (Hk s1).
    destruct (match f with
              | Return => ret tt
              | Continue => after_login gateway now veh
              end s1) as [[r2 s2] t2].
    unfold trace_of, state_of in *; simpl in *.
    destruct Hk as [Hs2 Ht2]. split; [| congruence].
    exists req, (rest ++ t2)%list. split; [reflexivity |].
    rewrite Hlogin, filter_app, (filter_none _ _ Ht2), app_nil_r, Hquiet.
    reflexivity.
  - simpl in Hlogin |- *. split; [| exact Hll].
    exists req, rest. split; [reflexivity |].
    rewrite Hlogin, Hquiet. reflexivity.
Qed.

(** *** A poll under an invalid session *)

Lemma resolve_modem_keeps_snapshot :
  keeps snapshot (fun _ e => is_link_status e = false) (resolve_modem gateway).
Proof. unfold resolve_modem. keeps_block. Qed.

(** A poll that ends in a [JsonRPCError] has not touched the snapshot
    and has sent nothing on the links. *)
Lemma poll_body_clean now veh :
  clean_on_fault snapshot (fun _ e => is_link_status e = false)
    (poll_body gateway now veh).
Proof.
  unfold poll_body.
  apply clean_bind; [apply keeps_read | intros s0].
  apply clean_bind;
    [destruct (Json.is_none (modem s0));
     [apply resolve_modem_keeps_snapshot | apply keeps_ret] | intros _].
  apply clean_bind; [apply keeps_read | intros s1].
  destruct (Json.is_none (modem s1)); [apply clean_of_keeps, keeps_ret |].
  apply clean_bind; [keeps_block | intros [result info]].
  destruct (Json.eq_zero result).
  - apply clean_of_never_faults, never_faults_report_status.
  - apply clean_of_keeps, keeps_ret.
Qed.

(** C3: in a poll cycle whose RPC call raises a [JsonRPCError] with
    the invalid-session code, [last_status] and [last_update] keep
    their values, nothing is sent on any link, the session is cleared,
    and the publication that follows in the tick does nothing. *)
Theorem invalid_session_poll_leaves_snapshot
    now veh s elapsed period code message :
  PyNum.sub (Float now) (last_update s) = Ok elapsed ->
  PyNum.div (Int 1) (Float (freq (cfg s))) = Ok period ->
  PyNum.gt elapsed period = true ->
  result_of (poll_body gateway now veh s) = Raise (JsonRPCError code message) ->
  Json.eq_str code invalid_session = true ->
  let r := poll_block gateway now veh s in
  result_of r = Ok Continue /\
  last_status (state_of r) = last_status s /\
  last_update (state_of r) = last_update s /\
  filter is_link_status (trace_of r) = [] /\
  session (state_of r) = JNull /\
  publish_block gateway now veh (state_of r) = (Ok tt, state_of r, []).
Proof.
  intros He Hp Hgt Hfault Hcode r. subst r.
  unfold poll_block, bind, read, lift. cbv beta iota.
  rewrite He. cbv beta iota. rewrite Hp. cbv beta iota. rewrite Hgt.
  unfold try_except_JsonRPCError.
  pose proof (poll_body_clean now veh s) as Hclean.
  destruct (poll_body gateway now veh s) as [[r1 s1] t1].
  unfold result_of, state_of, trace_of in *. simpl in Hfault, Hclean.
  subst r1. destruct (Hclean (fun H => H)) as [Hsnap Hquiet].
  unfold on_JsonRPCError. rewrite Hcode.
  unfold snapshot in Hsnap. injection Hsnap as Hstatus Hupdate.
  cbn. repeat split; try assumption.
  rewrite filter_app, (filter_none _ _ Hquiet). reflexivity.
Qed.

(** *** Publication of the status templates *)

(** C8: in a publish cycle (a session is held and more than 30 seconds
    are counted since the last publication), an unknown position only
    writes [Position unknown] and leaves the publish timestamp as it
    was.  With a position, the timestamp becomes the current time when
    the two [uci set] calls and the [uci apply] call each return a
    result, whatever the three codes are, a line being written if one
    of them is not zero; if one of the three calls does not return, the
    timestamp is left as it was. *)
Theorem publish_timestamp now veh s elapsed :
  Json.is_none (session s) = false ->
  PyNum.sub (Float now) (last_status_message_update s) = Ok elapsed ->
  PyNum.gt elapsed (Int 30) = true ->
  let r := publish_block gateway now veh s in
  let n := net_posts s in
  match GLOBAL_POSITION_INT veh with
  | None => r = (Ok tt, s, [EvPrint LinePositionUnknown])
  | Some position =>
      match completed (gateway n), completed (gateway (S n)),
            completed (gateway (S (S n))) with
      | Some sr, Some sr2, Some ar =>
          result_of r = Ok tt /\
          last_status_message_update (state_of r) = Float now /\
          exists set1 set2 apply,
            is_rpc_of "uci" "set" set1 = true /\
            is_rpc_of "uci" "set" set2 = true /\
            is_rpc_of "uci" "apply" apply = true /\
            trace_of r =
              (set1 :: set2 :: apply ::
               if (Json.eq_zero sr && Json.eq_zero sr2 && Json.eq_zero ar)%bool
               then []
               else [EvPrint (LineStatusSet sr sr2 ar)])
      | _, _, _ =>
          last_status_message_update (state_of r) =
          last_status_message_update s
      end
  end.
Proof.
  intros Hsession He Hgt r n. subst r n.
  unfold publish_block, bind, read, lift. cbv beta iota.
  rewrite Hsession. cbn [negb]. rewrite He. cbv beta iota. rewrite Hgt.
  destruct (GLOBAL_POSITION_INT veh) as [position |]; [| reflexivity].
  unfold completed, publish_body, try_except_JsonRPCError, on_JsonRPCError,
    bind, ret, update, emit, _json_rpc.
  cbn [net_posts posted].
  destruct (gateway (net_posts s)) as [| b1];
    [reflexivity |].
  destruct (read_reply b1) as [[sr i1] | e1].
  2:{ destruct e1; try reflexivity.
      destruct (Json.eq_str code invalid_session); reflexivity. }
  cbn [net_posts posted].
  destruct (gateway (S (net_posts s))) as [| b2];
    [reflexivity |].
  destruct (read_reply b2) as [[sr2 i2] | e2].
  2:{ destruct e2; try reflexivity.
      destruct (Json.eq_str code invalid_session); reflexivity. }
  cbn [net_posts posted].
  destruct (gateway (S (S (net_posts s)))) as [| b3];
    [reflexivity |].
  destruct (read_reply b3) as [[ar i3] | e3].
  2:{ destruct e3; try reflexivity.
      destruct (Json.eq_str code invalid_session); reflexivity. }
  destruct (Json.eq_zero sr), (Json.eq_zero sr2), (Json.eq_zero ar);
    cbn; (split; [reflexivity |]); (split; [reflexivity |]);
    do 3 eexists; (split; [| split; [| split; [| reflexivity]]]);
    reflexivity.
Qed.

End TickProperties.

(** ** What a poll sends on the links *)

Section Reported.

Lemma send_status_carries links rssi snr mcc mnc :
  keeps (fun _ => tt) (fun _ => carries rssi snr)
    (send_status links rssi snr mcc mnc).
Proof.
  induction links as [| l rest IH]; simpl; [apply keeps_ret |].
  repeat keeps_step; try exact IH; simpl; auto.
Qed.

(** The values that the poll sends are those of [rssi_of] and [snr_of]
    on the [mobile] map of the reply. *)
Lemma report_status_carries now veh info mobile rssi snr s :
  Json.getitem info "mobile" = Ok mobile ->
  rssi_of mobile = Ok rssi ->
  snr_of mobile = Ok snr ->
  Forall (carries rssi snr) (trace_of (report_status now veh info s)).
Proof.
  intros Hm Hr Hs. unfold report_status, bind, lift, update, choose_links.
  rewrite Hm, Hr, Hs. cbv beta iota.
  destruct (Json.getitem mobile "imsi") as [imsi_field |];
    [| destruct (sendalloutputs (cfg s)); constructor].
  destruct (Json.strip imsi_field) as [imsi |];
    [| destruct (sendalloutputs (cfg s)); constructor].
  destruct (sendalloutputs (cfg s));
    match goal with
    | |- context [send_status ?l ?r ?n ?c1 ?c2 ?st] =>
        pose proof (send_status_carries l r n c1 c2 st) as [_ H];
        destruct (send_status l r n c1 c2 st) as [[[u | e] s2] t2]
    end; cbn in *; rewrite ?app_nil_r; exact H.
Qed.

End Reported.

(** ** The session token across faults *)

Section SessionProperties.

Variable gateway : nat -> rpc_reply.
Variable sms_gateway : string -> sms_text -> bool.
Variable decode_message : string -> pyresult string.
Variables math_cos math_sin : float -> float.

Lemma resolve_modem_keeps_session :
  keeps session sends_token (resolve_modem gateway).
Proof. unfold resolve_modem. keeps_block. Qed.

(** The two guarded bodies do not write the session, and their calls
    send its token. *)
Lemma poll_body_keeps_session now veh :
  keeps session sends_token (poll_body gateway now veh).
Proof.
  unfold poll_body, report_status.
  keeps_block; apply resolve_modem_keeps_session.
Qed.

Lemma publish_body_keeps_session now position :
  keeps session sends_token (publish_body gateway now position).
Proof. unfold publish_body. keeps_block. Qed.

(** The session after a guarded body that ended in a [JsonRPCError]. *)
Lemma try_except_session body s code message :
  keeps session sends_token body ->
  result_of (body s) = Raise (JsonRPCError code message) ->
  session (state_of (try_except_JsonRPCError body s)) =
  if Json.eq_str code invalid_session then JNull else session s.
Proof.
  intros Hk Hr. unfold try_except_JsonRPCError.
  destruct (Hk s) as [Hs _].
  destruct (body s) as [[r s1] t1].
  unfold result_of, state_of in *. simpl in Hr, Hs. subst r.
  unfold on_JsonRPCError.
  destruct (Json.eq_str code invalid_session); cbn; [reflexivity | exact Hs].
Qed.

(** A guarded body run without a session leaves the module without a
    session, and its calls send the placeholder. *)
Lemma try_except_unauthenticated body s :
  keeps session sends_token body ->
  session s = JNull ->
  session (state_of (try_except_JsonRPCError body s)) = JNull /\
  Forall (sends_token JNull) (trace_of (try_except_JsonRPCError body s)).
Proof.
  intros Hk Hnull. unfold try_except_JsonRPCError.
  destruct (Hk s) as [Hs Ht]. rewrite Hnull in Hs, Ht.
  destruct (body s) as [[[f | e] s1] t1]; [split; assumption |].
  destruct e; try (split; assumption).
  unfold on_JsonRPCError, state_of, trace_of in *. simpl in Hs, Ht.
  destruct (Json.eq_str code invalid_session); cbn.
  - split; [reflexivity |].
    apply Forall_app. split; [exact Ht | repeat constructor].
  - split; [exact Hs | rewrite app_nil_r; exact Ht].
Qed.

Lemma first_rpc_app t1 t2 :
  first_rpc (t1 ++ t2) =
  match first_rpc t1 with
  | Some req => Some req
  | None => first_rpc t2
  end.
Proof.
  induction t1 as [| e t1 IH]; [reflexivity |].
  destruct e; simpl; try exact IH. reflexivity.
Qed.

Lemma first_rpc_sends_token held t req :
  Forall (sends_token held) t -> first_rpc t = Some req ->
  rq_session req = token held.
Proof.
  induction 1 as [| e t He _ IH]; simpl; [discriminate |].
  destruct e; try exact IH.
  intros H. injection H as <-. exact He.
Qed.

Lemma first_rpc_none t :
  Forall (fun e => is_rpc e = false) t -> first_rpc t = None.
Proof.
  induction 1 as [| e t He _ IH]; simpl; [reflexivity |].
  destruct e; try exact IH. discriminate He.
Qed.

Lemma placeholder_first_quiet s t :
  session s = JNull -> Forall (sends_token JNull) t -> placeholder_first s t.
Proof.
  intros Hs Ht. unfold placeholder_first.
  destruct (first_rpc t) as [req |] eqn:Hf; [| exact Hs].
  exact (first_rpc_sends_token _ _ _ Ht Hf).
Qed.

Lemma poll_block_unauthenticated now veh s :
  session s = JNull ->
  session (state_of (poll_block gateway now veh s)) = JNull /\
  Forall (sends_token JNull) (trace_of (poll_block gateway now veh s)).
Proof.
  intros Hs. unfold poll_block, bind, read, lift. cbv beta iota.
  destruct (PyNum.sub (Float now) (last_update s)) as [elapsed |];
    cbv beta iota; [| split; [exact Hs | constructor]].
  destruct (PyNum.div (Int 1) (Float (freq (cfg s)))) as [period |];
    cbv beta iota; [| split; [exact Hs | constructor]].
  destruct (PyNum.gt elapsed period); [| split; [exact Hs | constructor]].
  pose proof (try_except_unauthenticated _ s
                (poll_body_keeps_session now veh) Hs) as [H1 H2].
  destruct (try_except_JsonRPCError (poll_body gateway now veh) s)
    as [[r s1] t1].
  split; [exact H1 | exact H2].
Qed.

Lemma publish_block_unauthenticated now veh s :
  session s = JNull ->
  publish_block gateway now veh s = (Ok tt, s, []).
Proof.
  intros Hs. unfold publish_block, bind, read. rewrite Hs. reflexivity.
Qed.

Lemma after_login_unauthenticated now veh s :
  session s = JNull ->
  session (state_of (after_login gateway now veh s)) = JNull /\
  Forall (sends_token JNull) (trace_of (after_login gateway now veh s)).
Proof.
  intros Hs. unfold after_login, bind.
  destruct (poll_block_unauthenticated now veh s Hs) as [H1 H2].
  destruct (poll_block gateway now veh s) as [[[f | e] s1] t1];
    unfold state_of, trace_of in *; simpl in H1, H2;
    [| split; assumption].
  destruct f.
  - rewrite (publish_block_unauthenticated now veh s1 H1). cbn.
    rewrite app_nil_r. split; assumption.
  - cbn. rewrite app_nil_r. split; assumption.
Qed.

(** A tick that starts without a session. *)
Lemma idle_task_unauthenticated now veh s :
  session s = JNull ->
  placeholder_first (state_of (idle_task gateway now veh s))
    (trace_of (idle_task gateway now veh s)).
Proof.
  intros Hs. destruct (started s) eqn:Hstarted.
  2:{ unfold idle_task, bind, read. rewrite Hstarted. exact Hs. }
  rewrite (idle_task_started _ _ _ _ Hstarted).
  destruct (PyNum.sub (Float now) (last_login s)) as [elapsed | e] eqn:He.
  2:{ unfold bind, login_block, bind, read, lift. rewrite Hs, He. exact Hs. }
  destruct (PyNum.gt elapsed (Int 5)) eqn:Hgt.
  - destruct (login_block_attempts gateway now s elapsed Hs He Hgt)
      as (req & rest & Ht & _ & Htoken & _ & _).
    unfold bind.
    destruct (login_block gateway now s) as [[[f | e] s1] t1];
      unfold trace_of in Ht; simpl in Ht; subst t1.
    + destruct (match f with
                | Return => ret tt
                | Continue => after_login gateway now veh
                end s1) as [[r2 s2] t2].
      exact Htoken.
    + exact Htoken.
  - unfold bind.
    rewrite (login_block_waits gateway now s elapsed Hs He Hgt).
    destruct (after_login_unauthenticated now veh s Hs) as [H1 H2].
    destruct (after_login gateway now veh s) as [[r2 s2] t2].
    apply placeholder_first_quiet; assumption.
Qed.

Lemma run_step_unauthenticated st s :
  session s = JNull ->
  placeholder_first
    (fst (run_step gateway sms_gateway decode_message math_cos math_sin st s))
    (snd (run_step gateway sms_gateway decode_message math_cos math_sin st s)).
Proof.
  intros Hs. destruct st as [now veh | query veh]; simpl.
  - pose proof (idle_task_unauthenticated now veh s Hs) as H.
    destruct (idle_task gateway now veh s) as [[r s1] t1]. exact H.
  - pose proof (incoming_sms_keeps sms_gateway decode_message math_cos
                  math_sin query veh s) as [H1 H2].
    destruct (incoming_sms sms_gateway decode_message math_cos math_sin
                query veh s) as [[r s1] t1].
    unfold state_of, trace_of in *. simpl in *. subst s1.
    unfold placeholder_first. rewrite (first_rpc_none _ H2). exact Hs.
Qed.

(** However the module is run from a state without a session, the
    first call it makes sends the placeholder. *)
Lemma run_unauthenticated steps : forall s,
  session s = JNull ->
  placeholder_first
    (fst (run gateway sms_gateway decode_message math_cos math_sin steps s))
    (snd (run gateway sms_gateway decode_message math_cos math_sin steps s)).
Proof.
  induction steps as [| st steps IH]; intros s Hs; simpl; [exact Hs |].
  pose proof (run_step_unauthenticated st s Hs) as H1.
  destruct (run_step gateway sms_gateway decode_message math_cos math_sin st s)
    as [s1 t1].
  simpl in H1. unfold placeholder_first in H1.
  destruct (first_rpc t1) as [req |] eqn:Hf.
  - destruct (run gateway sms_gateway decode_message math_cos math_sin steps s1)
      as [s2 t2].
    unfold placeholder_first. simpl. rewrite first_rpc_app, Hf. exact H1.
  - specialize (IH s1 H1).
    destruct (run gateway sms_gateway decode_message math_cos math_sin steps s1)
      as [s2 t2].
    unfold placeholder_first in *. simpl in *. rewrite first_rpc_app, Hf.
    exact IH.
Qed.

(** The login call is not guarded: its fault leaves the tick, the
    module being without a session as before. *)
Lemma login_block_fault now s code message :
  result_of (login_block gateway now s) = Raise (JsonRPCError code message) ->
  session (state_of (login_block gateway now s)) = session s /\
  session s = JNull.
Proof.
  unfold login_block, bind, read, lift, update, _json_rpc. cbv beta iota.
  destruct (session s) eqn:Hs; cbn [Json.is_none]; try discriminate.
  pose proof (Builtin.arith Z.sub F64.sub (Float now) (last_login s)) as Hb.
  fold PyNum.sub in Hb.
  destruct (PyNum.sub (Float now) (last_login s)) as [elapsed | e];
    cbv beta iota.
  2:{ intros H. injection H as ->. contradiction Hb. }
  destruct (PyNum.gt elapsed (Int 5)); [| discriminate].
  cbn [net_posts set_last_login].
  destruct (gateway (net_posts s)) as [| body]; [discriminate |].
  destruct (read_reply body) as [[login_result login_response] | e].
  - destruct (Json.eq_zero login_result); [| discriminate].
    destruct (Json.getitem login_response "ubus_rpc_session");
      [discriminate |].
    intros _. cbn. rewrite Hs. split; reflexivity.
  - intros _. cbn. rewrite Hs. split; reflexivity.
Qed.

(** C2: a [JsonRPCError] raised by any of the calls of the module
    clears the session when its code is the string [-32002] and leaves
    it as it was for any other code: so it is in the poll and in the
    publication, whose calls are guarded, and at login, where no session
    is held anyway.  Once the session is cleared, the rest of the tick
    makes no call, and the first call of any later run of the module
    sends the all-zero placeholder as its session argument. *)
Theorem rpc_fault_session_handling :
  (forall code,
      Json.eq_str code invalid_session = true <-> code = JStr "-32002") /\
  (forall now veh s code message,
      result_of (poll_body gateway now veh s) =
        Raise (JsonRPCError code message) ->
      session (state_of (try_except_JsonRPCError
                           (poll_body gateway now veh) s)) =
      if Json.eq_str code invalid_session then JNull else session s) /\
  (forall now position s code message,
      result_of (publish_body gateway now position s) =
        Raise (JsonRPCError code message) ->
      session (state_of (try_except_JsonRPCError
                           (publish_body gateway now position) s)) =
      if Json.eq_str code invalid_session then JNull else session s) /\
  (forall now s code message,
      result_of (login_block gateway now s) =
        Raise (JsonRPCError code message) ->
      session (state_of (login_block gateway now s)) =
      if Json.eq_str code invalid_session then JNull else session s) /\
  (forall s,
      session s = JNull ->
      (forall now veh, publish_block gateway now veh s = (Ok tt, s, [])) /\
      (forall steps req,
          first_rpc
            (snd (run gateway sms_gateway decode_message math_cos math_sin
                    steps s)) = Some req ->
          rq_session req = JStr placeholder)).
Proof.
  split; [| split; [| split; [| split]]].
  - intros code. unfold Json.eq_str, invalid_session. split.
    + destruct code; try discriminate. intros H.
      apply String.eqb_eq in H. congruence.
    + intros ->. reflexivity.
  - intros now veh s code message H.
    exact (try_except_session _ s code message
             (poll_body_keeps_session now veh) H).
  - intros now position s code message H.
    exact (try_except_session _ s code message
             (publish_body_keeps_session now position) H).
  - intros now s code message H.
    destruct (login_block_fault now s code message H) as [H1 H2].
    rewrite H1, H2. destruct (Json.eq_str code invalid_session); reflexivity.
  - intros s Hs. split.
    + intros now veh. apply publish_block_unauthenticated. exact Hs.
    + intros steps req Hf.
      pose proof (run_unauthenticated steps s Hs) as H.
      unfold placeholder_first in H. rewrite Hf in H. exact H.
Qed.

End SessionProperties.

(** ** The reading of texts beyond ASCII, on samples *)

(** [str.strip] takes the white space of Unicode, [float] and [int]
    read the decimal digits of any script and skip that white space
    too, except the separators U+001C to U+001F on an ASCII text, and
    slices count characters. *)
Example strip_takes_unicode_space :
  PyStr.strip (Texts.nbsp ++ "!!ARM" ++ Texts.em_space) = "!!ARM" /\
  PyStr.strip (Texts.fs ++ "24" ++ Texts.fs) = "24" /\
  tokens ("move 10 n" ++ Texts.nbsp) = ["move"; "10"; "n"] /\
  tokens ("speed " ++ Texts.nbsp) = ["speed"].
Proof. repeat split; vm_compute; reflexivity. Qed.

Example numbers_of_any_script :
  PyNum.float_of_string Texts.arabic_95 =
    Ok (S754_finite false 6685030696878080 (-46)) /\
  PyNum.int_of_string Texts.arabic_95 = Ok 95 /\
  PyNum.int_of_string ("24" ++ Texts.nbsp) = Ok 24 /\
  PyNum.int_of_string ("24" ++ Texts.fs) = Raise ValueError /\
  PyNum.float_of_string ("1" ++ Texts.fs) = Raise ValueError /\
  PyNum.float_of_string
    (PyStr.rstrip_degree ("nan" ++ Texts.fs ++ Texts.degree)) =
    Raise ValueError /\
  rssi_of (JDict [("signal", JStr Texts.arabic_95); ("rsrp", JStr "-80")]) =
    Ok (-95).
Proof. repeat split; vm_compute; reflexivity. Qed.

Example slices_count_characters :
  PyStr.slice 0 3 ("24" ++ Texts.nbsp ++ "026") = "24" ++ Texts.nbsp /\
  PyStr.slice 3 5 ("24" ++ Texts.nbsp ++ "026") = "02" /\
  PyStr.drop 2 ("!!" ++ Texts.nbsp ++ "arm") = Texts.nbsp ++ "arm".
Proof. repeat split; vm_compute; reflexivity. Qed.

Example command_after_no_break_space :
  incoming_sms Sample.sms_sent Texts.decode_arm Sample.cos Sample.sin
    (Sample.query "wqAhIUFSTQ==") Sample.guided Sample.logged_in =
  (Ok "Thanks", Sample.logged_in,
   [EvPrint (LineSmsFrom "+37060000000" "!!ARM"); EvArm 1 1]).
Proof. vm_compute. reflexivity. Qed.

(** ** The properties on the sample installation *)

Lemma rpc_fault_session_handling_witness :
  session
    (state_of
       (try_except_JsonRPCError
          (poll_body Sample.refusing Sample.ten Sample.guided)
          Sample.logged_in)) = JNull.
Proof.
  exact (proj1 (proj2 (rpc_fault_session_handling Sample.refusing
                         Sample.sms_sent Sample.decode Sample.cos Sample.sin))
           Sample.ten Sample.guided Sample.logged_in
           (JStr "-32002") (JStr "Access denied") eq_refl).
Defined.

Lemma invalid_session_poll_leaves_snapshot_witness :
  let r := poll_block Sample.refusing Sample.ten Sample.guided
             Sample.logged_in in
  result_of r = Ok Continue /\
  last_status (state_of r) = JNull /\
  last_update (state_of r) = Int 0 /\
  filter is_link_status (trace_of r) = [] /\
  session (state_of r) = JNull /\
  publish_block Sample.refusing Sample.ten Sample.guided (state_of r) =
    (Ok tt, state_of r, []).
Proof.
  exact (invalid_session_poll_leaves_snapshot Sample.refusing
           Sample.ten Sample.guided Sample.logged_in
           (Float Sample.ten) (Float Sample.one)
           (JStr "-32002") (JStr "Access denied")
           eq_refl eq_refl eq_refl eq_refl eq_refl).
Defined.

(** C4, as stated, fails at the boundary: exactly 5 seconds after a
    failed login, with no session held, the tick posts no login call. *)
Lemma login_at_five_seconds_counterexample :
  started Sample.login_failed = true /\
  session Sample.login_failed = JNull /\
  PyNum.sub (Float Sample.fifteen) (last_login Sample.login_failed) =
    Ok (Float (F64.of_Z 5)) /\
  PyNum.eq (Float (F64.of_Z 5)) (Int 5) = true /\
  PyNum.lt (Float (F64.of_Z 5)) (Int 5) = false /\
  filter is_login_call
    (trace_of (idle_task Sample.accepting Sample.fifteen Sample.guided
                 Sample.login_failed)) = [].
Proof.
  repeat split; vm_compute; reflexivity.
Qed.

Lemma login_rate_limit_witness :
  (exists req rest,
      trace_of (idle_task Sample.accepting Sample.ten Sample.guided
                  Sample.fresh) =
        EvRpc req (Sample.accepting 0%nat) :: rest /\
      filter is_login_call
        (trace_of (idle_task Sample.accepting Sample.ten Sample.guided
                     Sample.fresh)) =
        [EvRpc req (Sample.accepting 0%nat)]) /\
  last_login
    (state_of (idle_task Sample.accepting Sample.ten Sample.guided
                 Sample.fresh)) = Float Sample.ten.
Proof.
  exact (login_rate_limit Sample.accepting Sample.ten Sample.guided
           Sample.fresh (Float Sample.ten) eq_refl eq_refl eq_refl).
Defined.

Lemma negligible_move_sends_nothing_witness :
  incoming_sms Sample.sms_sent Sample.decode Sample.cos Sample.sin
    (Sample.query "ISFtb3ZlIDAuMyBu") Sample.guided Sample.fresh =
  (Ok "Thanks", Sample.fresh,
   [EvPrint (LineSmsFrom "+37060000000" "!!move 0.3 n");
    EvPrint (LineMoving (Float (S754_finite false 5404319552844595 (-54)))
               (Int 0))]) /\
  filter is_vehicle_command
    (trace_of (incoming_sms Sample.sms_sent Sample.decode Sample.cos
                 Sample.sin (Sample.query "ISFtb3ZlIDAuMyBu") Sample.guided
                 Sample.fresh)) = [].
Proof.
  pose proof (negligible_move_sends_nothing Sample.sms_sent Sample.decode
                Sample.cos Sample.sin (Sample.query "ISFtb3ZlIDAuMyBu")
                Sample.guided Sample.fresh "+37060000000" "ISFtb3ZlIDAuMyBu"
                "!!move 0.3 n" eq_refl eq_refl eq_refl eq_refl eq_refl)
    as [General Particular].
  split.
  - exact (General "move" ["0.3"; "n"] MAV_FRAME_LOCAL_OFFSET_NED
             (Float (S754_finite false 5404319552844595 (-54))) (Int 0)
             eq_refl eq_refl eq_refl (or_introl eq_refl) eq_refl
             eq_refl eq_refl).
  - exact (Particular eq_refl).
Defined.

Lemma opposite_compass_moves_negate_witness :
  exists n s e w,
    move_displacement Sample.cos Sample.sin ["move"; "10"; "n"] =
      Ok (MAV_FRAME_LOCAL_OFFSET_NED, fst n, snd n) /\
    move_displacement Sample.cos Sample.sin ["move"; "10"; "s"] =
      Ok (MAV_FRAME_LOCAL_OFFSET_NED, fst s, snd s) /\
    move_displacement Sample.cos Sample.sin ["move"; "10"; "e"] =
      Ok (MAV_FRAME_LOCAL_OFFSET_NED, fst e, snd e) /\
    move_displacement Sample.cos Sample.sin ["move"; "10"; "w"] =
      Ok (MAV_FRAME_LOCAL_OFFSET_NED, fst w, snd w) /\
    negated n s /\ negated s n /\ negated e w /\ negated w e.
Proof.
  exact (opposite_compass_moves_negate Sample.cos Sample.sin "10" Sample.ten
           eq_refl).
Defined.

Lemma ordinary_sms_is_acknowledged_witness :
  incoming_sms Sample.sms_sent Sample.decode Sample.cos Sample.sin
    (Sample.query "aGVsbG8gdGhlcmU=") Sample.guided Sample.sms_off =
  (Ok "DISABLED", Sample.sms_off, []) /\
  incoming_sms Sample.sms_sent Sample.decode Sample.cos Sample.sin
    (Sample.query "aGVsbG8gdGhlcmU=") Sample.guided Sample.fresh =
  (Ok "Thanks", Sample.fresh,
   [EvPrint (LineSmsFrom "+37060000000" "hello there")]).
Proof.
  split.
  - exact (proj1 (ordinary_sms_is_acknowledged Sample.sms_sent Sample.decode
                    Sample.cos Sample.sin (Sample.query "aGVsbG8gdGhlcmU=")
                    Sample.guided Sample.sms_off) eq_refl).
  - exact (proj2 (ordinary_sms_is_acknowledged Sample.sms_sent Sample.decode
                    Sample.cos Sample.sin (Sample.query "aGVsbG8gdGhlcmU=")
                    Sample.guided Sample.fresh)
             "+37060000000" "aGVsbG8gdGhlcmU=" "hello there"
             eq_refl eq_refl eq_refl eq_refl eq_refl).
Defined.

Lemma publish_timestamp_witness :
  let r := publish_block Sample.accepting Sample.hundred Sample.guided
             Sample.logged_in in
  result_of r = Ok tt /\
  last_status_message_update (state_of r) = Float Sample.hundred /\
  exists set1 set2 apply,
    is_rpc_of "uci" "set" set1 = true /\
    is_rpc_of "uci" "set" set2 = true /\
    is_rpc_of "uci" "apply" apply = true /\
    trace_of r = [set1; set2; apply].
Proof.
  exact (publish_timestamp Sample.accepting Sample.hundred Sample.guided
           Sample.logged_in (Float Sample.hundred) eq_refl eq_refl eq_refl).
Defined.

Lemma goto_hemisphere_by_first_letter_witness :
  goto_target ["goto"; "10.1234567"; "N"; "20.7654321"; "w"] =
  Ok (Float (F64.mul (S754_finite false 5698999477727669 (-49))
               (F64.of_Z 1)),
      Float (F64.mul (S754_finite false 5844949516734209 (-48))
               (F64.of_Z (-1)))).
Proof.
  exact (proj1 (goto_hemisphere_by_first_letter Sample.sms_sent
                  "goto" "10.1234567" "N" "20.7654321" "w"
                  (S754_finite false 5698999477727669 (-49))
                  (S754_finite false 5844949516734209 (-48))
                  "N" "" "w" "" eq_refl eq_refl eq_refl eq_refl)).
Defined.

(** * Further properties *)

(** ** What each entry point is confined to *)

Section Confinement.

Variable gateway : nat -> rpc_reply.
Variable sms_gateway : string -> sms_text -> bool.
Variable decode_message : string -> pyresult string.
Variables math_cos math_sin : float -> float.

Lemma login_block_keeps_installation now :
  keeps installation (fun _ e => is_telemetry_effect e = true)
    (login_block gateway now).
Proof. unfold login_block. keeps_block. Qed.

Lemma poll_block_keeps_installation now veh :
  keeps installation (fun _ e => is_telemetry_effect e = true)
    (poll_block gateway now veh).
Proof.
  unfold poll_block, poll_body, resolve_modem, report_status. keeps_block.
Qed.

Lemma publish_block_keeps_installation now veh :
  keeps installation (fun _ e => is_telemetry_effect e = true)
    (publish_block gateway now veh).
Proof. unfold publish_block, publish_body. keeps_block. Qed.

(** X1: whatever the gateway answers and however it ends, a tick only
    writes console lines, calls the gateway and sends status messages
    on links: it sends no SMS and no command to the vehicle, and it
    leaves the settings, the started flag and the handle of the
    [cmdlong] module as they were. *)
Theorem idle_task_confined now veh s :
  installation (state_of (idle_task gateway now veh s)) = installation s /\
  Forall (fun e => is_telemetry_effect e = true)
    (trace_of (idle_task gateway now veh s)).
Proof.
  assert (H : keeps installation (fun _ e => is_telemetry_effect e = true)
                (idle_task gateway now veh)).
  { unfold idle_task. keeps_block.
    - apply login_block_keeps_installation.
    - apply poll_block_keeps_installation.
    - apply publish_block_keeps_installation. }
  apply H.
Qed.

Lemma incoming_sms_effects query veh :
  keeps (fun s => s) (fun _ e => is_sms_effect e = true)
    (incoming_sms sms_gateway decode_message math_cos math_sin query veh).
Proof.
  unfold incoming_sms.
  repeat keeps_step.
  unfold command.
  repeat first [ keeps_step | apply keeps_send_sms; reflexivity ];
  unfold cmd_move, cmd_goto;
  repeat first [ keeps_step | apply keeps_send_sms; reflexivity ].
Qed.

(** X2: whatever the message, the SMS handler writes no field of the
    module; it only writes console lines, sends SMS and commands the
    vehicle: it makes no RPC call and sends nothing on the telemetry
    links. *)
Theorem incoming_sms_confined query veh s :
  state_of (incoming_sms sms_gateway decode_message math_cos math_sin
              query veh s) = s /\
  Forall (fun e => is_sms_effect e = true)
    (trace_of (incoming_sms sms_gateway decode_message math_cos math_sin
                 query veh s)).
Proof. apply incoming_sms_effects. Qed.

End Confinement.

(** ** Request ids *)

Section RequestIds.

Variable gateway : nat -> rpc_reply.
Variable sms_gateway : string -> sms_text -> bool.
Variable decode_message : string -> pyresult string.
Variables math_cos math_sin : float -> float.

Lemma numbered_app n t1 t2 :
  numbered n (t1 ++ t2) =
  match numbered n t1 with
  | Some m => numbered m t2
  | None => None
  end.
Proof.
  revert n. induction t1 as [| e t1 IH]; intros n; [reflexivity |].
  destruct e; simpl; try apply IH.
  destruct (rq_id req =? n); [apply IH | reflexivity].
Qed.

Lemma numbered_quiet n t :
  Forall (fun e => is_rpc e = false) t -> numbered n t = Some n.
Proof.
  induction 1 as [| e t He _ IH]; [reflexivity |].
  destruct e; simpl; try exact IH. discriminate He.
Qed.

Lemma numbered_le t : forall n m, numbered n t = Some m -> n <= m.
Proof.
  induction t as [| e t IH]; intros n m; simpl.
  - intros H. injection H as <-. lia.
  - destruct e; try apply IH.
    destruct (rq_id req =? n); [| discriminate].
    destruct reply; intros H; apply IH in H; lia.
Qed.

Lemma counts_ret {A} (a : A) : counts (ret a).
Proof. intros s. reflexivity. Qed.

Lemma counts_lift {A} (r : pyresult A) : counts (lift r).
Proof. intros s. reflexivity. Qed.

Lemma counts_read : counts read.
Proof. intros s. reflexivity. Qed.

Lemma counts_emit e : is_rpc e = false -> counts (emit e).
Proof. intros H s. destruct e; try reflexivity. discriminate H. Qed.

Lemma counts_update f :
  (forall s, request_num (f s) = request_num s) -> counts (update f).
Proof.
  intros H s. unfold update, state_of, trace_of. cbn [fst snd numbered].
  rewrite H. reflexivity.
Qed.

Lemma counts_bind {A B} (m : M A) (k : A -> M B) :
  counts m -> (forall a, counts (k a)) -> counts (bind m k).
Proof.
  intros Hm Hk s. unfold bind. specialize (Hm s).
  destruct (m s) as [[[a | e] s1] t1]; [| exact Hm].
  specialize (Hk a s1). destruct (k a s1) as [[r s2] t2].
  unfold state_of, trace_of in *. simpl in *.
  rewrite numbered_app, Hm. exact Hk.
Qed.

Lemma counts_json_rpc method obj action parameters :
  counts (_json_rpc gateway method obj action parameters).
Proof.
  intros s. unfold _json_rpc, state_of, trace_of.
  destruct (gateway (net_posts s)); simpl; rewrite Z.eqb_refl; reflexivity.
Qed.

Lemma counts_try_except body :
  counts body -> counts (try_except_JsonRPCError body).
Proof.
  intros Hb s. unfold try_except_JsonRPCError. specialize (Hb s).
  destruct (body s) as [[[f | e] s1] t1]; [exact Hb |].
  destruct e; try exact Hb.
  unfold on_JsonRPCError, state_of, trace_of in *. simpl in Hb.
  destruct (Json.eq_str code invalid_session); cbn;
    rewrite numbered_app, Hb; reflexivity.
Qed.

Lemma counts_choose_links veh : counts (choose_links veh).
Proof.
  intros s. unfold choose_links.
  destruct (sendalloutputs (cfg s)), (sendalllinks (cfg s)); reflexivity.
Qed.

Lemma counts_of_keeps {A} (m : M A) :
  keeps request_num (fun _ e => is_rpc e = false) m -> counts m.
Proof.
  intros H s. destruct (H s) as [Hs Ht]. rewrite Hs.
  apply numbered_quiet. exact Ht.
Qed.

Lemma counts_send_status links rssi snr mcc mnc :
  counts (send_status links rssi snr mcc mnc).
Proof.
  apply counts_of_keeps. apply keeps_send_status. intros _ [] H; try easy.
Qed.

Ltac counts_block :=
  repeat first
    [ apply counts_bind; [| intros ?]
    | apply counts_ret
    | apply counts_lift
    | apply counts_read
    | apply counts_json_rpc
    | apply counts_choose_links
    | apply counts_send_status
    | apply counts_try_except
    | apply counts_emit; reflexivity
    | apply counts_update; intros ?; reflexivity
    | match goal with
      | |- counts (if ?c then _ else _) => destruct c
      | |- counts (match ?x with _ => _ end) => destruct x
      | |- counts (let _ := _ in _) => cbv zeta
      end ].

Lemma idle_task_counts now veh : counts (idle_task gateway now veh).
Proof.
  unfold idle_task, login_block, poll_block, poll_body, resolve_modem,
    report_status, publish_block, publish_body.
  counts_block.
Qed.

Lemma run_step_counts st s :
  numbered (request_num s)
    (snd (run_step gateway sms_gateway decode_message math_cos math_sin st s)) =
  Some (request_num
          (fst (run_step gateway sms_gateway decode_message math_cos
                  math_sin st s))).
Proof.
  destruct st as [now veh | query veh]; simpl.
  - pose proof (idle_task_counts now veh s) as H.
    destruct (idle_task gateway now veh s) as [[r s1] t1]. exact H.
  - pose proof (incoming_sms_keeps sms_gateway decode_message math_cos
                  math_sin query veh s) as [H1 H2].
    destruct (incoming_sms sms_gateway decode_message math_cos math_sin
                query veh s) as [[r s1] t1].
    unfold state_of, trace_of in *. simpl in *. subst s1.
    apply numbered_quiet. exact H2.
Qed.

(** X3: over any run of ticks and SMS, the calls to the gateway are
    numbered by [request_num]: each call carries the value the counter
    has when it is made, an answered call (result or error) advances
    the counter by one, a call that gets no reply leaves it, and nothing
    else writes it.  So the counter never decreases. *)
Theorem request_ids_are_sequential steps : forall s,
  numbered (request_num s)
    (snd (run gateway sms_gateway decode_message math_cos math_sin steps s)) =
  Some (request_num
          (fst (run gateway sms_gateway decode_message math_cos math_sin
                  steps s))) /\
  request_num s <=
  request_num
    (fst (run gateway sms_gateway decode_message math_cos math_sin steps s)).
Proof.
  assert (H : forall s,
    numbered (request_num s)
      (snd (run gateway sms_gateway decode_message math_cos math_sin steps s)) =
    Some (request_num
            (fst (run gateway sms_gateway decode_message math_cos math_sin
                    steps s)))).
  { induction steps as [| st steps IH]; intros s; simpl; [reflexivity |].
    pose proof (run_step_counts st s) as H1.
    destruct (run_step gateway sms_gateway decode_message math_cos math_sin
                st s) as [s1 t1].
    specialize (IH s1).
    destruct (run gateway sms_gateway decode_message math_cos math_sin
                steps s1) as [s2 t2].
    simpl in *. rewrite numbered_app, H1. exact IH. }
  intros s. split; [apply H |].
  exact (numbered_le _ _ _ (H s)).
Qed.

End RequestIds.

(** ** The modem handle *)

Section ModemHandle.

Variable gateway : nat -> rpc_reply.
Variable sms_gateway : string -> sms_text -> bool.
Variable decode_message : string -> pyresult string.
Variables math_cos math_sin : float -> float.

Lemma modem_cached_of_keeps {A} (m : M A) :
  keeps modem (fun _ e => is_rpc_of "uci" "get" e = false) m ->
  modem_cached m.
Proof. intros H s _. apply H. Qed.

Lemma modem_cached_bind {A B} (m : M A) (k : A -> M B) :
  modem_cached m -> (forall a, modem_cached (k a)) -> modem_cached (bind m k).
Proof.
  intros Hm Hk s Hs. unfold bind. specialize (Hm s Hs).
  destruct (m s) as [[[a | e] s1] t1]; [| exact Hm].
  unfold state_of, trace_of in *. simpl in Hm. destruct Hm as [Hs1 Ht1].
  assert (Hs1' : Json.is_none (modem s1) = false) by (rewrite Hs1; exact Hs).
  specialize (Hk a s1 Hs1'). destruct (k a s1) as [[r s2] t2].
  unfold state_of, trace_of in *. simpl in *. destruct Hk as [Hs2 Ht2]. split.
  - congruence.
  - apply Forall_app. split; assumption.
Qed.

(** The poll once the modem is known: the part after the resolution. *)
Lemma poll_body_cached now veh : modem_cached (poll_body gateway now veh).
Proof.
  intros s Hs. unfold poll_body.
  assert (H : keeps modem (fun _ e => is_rpc_of "uci" "get" e = false)
    (bind (ret tt) (fun _ =>
       s1 <- read ;;
       if Json.is_none (modem s1) then ret Return
       else
         ' (result, info) <- _json_rpc gateway "call" "vuci.network.mobile"
                               "mobile_info" [("modem", PJson (modem s1))] ;;
         if Json.eq_zero result then report_status now veh info
         else ret Continue))).
  { unfold report_status. keeps_block. }
  specialize (H s).
  match type of H with
  | context [bind ?m ?k s] =>
      assert (E : (s0 <- read ;;
                   (if Json.is_none (modem s0) then resolve_modem gateway
                    else ret tt) ;;
                   s1 <- read ;;
                   if Json.is_none (modem s1) then ret Return
                   else
                     ' (result, info) <-
                         _json_rpc gateway "call" "vuci.network.mobile"
                           "mobile_info" [("modem", PJson (modem s1))] ;;
                     if Json.eq_zero result then report_status now veh info
                     else ret Continue) s = bind m k s)
  end.
  { unfold bind at 1. unfold read at 1. cbv beta iota. rewrite Hs.
    destruct (bind (ret tt) _ s) as [[r s2] t2]. reflexivity. }
  rewrite E. exact H.
Qed.

Lemma try_except_cached body :
  modem_cached body -> modem_cached (try_except_JsonRPCError body).
Proof.
  intros Hb s Hs. unfold try_except_JsonRPCError. specialize (Hb s Hs).
  destruct (body s) as [[[f | e] s1] t1]; [exact Hb |].
  destruct e; try exact Hb.
  unfold on_JsonRPCError, state_of, trace_of in *. simpl in Hb.
  destruct Hb as [H1 H2].
  destruct (Json.eq_str code invalid_session); cbn.
  - split; [exact H1 |]. apply Forall_app. split; [exact H2 |].
    repeat constructor.
  - rewrite app_nil_r. split; assumption.
Qed.

Lemma idle_task_cached now veh : modem_cached (idle_task gateway now veh).
Proof.
  unfold idle_task.
  apply modem_cached_bind; [apply modem_cached_of_keeps, keeps_read | intros s0].
  destruct (negb (started s0)); [apply modem_cached_of_keeps, keeps_ret |].
  apply modem_cached_bind;
    [apply modem_cached_of_keeps; unfold login_block; keeps_block | intros f].
  destruct f; [| apply modem_cached_of_keeps, keeps_ret].
  apply modem_cached_bind.
  - unfold poll_block.
    apply modem_cached_bind;
      [apply modem_cached_of_keeps, keeps_read | intros s1].
    apply modem_cached_bind;
      [apply modem_cached_of_keeps, keeps_lift | intros elapsed].
    apply modem_cached_bind;
      [apply modem_cached_of_keeps, keeps_lift | intros period].
    destruct (PyNum.gt elapsed period);
      [| apply modem_cached_of_keeps, keeps_ret].
    apply try_except_cached, poll_body_cached.
  - intros f. destruct f; [| apply modem_cached_of_keeps, keeps_ret].
    apply modem_cached_of_keeps.
    unfold publish_block, publish_body. keeps_block.
Qed.

(** X4: once a modem handle is held, no run of ticks and SMS changes
    it or asks the gateway for it again: the trace has no [uci get]
    call. *)
Theorem modem_handle_is_stable steps : forall s,
  Json.is_none (modem s) = false ->
  modem (fst (run gateway sms_gateway decode_message math_cos math_sin
                steps s)) = modem s /\
  Forall (fun e => is_rpc_of "uci" "get" e = false)
    (snd (run gateway sms_gateway decode_message math_cos math_sin steps s)).
Proof.
  induction steps as [| st steps IH]; intros s Hs; simpl;
    [split; [reflexivity | constructor] |].
  assert (H1 :
    modem (fst (run_step gateway sms_gateway decode_message math_cos
                  math_sin st s)) = modem s /\
    Forall (fun e => is_rpc_of "uci" "get" e = false)
      (snd (run_step gateway sms_gateway decode_message math_cos math_sin
              st s))).
  { destruct st as [now veh | query veh]; simpl.
    - pose proof (idle_task_cached now veh s Hs) as H.
      destruct (idle_task gateway now veh s) as [[r s1] t1]. exact H.
    - pose proof (incoming_sms_keeps sms_gateway decode_message math_cos
                    math_sin query veh s) as [H1 H2].
      destruct (incoming_sms sms_gateway decode_message math_cos math_sin
                  query veh s) as [[r s1] t1].
      unfold state_of, trace_of in *. simpl in *. subst s1.
      split; [reflexivity |].
      eapply Forall_impl; [| exact H2]. intros [] H; try reflexivity.
      discriminate H. }
  destruct (run_step gateway sms_gateway decode_message math_cos math_sin st s)
    as [s1 t1].
  simpl in H1. destruct H1 as [Hm1 Ht1].
  assert (Hs1 : Json.is_none (modem s1) = false) by (rewrite Hm1; exact Hs).
  specialize (IH s1 Hs1).
  destruct (run gateway sms_gateway decode_message math_cos math_sin steps s1)
    as [s2 t2].
  simpl in *. destruct IH as [Hm2 Ht2]. split.
  - congruence.
  - apply Forall_app. split; assumption.
Qed.

(** X5: when the poll is due, no modem is held and the resolution
    ends without one (the [uci get] call returned a non-zero code, or no
    section has a modem), the tick stops there: what follows the login
    block is the resolution alone, with no [mobile_info] call and no
    status publication, due or not. *)
Theorem unresolved_modem_ends_tick now veh s elapsed period s1 t1 :
  modem s = JNull ->
  PyNum.sub (Float now) (last_update s) = Ok elapsed ->
  PyNum.div (Int 1) (Float (freq (cfg s))) = Ok period ->
  PyNum.gt elapsed period = true ->
  resolve_modem gateway s = (Ok tt, s1, t1) ->
  modem s1 = JNull ->
  after_login gateway now veh s = (Ok tt, s1, t1).
Proof.
  intros Hm He Hp Hgt Hres Hm1.
  unfold after_login, poll_block, bind, read, lift. cbv beta iota.
  rewrite He. cbv beta iota. rewrite Hp. cbv beta iota. rewrite Hgt.
  unfold try_except_JsonRPCError, poll_body, bind, read. cbv beta iota.
  rewrite Hm. cbn [Json.is_none]. rewrite Hres. cbv beta iota.
  rewrite Hm1. cbn. rewrite !app_nil_r. reflexivity.
Qed.

(** X6: the modem taken from the network configuration is that of the
    first section, in the order of the reply, that has a [modem]
    member; with no such section there is none. *)
Theorem find_modem_takes_first_section :
  (forall pre d post m,
      Forall plain_section pre ->
      Json.lookup "modem" d = Some m ->
      find_modem (pre ++ JDict d :: post) = Ok (Some m)) /\
  (forall sections,
      Forall plain_section sections -> find_modem sections = Ok None).
Proof.
  assert (Hskip : forall pre rest,
    Forall plain_section pre -> find_modem (pre ++ rest) = find_modem rest).
  { intros pre rest H. induction H as [| sec pre (d & -> & Hd) _ IH];
      [reflexivity |].
    simpl. rewrite Hd. exact IH. }
  split.
  - intros pre d post m Hpre Hd. rewrite (Hskip _ _ Hpre).
    simpl. rewrite Hd. reflexivity.
  - intros sections H. rewrite <- (app_nil_r sections).
    rewrite (Hskip _ _ H). reflexivity.
Qed.

End ModemHandle.

(** ** The report of a poll *)

Section Report.

Lemma bind_run {A B} (m : M A) (k : A -> M B) s a s1 t1 :
  m s = (Ok a, s1, t1) ->
  bind m k s = let '(r, s2, t2) := k a s1 in (r, s2, (t1 ++ t2)%list).
Proof. intros H. unfold bind. rewrite H. reflexivity. Qed.

Lemma choose_links_run veh s :
  choose_links veh s = (Ok (selected_links s veh), after_selection s veh, []).
Proof.
  unfold choose_links, selected_links, after_selection.
  destruct (sendalllinks (cfg s)), (sendalloutputs (cfg s)); cbn;
    rewrite ?app_nil_r; reflexivity.
Qed.

Lemma send_status_run links rssi snr mcc mnc c n s :
  PyNum.int_of_string mcc = Ok c ->
  PyNum.int_of_string mnc = Ok n ->
  send_status links rssi snr mcc mnc s =
  (Ok tt, s, map (status_message rssi snr c n) links).
Proof.
  intros Hc Hn. induction links as [| l rest IH]; [reflexivity |].
  simpl. unfold bind at 1. unfold status_message at 1.
  destruct (has_cellular_status l).
  - unfold bind, lift, emit. rewrite Hc, Hn. cbv beta iota.
    rewrite IH. reflexivity.
  - unfold emit. rewrite IH. reflexivity.
Qed.

Lemma send_status_stops pre l post rssi snr mcc mnc e s :
  Forall (fun l' => has_cellular_status l' = false) pre ->
  has_cellular_status l = true ->
  PyNum.int_of_string mcc = Raise e ->
  send_status (pre ++ l :: post) rssi snr mcc mnc s =
  (Raise e, s, map (radio_message rssi snr) pre).
Proof.
  intros Hpre Hl He. induction Hpre as [| l' pre Hl' _ IH]; simpl.
  - unfold bind, lift. rewrite Hl, He. reflexivity.
  - unfold bind at 1. rewrite Hl'. unfold emit. rewrite IH. reflexivity.
Qed.

(** The report up to the point where the messages are sent. *)
Lemma report_status_prefix now veh info mobile rssi snr imsi s :
  Json.getitem info "mobile" = Ok mobile ->
  rssi_of mobile = Ok rssi ->
  snr_of mobile = Ok snr ->
  Json.getitem mobile "imsi" = Ok (JStr imsi) ->
  report_status now veh info s =
  let s' := set_last_update (Float now)
              (set_last_status mobile (after_selection s veh)) in
  let '(r, s2, t2) :=
    send_status (selected_links s veh) rssi snr
      (PyStr.slice 0 3 (PyStr.strip imsi)) (PyStr.slice 3 5 (PyStr.strip imsi))
      s' in
  (match r with Ok _ => Ok Continue | Raise e => Raise e end, s2, t2).
Proof.
  intros Hm Hr Hs Hi. unfold report_status.
  unfold bind at 1. rewrite choose_links_run.
  unfold bind, lift, update, ret. rewrite Hm, Hr, Hs. cbv beta iota.
  rewrite Hi. cbn [Json.strip]. cbv beta iota zeta.
  destruct (send_status _ _ _ _ _ _) as [[[u | e] s2] t2]; cbn;
    rewrite ?app_nil_r; reflexivity.
Qed.

(** X7: a reply of [mobile_info] whose [mobile] map gives a signal
    strength, a noise and an IMSI that begins with five digits is
    reported in full: the map becomes [last_status], the time of the
    tick becomes [last_update], and every selected link, in order, gets
    exactly one message in the shape it supports, carrying the rssi
    (and, in the radio shape, the snr; in the cellular shape the first
    three and next two digits of the IMSI). *)
Theorem successful_poll_reports now veh info mobile rssi snr imsi c n s :
  Json.getitem info "mobile" = Ok mobile ->
  rssi_of mobile = Ok rssi ->
  snr_of mobile = Ok snr ->
  Json.getitem mobile "imsi" = Ok (JStr imsi) ->
  PyNum.int_of_string (PyStr.slice 0 3 (PyStr.strip imsi)) = Ok c ->
  PyNum.int_of_string (PyStr.slice 3 5 (PyStr.strip imsi)) = Ok n ->
  report_status now veh info s =
  (Ok Continue,
   set_last_update (Float now)
     (set_last_status mobile (after_selection s veh)),
   map (status_message rssi snr c n) (selected_links s veh)).
Proof.
  intros Hm Hr Hs Hi Hc Hn.
  rewrite (report_status_prefix now veh info mobile rssi snr imsi s Hm Hr Hs Hi).
  cbv zeta. rewrite (send_status_run _ _ _ _ _ c n _ Hc Hn). reflexivity.
Qed.

(** X8: when the IMSI does not begin with digits (an empty IMSI, for
    one) and a selected link supports the cellular shape, the report
    raises the [ValueError] of [int] at the first such link: the links
    before it have got their radio message, the others get none, and
    the snapshot is already updated. *)
Theorem non_numeric_imsi_stops_report
    now veh info mobile rssi snr imsi pre l post e s :
  Json.getitem info "mobile" = Ok mobile ->
  rssi_of mobile = Ok rssi ->
  snr_of mobile = Ok snr ->
  Json.getitem mobile "imsi" = Ok (JStr imsi) ->
  selected_links s veh = (pre ++ l :: post)%list ->
  Forall (fun l' => has_cellular_status l' = false) pre ->
  has_cellular_status l = true ->
  PyNum.int_of_string (PyStr.slice 0 3 (PyStr.strip imsi)) = Raise e ->
  report_status now veh info s =
  (Raise e,
   set_last_update (Float now)
     (set_last_status mobile (after_selection s veh)),
   map (radio_message rssi snr) pre).
Proof.
  intros Hm Hr Hs Hi Hlinks Hpre Hl He.
  rewrite (report_status_prefix now veh info mobile rssi snr imsi s Hm Hr Hs Hi).
  cbv zeta. rewrite Hlinks.
  rewrite (send_status_stops pre l post _ _ _ _ e _ Hpre Hl He). reflexivity.
Qed.

Lemma any_int_not_text d k v rest :
  Json.lookup k d = Some v ->
  Json.is_none v = false ->
  (forall t, v <> JStr t) ->
  _any_int (JDict d) (k :: rest) = Raise AttributeError.
Proof.
  intros Hk Hv Ht. simpl. rewrite Hk, Hv.
  destruct v; try reflexivity. contradiction (Ht s eq_refl).
Qed.

Lemma any_int_raises d k t e rest :
  Json.lookup k d = Some (JStr t) ->
  PyNum.int_of_float_string t = Raise e ->
  e <> ValueError ->
  _any_int (JDict d) (k :: rest) = Raise e.
Proof.
  intros Hk Ht He. simpl. rewrite Hk. simpl.
  unfold PyNum.int_of_float_string in Ht. rewrite Ht.
  destruct e; try reflexivity. contradiction He. reflexivity.
Qed.

Lemma report_status_rssi_raises now veh info mobile e s :
  Json.getitem info "mobile" = Ok mobile ->
  rssi_of mobile = Raise e ->
  report_status now veh info s = (Raise e, after_selection s veh, []).
Proof.
  intros Hm Hr. unfold report_status.
  unfold bind at 1. rewrite choose_links_run.
  unfold bind, lift. rewrite Hm, Hr. reflexivity.
Qed.

(** X9: only [ValueError] is caught when a signal field is read.  If
    the first signal key that is not passed over holds a value that is
    not a string (a JSON number, say), the report raises
    [AttributeError]; if it holds a text such as [inf], whose float has
    no integer, the report raises [OverflowError].  In both cases
    nothing is sent and the snapshot keeps its values. *)
Theorem unreadable_signal_breaks_report now veh info d pre k post s :
  Json.getitem info "mobile" = Ok (JDict d) ->
  signal_keys = (pre ++ k :: post)%list ->
  Forall (passed_over d) pre ->
  (forall v,
      Json.lookup k d = Some v ->
      Json.is_none v = false ->
      (forall t, v <> JStr t) ->
      report_status now veh info s =
      (Raise AttributeError, after_selection s veh, [])) /\
  (forall t e,
      Json.lookup k d = Some (JStr t) ->
      PyNum.int_of_float_string t = Raise e ->
      e <> ValueError ->
      report_status now veh info s = (Raise e, after_selection s veh, [])) /\
  snapshot (after_selection s veh) = snapshot s.
Proof.
  intros Hm Hkeys Hpre. split; [| split].
  - intros v Hk Hv Ht.
    apply (report_status_rssi_raises now veh info (JDict d)); [exact Hm |].
    unfold rssi_of. rewrite Hkeys, (any_int_passed_over _ _ _ Hpre).
    rewrite (any_int_not_text _ _ _ _ Hk Hv Ht). reflexivity.
  - intros t e Hk Ht He.
    apply (report_status_rssi_raises now veh info (JDict d)); [exact Hm |].
    unfold rssi_of. rewrite Hkeys, (any_int_passed_over _ _ _ Hpre).
    rewrite (any_int_raises _ _ _ _ _ Hk Ht He). reflexivity.
  - unfold after_selection.
    destruct (sendalllinks (cfg s) && sendalloutputs (cfg s))%bool;
      reflexivity.
Qed.

Lemma report_status_selection now veh info s :
  cfg (state_of (report_status now veh info s)) = cfg s /\
  mav_master (state_of (report_status now veh info s)) =
  mav_master (after_selection s veh).
Proof.
  unfold report_status.
  rewrite (bind_run _ _ _ _ _ _ (choose_links_run veh s)). cbv beta.
  match goal with
  | |- context [bind ?m ?k (after_selection s veh)] =>
      assert (H : keeps (fun st => (cfg st, mav_master st)) (fun _ _ => True)
                    (bind m k))
        by (repeat first
              [ keeps_step
              | apply keeps_send_status; intros; exact I ]);
      destruct (H (after_selection s veh)) as [H1 _];
      destruct (bind m k (after_selection s veh)) as [[r s2] t2]
  end.
  unfold state_of in *. simpl in *. injection H1 as Hc Hm.
  split; [| exact Hm].
  rewrite Hc. unfold after_selection.
  destruct (sendalllinks (cfg s) && sendalloutputs (cfg s))%bool; reflexivity.
Qed.

Lemma concat_repeat_comm {A} (x : list A) k :
  (List.concat (repeat x k) ++ x)%list =
  (x ++ List.concat (repeat x k))%list.
Proof.
  induction k as [| k IH]; simpl.
  - rewrite app_nil_r. reflexivity.
  - rewrite <- app_assoc, IH. reflexivity.
Qed.

(** X10: with both [sendalllinks] and [sendalloutputs] set, each report
    extends the list of all links by the outputs, for good: after [k]
    reports the list holds [k] copies of the outputs after its first
    content, so the next report addresses every output [k + 1]
    times. *)
Theorem outputs_pile_up k now veh info s :
  sendalllinks (cfg s) = true ->
  sendalloutputs (cfg s) = true ->
  mav_master (after_reports k now veh info s) =
    (mav_master s ++ List.concat (repeat (mav_outputs veh) k))%list /\
  selected_links (after_reports k now veh info s) veh =
    (mav_master s ++ List.concat (repeat (mav_outputs veh) (S k)))%list.
Proof.
  intros Ha Ho.
  assert (H : cfg (after_reports k now veh info s) = cfg s /\
              mav_master (after_reports k now veh info s) =
              (mav_master s ++ List.concat (repeat (mav_outputs veh) k))%list).
  { induction k as [| k [IHc IHm]]; simpl.
    - rewrite app_nil_r. split; reflexivity.
    - destruct (report_status_selection now veh info
                  (after_reports k now veh info s)) as [Hc Hm].
      split; [congruence |].
      rewrite Hm. unfold after_selection. rewrite IHc, Ha, Ho. cbn.
      rewrite IHm, <- app_assoc. f_equal. apply concat_repeat_comm. }
  destruct H as [Hc Hm]. split; [exact Hm |].
  unfold selected_links. rewrite Hc, Ha, Ho, Hm, <- app_assoc. f_equal.
  apply concat_repeat_comm.
Qed.

End Report.

(** ** Login *)

Section Login.

Variable gateway : nat -> rpc_reply.

Lemma try_except_sends body s :
  keeps session sends_token body ->
  Forall (sends_token (session s))
    (trace_of (try_except_JsonRPCError body s)) /\
  (session (state_of (try_except_JsonRPCError body s)) = session s \/
   session (state_of (try_except_JsonRPCError body s)) = JNull).
Proof.
  intros Hk. unfold try_except_JsonRPCError.
  destruct (Hk s) as [Hs Ht].
  destruct (body s) as [[[f | e] s1] t1]; unfold state_of, trace_of in *;
    simpl in Hs, Ht; [split; [exact Ht | left; exact Hs] |].
  destruct e; try (split; [exact Ht | left; exact Hs]).
  unfold on_JsonRPCError.
  destruct (Json.eq_str code invalid_session); cbn.
  - split; [| right; reflexivity].
    apply Forall_app. split; [exact Ht | repeat constructor].
  - rewrite app_nil_r. split; [exact Ht | left; exact Hs].
Qed.

Lemma poll_block_sends now veh s :
  Forall (sends_token (session s)) (trace_of (poll_block gateway now veh s)) /\
  (session (state_of (poll_block gateway now veh s)) = session s \/
   session (state_of (poll_block gateway now veh s)) = JNull).
Proof.
  unfold poll_block, bind, read, lift. cbv beta iota.
  destruct (PyNum.sub (Float now) (last_update s)) as [elapsed |];
    cbv beta iota; [| split; [constructor | left; reflexivity]].
  destruct (PyNum.div (Int 1) (Float (freq (cfg s)))) as [period |];
    cbv beta iota; [| split; [constructor | left; reflexivity]].
  destruct (PyNum.gt elapsed period);
    [| split; [constructor | left; reflexivity]].
  pose proof (try_except_sends _ s (poll_body_keeps_session gateway now veh))
    as [H1 H2].
  destruct (try_except_JsonRPCError (poll_body gateway now veh) s)
    as [[r s1] t1].
  split; [exact H1 | exact H2].
Qed.

Lemma publish_block_sends now veh s :
  Forall (sends_token (session s))
    (trace_of (publish_block gateway now veh s)).
Proof.
  unfold publish_block, bind, read, lift. cbv beta iota.
  destruct (negb (Json.is_none (session s))); [| constructor].
  destruct (PyNum.sub (Float now) (last_status_message_update s))
    as [elapsed |]; cbv beta iota; [| constructor].
  destruct (PyNum.gt elapsed (Int 30)); [| constructor].
  destruct (GLOBAL_POSITION_INT veh) as [position |];
    [| repeat constructor].
  pose proof (try_except_sends _ s
                (publish_body_keeps_session gateway now position))
    as [H1 _].
  destruct (try_except_JsonRPCError (publish_body gateway now position) s)
    as [[[f | e] s1] t1]; unfold trace_of in *; simpl in *;
    rewrite ?app_nil_r; exact H1.
Qed.

(** The calls of the poll and of the publication send the token of the
    session that the module holds when they begin. *)
Lemma after_login_sends now veh s :
  Forall (sends_token (session s)) (trace_of (after_login gateway now veh s)).
Proof.
  unfold after_login, bind.
  destruct (poll_block_sends now veh s) as [H1 H2].
  destruct (poll_block gateway now veh s) as [[[f | e] s1] t1];
    unfold state_of, trace_of in *; simpl in H1, H2; [| exact H1].
  destruct f; [| cbn; rewrite app_nil_r; exact H1].
  destruct H2 as [H2 | H2].
  - pose proof (publish_block_sends now veh s1) as H3. rewrite H2 in H3.
    destruct (publish_block gateway now veh s1) as [[r2 s2] t2].
    apply Forall_app. split; [exact H1 | exact H3].
  - rewrite (publish_block_unauthenticated gateway now veh s1 H2). cbn.
    rewrite app_nil_r. exact H1.
Qed.

(** The login block on a tick on which a login is due, up to the reply
    of the gateway. *)
Lemma login_block_due now s :
  login_due now s ->
  login_block gateway now s =
  match gateway (net_posts s) with
  | NoReply =>
      (Raise TransportError, posted false (set_last_login (Float now) s),
       [EvRpc (login_request s) NoReply])
  | Reply body =>
      let s1 := posted true (set_last_login (Float now) s) in
      let t1 := [EvRpc (login_request s) (Reply body)] in
      match read_reply body with
      | Ok (code, response) =>
          if Json.eq_zero code then
            match Json.getitem response "ubus_rpc_session" with
            | Ok sid =>
                (Ok Continue, set_session sid s1,
                 (t1 ++ [EvPrint LineSessionStarted])%list)
            | Raise e => (Raise e, s1, t1)
            end
          else (Ok Return, s1, (t1 ++ [EvPrint LineFailedToLogin])%list)
      | Raise e => (Raise e, s1, t1)
      end
  end.
Proof.
  intros (_ & Hs & elapsed & He & Hgt).
  unfold login_block, bind, read, lift, update, _json_rpc, login_request.
  rewrite Hs, He. cbn [Json.is_none Json.truthy]. rewrite Hgt.
  cbn [net_posts set_last_login request_num session cfg]. rewrite Hs.
  cbn [Json.truthy].
  destruct (gateway (net_posts s)) as [| body]; [reflexivity |].
  destruct (read_reply body) as [[code response] | e]; [| reflexivity].
  cbv beta iota zeta.
  destruct (Json.eq_zero code); [| reflexivity].
  destruct (Json.getitem response "ubus_rpc_session"); reflexivity.
Qed.

(** X11: when the gateway answers the login with a result code other
    than 0, the tick is over: its whole effect is the login call, the
    line [Failed to login], the time of the attempt and the count of
    the request; no poll and no publication follow, and the module
    still holds no session. *)
Theorem failed_login_ends_tick now veh s body code response :
  login_due now s ->
  gateway (net_posts s) = Reply body ->
  read_reply body = Ok (code, response) ->
  Json.eq_zero code = false ->
  idle_task gateway now veh s =
  (Ok tt, posted true (set_last_login (Float now) s),
   [EvRpc (login_request s) (Reply body); EvPrint LineFailedToLogin]).
Proof.
  intros Hdue Hg Hr Hc.
  rewrite (idle_task_started _ _ _ _ (proj1 Hdue)).
  unfold bind. rewrite (login_block_due now s Hdue), Hg, Hr. cbv zeta.
  rewrite Hc. reflexivity.
Qed.

(** X12: when the gateway accepts the login, the session id of the
    reply is stored and used at once: every call that the rest of the
    same tick makes sends it as its session argument (the placeholder,
    if the id is empty). *)
Theorem fresh_session_is_used_at_once now veh s body code response sid :
  login_due now s ->
  gateway (net_posts s) = Reply body ->
  read_reply body = Ok (code, response) ->
  Json.eq_zero code = true ->
  Json.getitem response "ubus_rpc_session" = Ok sid ->
  exists rest,
    trace_of (idle_task gateway now veh s) =
      (EvRpc (login_request s) (Reply body) ::
       EvPrint LineSessionStarted :: rest)%list /\
    Forall (sends_token sid) rest /\
    rest = trace_of (after_login gateway now veh
                       (set_session sid
                          (posted true (set_last_login (Float now) s)))).
Proof.
  intros Hdue Hg Hr Hc Hsid.
  rewrite (idle_task_started _ _ _ _ (proj1 Hdue)).
  unfold bind. rewrite (login_block_due now s Hdue), Hg, Hr. cbv zeta.
  rewrite Hc, Hsid.
  pose proof (after_login_sends now veh
                (set_session sid (posted true (set_last_login (Float now) s))))
    as H.
  destruct (after_login gateway now veh _) as [[r2 s2] t2].
  exists t2. split; [reflexivity | split; [exact H | reflexivity]].
Qed.

(** X13: a login reply with result code 0 and no [ubus_rpc_session]
    entry makes the tick raise [KeyError]; a login call that gets no
    reply makes it raise the error of the transport.  Neither is
    caught: the poll and the publication of the tick are skipped, no
    session is stored, and the time of the attempt is recorded, so the
    next attempt waits again. *)
Theorem unusable_login_reply_raises now veh s :
  login_due now s ->
  (gateway (net_posts s) = NoReply ->
   idle_task gateway now veh s =
   (Raise TransportError, posted false (set_last_login (Float now) s),
    [EvRpc (login_request s) NoReply])) /\
  (forall body code response d,
      gateway (net_posts s) = Reply body ->
      read_reply body = Ok (code, response) ->
      Json.eq_zero code = true ->
      response = JDict d ->
      Json.lookup "ubus_rpc_session" d = None ->
      idle_task gateway now veh s =
      (Raise KeyError, posted true (set_last_login (Float now) s),
       [EvRpc (login_request s) (Reply body)])).
Proof.
  intros Hdue. split.
  - intros Hg. rewrite (idle_task_started _ _ _ _ (proj1 Hdue)).
    unfold bind. rewrite (login_block_due now s Hdue), Hg. reflexivity.
  - intros body code response d Hg Hr Hc -> Hd.
    rewrite (idle_task_started _ _ _ _ (proj1 Hdue)).
    unfold bind. rewrite (login_block_due now s Hdue), Hg, Hr. cbv zeta.
    rewrite Hc. unfold Json.getitem. rewrite Hd. reflexivity.
Qed.

End Login.

(** ** The command line *)

Section CommandLineProperties.

Variable settings_command : list string -> settings -> settings.
Variable gateway : nat -> rpc_reply.
Variable sms_gateway : string -> sms_text -> bool.
Variable decode_message : string -> pyresult string.
Variables math_cos math_sin : float -> float.

Lemma run_ticks_stopped l : forall s,
  started s = false ->
  run gateway sms_gateway decode_message math_cos math_sin (ticks l) s =
  (s, []).
Proof.
  induction l as [| [now veh] l IH]; intros s Hs; [reflexivity |].
  cbn [ticks map run run_step fst snd].
  unfold idle_task, bind, read. rewrite Hs. cbn [negb ret].
  fold (ticks l). rewrite (IH s Hs). reflexivity.
Qed.

(** X14: ticks do nothing on a module that was never started, and
    nothing after [teltonika stop]: no call, no message, no change of
    state.  [stop] forgets the session and the last status, and keeps
    the modem handle, the time of the last login attempt and the
    request counter for a later [start]. *)
Theorem stop_silences_ticks l s c has_cmdlong links :
  run gateway sms_gateway decode_message math_cos math_sin (ticks l)
    (init c has_cmdlong links) = (init c has_cmdlong links, []) /\
  cmd_teltonika settings_command ["stop"] s = (Ok tt, cmd_stop s, []) /\
  run gateway sms_gateway decode_message math_cos math_sin (ticks l)
    (cmd_stop s) = (cmd_stop s, []) /\
  session (cmd_stop s) = JNull /\
  last_status (cmd_stop s) = JNull /\
  modem (cmd_stop s) = modem s /\
  last_login (cmd_stop s) = last_login s /\
  request_num (cmd_stop s) = request_num s.
Proof.
  split; [apply run_ticks_stopped; reflexivity |].
  split; [reflexivity |].
  split; [apply run_ticks_stopped; reflexivity |].
  repeat split.
Qed.


Lemma print_entries_stops width pre k v post :
  Forall (fun kv => is_text (snd kv)) pre ->
  ~ is_text v ->
  print_entries width (pre ++ (k, v) :: post) =
  (Raise AttributeError, map (status_line width) pre).
Proof.
  intros Hpre Hv. induction Hpre as [| [k' v'] pre [t Ht] _ IH].
  - simpl. destruct v; try reflexivity. contradiction Hv. eexists; reflexivity.
  - simpl in Ht. subst v'. simpl. rewrite IH. reflexivity.
Qed.



(** X16: an entry of the last status whose value is not a text (a
    number or a null of the gateway's reply) makes [teltonika status]
    raise [AttributeError] after the lines of the entries before it;
    the entries after it are not listed. *)
Theorem status_stops_at_non_text s pre k v post :
  started s = true ->
  last_status s = JDict (pre ++ (k, v) :: post) ->
  Forall (fun kv => is_text (snd kv)) pre ->
  ~ is_text v ->
  exists width,
    teltonika_status s =
    (Raise AttributeError, map (status_line width) pre).
Proof.
  intros Hstarted Hd Hpre Hv.
  exists (list_max (map (fun kv => String.length (fst kv))
                      (pre ++ (k, v) :: post))).
  unfold teltonika_status. rewrite Hstarted, Hd. cbn [negb Json.is_none].
  destruct (pre ++ (k, v) :: post)%list as [| kv d'] eqn:E.
  - destruct pre; discriminate E.
  - rewrite <- E. apply print_entries_stops; assumption.
Qed.

End CommandLineProperties.

(** ** The joystick module *)

Section JoystickFacts.

Import Joystick.

Lemma list_eqb_eq a : forall b, list_eqb a b = true <-> a = b.
Proof.
  induction a as [| x a IH]; intros [| y b]; simpl; split;
    try congruence; try discriminate.
  - intros H. apply andb_prop in H as [Hx Hr].
    apply Z.eqb_eq in Hx. apply IH in Hr. congruence.
  - intros H. injection H as -> ->.
    rewrite Z.eqb_refl. apply IH. reflexivity.
Qed.

Lemma merge_merge values current :
  merge values (merge values current) = merge values current.
Proof.
  unfold merge. f_equal.
  rewrite skipn_app, skipn_all, Nat.sub_diag. reflexivity.
Qed.

Lemma on_event_override values r :
  override (on_event values r) = merge values (override r).
Proof.
  unfold on_event.
  destruct (list_eqb (merge values (override r)) (override r)) eqn:E;
    [| reflexivity].
  apply list_eqb_eq in E. symmetry. exact E.
Qed.

Lemma on_event_forced values r :
  (forced r <= forced (on_event values r) <= S (forced r))%nat /\
  (forced (on_event values r) = forced r ->
   override (on_event values r) = override r).
Proof.
  unfold on_event.
  destruct (list_eqb (merge values (override r)) (override r)); simpl.
  - split; [lia | reflexivity].
  - split; [lia | intros H; lia].
Qed.

Lemma merge_length values current :
  List.length (merge values current) =
  Nat.max (List.length values) (List.length current).
Proof.
  unfold merge. rewrite length_app, length_skipn. lia.
Qed.

(** X17: a reading is written over the first channels of the override
    and nothing else: the new override begins with the reading, keeps
    every channel beyond it, and is as long as the longer of the
    two. *)
Theorem reading_overwrites_leading_channels values r :
  firstn (List.length values) (override (on_event values r)) = values /\
  skipn (List.length values) (override (on_event values r)) =
    skipn (List.length values) (override r) /\
  List.length (override (on_event values r)) =
    Nat.max (List.length values) (List.length (override r)).
Proof.
  rewrite on_event_override. split; [| split].
  - unfold merge. rewrite firstn_app, firstn_all, Nat.sub_diag.
    simpl. apply app_nil_r.
  - unfold merge. rewrite skipn_app, skipn_all, Nat.sub_diag. reflexivity.
  - apply merge_length.
Qed.

(** X18: a reading that is repeated changes nothing and forces no
    further update: however many events deliver the same reading, the
    result is that of one event. *)
Theorem repeated_reading_forces_once values k r :
  process_events (repeat values (S k)) r = on_event values r.
Proof.
  revert r. induction k as [| k IH]; intros r; [reflexivity |].
  change (process_events (repeat values (S (S k))) r)
    with (process_events (repeat values (S k)) (on_event values r)).
  rewrite IH. unfold on_event at 1.
  rewrite on_event_override, merge_merge.
  replace (list_eqb (merge values (override r)) (merge values (override r)))
    with true by (symmetry; apply list_eqb_eq; reflexivity).
  reflexivity.
Qed.

(** X19: over any sequence of events, the update of the override is
    forced at most once per event, the override never gets shorter,
    and if no update was forced the override is what it was. *)
Theorem forced_updates_follow_changes readings : forall r,
  (forced r <= forced (process_events readings r)
            <= forced r + List.length readings)%nat /\
  (List.length (override r)
   <= List.length (override (process_events readings r)))%nat /\
  (forced (process_events readings r) = forced r ->
   override (process_events readings r) = override r).
Proof.
  induction readings as [| values readings IH]; intros r.
  - simpl. repeat split; lia.
  - change (process_events (values :: readings) r)
      with (process_events readings (on_event values r)).
    destruct (IH (on_event values r)) as (Hf & Hl & Hsame).
    destruct (on_event_forced values r) as [Hstep Hquiet].
    pose proof (on_event_override values r) as Ho.
    pose proof (merge_length values (override r)) as Hm.
    rewrite <- Ho in Hm.
    split; [simpl List.length; lia |].
    split; [lia |].
    intros Heq.
    assert (H1 : forced (on_event values r) = forced r) by lia.
    rewrite Hsame by lia. apply Hquiet. exact H1.
Qed.

End JoystickFacts.

(** ** Commands by SMS *)

Section Commands.

Variable sms_gateway : string -> sms_text -> bool.
Variable decode_message : string -> pyresult string.
Variables math_cos math_sin : float -> float.

Lemma mem_In x l : PyStr.mem x l = true -> In x l.
Proof.
  unfold PyStr.mem. intros H. apply existsb_exists in H.
  destruct H as (y & Hin & Heq). apply String.eqb_eq in Heq. subst y.
  exact Hin.
Qed.

Lemma send_sms_reply to text s :
  bind (send_sms sms_gateway to text) (fun _ => ret "OK") s =
  sms_reply sms_gateway to text s.
Proof.
  unfold send_sms, sms_reply, bind, emit, ret, lift.
  destruct (sms_gateway to text); reflexivity.
Qed.

(** The handler on a request that carries a command. *)
Lemma incoming_sms_command query veh s sender message args :
  received decode_message query s sender message args ->
  incoming_sms sms_gateway decode_message math_cos math_sin query veh s =
  let '(r, s2, t2) := command sms_gateway math_cos math_sin sender args veh s in
  (r, s2, EvPrint (LineSmsFrom sender message) :: t2).
Proof.
  intros (Hon & Hsender & (raw & text & Hraw & Hdec & ->) & Hpre & Htok).
  unfold incoming_sms, bind, read, lift, emit.
  rewrite Hon, Hsender, Hraw, Hdec. cbv beta iota zeta.
  rewrite Hpre, Htok. cbv beta iota delta [negb].
  destruct (command sms_gateway math_cos math_sin sender args veh s)
    as [[r s2] t2].
  reflexivity.
Qed.

Lemma command_move sender first rest veh :
  PyStr.lower first = "move" ->
  command sms_gateway math_cos math_sin sender (first :: rest) veh =
  cmd_move sms_gateway math_cos math_sin sender (first :: rest) veh.
Proof. intros H. unfold command. rewrite H. reflexivity. Qed.

Lemma command_goto sender first rest veh :
  PyStr.mem (PyStr.lower first) ["goto"; "go"] = true ->
  command sms_gateway math_cos math_sin sender (first :: rest) veh =
  cmd_goto sms_gateway (PyStr.lower first) sender (first :: rest) veh.
Proof.
  intros H. apply mem_In in H. unfold command.
  destruct H as [H | [H | []]]; rewrite <- H; reflexivity.
Qed.

(** X20: the keyword of a command is read without regard to case: two
    first tokens that agree once lowercased start the same command,
    with the same effects and the same answer. *)
Theorem keyword_case_is_ignored sender a b rest veh s :
  PyStr.lower a = PyStr.lower b ->
  command sms_gateway math_cos math_sin sender (a :: rest) veh s =
  command sms_gateway math_cos math_sin sender (b :: rest) veh s.
Proof.
  intros H. unfold command. rewrite H.
  repeat match goal with
         | |- context [if ?c then _ else _] =>
             match c with
             | context [PyStr.lower b] => destruct c
             end
         end; reflexivity.
Qed.

(** X21: a command with the wrong number of tokens is answered by one
    SMS with the usage of the command, and has no other effect: [move]
    and [goto] take two or four arguments, [speed] and [wp] take
    one. *)
Theorem malformed_command_gets_usage sender first rest veh s :
  (PyStr.lower first = "move" ->
   List.length rest <> 2%nat -> List.length rest <> 4%nat ->
   command sms_gateway math_cos math_sin sender (first :: rest) veh s =
   sms_reply sms_gateway sender SmsUsageMove s) /\
  (PyStr.mem (PyStr.lower first) ["goto"; "go"] = true ->
   List.length rest <> 2%nat -> List.length rest <> 4%nat ->
   command sms_gateway math_cos math_sin sender (first :: rest) veh s =
   sms_reply sms_gateway sender (SmsUsageGoto (PyStr.lower first)) s) /\
  (PyStr.lower first = "speed" ->
   List.length rest <> 1%nat ->
   command sms_gateway math_cos math_sin sender (first :: rest) veh s =
   sms_reply sms_gateway sender SmsUsageSpeed s) /\
  (PyStr.lower first = "wp" ->
   List.length rest <> 1%nat ->
   command sms_gateway math_cos math_sin sender (first :: rest) veh s =
   sms_reply sms_gateway sender SmsUsageWp s).
Proof.
  split; [| split; [| split]].
  - intros Hcmd H2 H4. rewrite (command_move _ _ _ _ Hcmd). unfold cmd_move.
    replace ((List.length (first :: rest) =? 3)%nat
             || (List.length (first :: rest) =? 5)%nat)%bool with false.
    + apply send_sms_reply.
    + symmetry. apply orb_false_iff.
      split; apply Nat.eqb_neq; simpl; lia.
  - intros Hcmd H2 H4. rewrite (command_goto _ _ _ _ Hcmd). unfold cmd_goto.
    replace ((List.length (first :: rest) =? 3)%nat
             || (List.length (first :: rest) =? 5)%nat)%bool with false.
    + apply send_sms_reply.
    + symmetry. apply orb_false_iff.
      split; apply Nat.eqb_neq; simpl; lia.
  - intros Hcmd H1. unfold command. rewrite Hcmd.
    replace ((List.length (first :: rest) =? 2)%nat) with false
      by (symmetry; apply Nat.eqb_neq; simpl; lia).
    apply send_sms_reply.
  - intros Hcmd H1. unfold command. rewrite Hcmd.
    replace ((List.length (first :: rest) =? 2)%nat) with false
      by (symmetry; apply Nat.eqb_neq; simpl; lia).
    apply send_sms_reply.
Qed.

(** X22: outside the GUIDED flight mode, [move], [goto] and [go] never
    command the vehicle: whatever their arguments, their whole effect
    is one SMS to the sender (the usage, or the refusal that names the
    flight mode), and the module state is untouched. *)
Theorem no_motion_outside_guided sender first rest veh s :
  PyStr.mem (PyStr.lower first) ["move"; "goto"; "go"] = true ->
  String.eqb (flightmode veh) "GUIDED" = false ->
  exists text,
    command sms_gateway math_cos math_sin sender (first :: rest) veh s =
    sms_reply sms_gateway sender text s.
Proof.
  intros Hcmd Hmode. apply mem_In in Hcmd.
  destruct Hcmd as [Hcmd | Hcmd].
  - rewrite (command_move _ _ _ _ (eq_sym Hcmd)). unfold cmd_move.
    destruct (negb _).
    + eexists. apply send_sms_reply.
    + rewrite Hmode. cbn [negb]. eexists. apply send_sms_reply.
  - assert (Hg : PyStr.mem (PyStr.lower first) ["goto"; "go"] = true).
    { destruct Hcmd as [H | [H | []]]; rewrite <- H; reflexivity. }
    rewrite (command_goto _ _ _ _ Hg). unfold cmd_goto.
    destruct (negb _).
    + eexists. apply send_sms_reply.
    + rewrite Hmode. cbn [negb]. eexists. apply send_sms_reply.
Qed.

(** X23: [status] needs all three telemetry messages of the vehicle,
    and [speed] needs the [cmdlong] module: when one is missing the
    handler raises [AttributeError] after its console line, and the
    sender gets no SMS at all. *)
Theorem commands_that_raise_send_nothing
    query veh s sender message first rest :
  received decode_message query s sender message (first :: rest) ->
  (PyStr.lower first = "status" /\
   (SYS_STATUS veh = None \/ GLOBAL_POSITION_INT veh = None \/
    WIND veh = None)) \/
  (PyStr.lower first = "speed" /\ List.length rest = 1%nat /\
   cmdlong s = false) ->
  incoming_sms sms_gateway decode_message math_cos math_sin query veh s =
  (Raise AttributeError, s, [EvPrint (LineSmsFrom sender message)]).
Proof.
  intros Hrec Hcase.
  rewrite (incoming_sms_command query veh s sender message _ Hrec).
  assert (H : command sms_gateway math_cos math_sin sender (first :: rest)
                veh s = (Raise AttributeError, s, [])).
  { unfold command.
    destruct Hcase as [[Hcmd Hmiss] | (Hcmd & Hlen & Hlong)]; rewrite Hcmd.
    - cbn [String.eqb Ascii.eqb Bool.eqb].
      destruct (SYS_STATUS veh), (GLOBAL_POSITION_INT veh), (WIND veh);
        try reflexivity.
      destruct Hmiss as [H | [H | H]]; discriminate H.
    - cbn [List.length]. rewrite Hlen.
      unfold bind, read, lift. cbn. rewrite Hlong. reflexivity. }
  rewrite H. reflexivity.
Qed.

Lemma cmd_move_raises sender args veh s e :
  (List.length args = 3 \/ List.length args = 5)%nat ->
  flightmode veh = "GUIDED" ->
  move_displacement math_cos math_sin args = Raise e ->
  cmd_move sms_gateway math_cos math_sin sender args veh s = (Raise e, s, []).
Proof.
  intros Hlen Hmode Hmove. unfold cmd_move.
  replace (negb ((List.length args =? 3)%nat || (List.length args =? 5)%nat))
    with false by (destruct Hlen as [-> | ->]; reflexivity).
  rewrite Hmode. cbn [String.eqb Ascii.eqb Bool.eqb negb].
  unfold bind, lift. rewrite Hmove. reflexivity.
Qed.

(** X24: a three-token [move] in guided mode whose direction is
    neither an integer bearing nor a compass word raises
    [AttributeError] where the frame is chosen, since the frame named
    there does not exist.  The body words [fwd], [aft], [stb] and
    [port] of the usage text are such directions.  Nothing is printed
    for the move, no SMS and no position target are sent. *)
Theorem body_frame_move_raises sender first x dir d veh s :
  PyStr.lower first = "move" ->
  flightmode veh = "GUIDED" ->
  PyNum.float_of_string x = Ok d ->
  PyNum.int_of_string (PyStr.lower dir) = Raise ValueError ->
  PyStr.mem (PyStr.lower dir) compass = false ->
  move_displacement math_cos math_sin [first; x; dir] = Raise AttributeError /\
  command sms_gateway math_cos math_sin sender [first; x; dir] veh s =
    (Raise AttributeError, s, []) /\
  Forall (fun w => PyStr.lower w = w /\
                   PyNum.int_of_string w = Raise ValueError /\
                   PyStr.mem w compass = false) body_words.
Proof.
  intros Hcmd Hmode Hd Hint Hmem.
  assert (Hmove : move_displacement math_cos math_sin [first; x; dir] =
                  Raise AttributeError).
  { unfold move_displacement, arg. cbn [List.length Nat.eqb nth].
    rewrite Hd. cbn [rbind String.eqb]. rewrite Hint. cbn [rbind].
    rewrite Hmem. reflexivity. }
  split; [exact Hmove |]. split.
  - rewrite (command_move _ _ _ _ Hcmd).
    exact (cmd_move_raises sender [first; x; dir] veh s AttributeError
             (or_introl eq_refl) Hmode Hmove).
  - repeat constructor.
Qed.

(** X25: a five-token [move] in guided mode raises [AttributeError] in
    the same place unless both directions are compass words: a compass
    leg given together with a body leg is not executed either. *)
Theorem mixed_move_raises sender first x1 c1 x2 c2 d1 d2 veh s :
  PyStr.lower first = "move" ->
  flightmode veh = "GUIDED" ->
  PyNum.float_of_string x1 = Ok d1 ->
  PyNum.float_of_string x2 = Ok d2 ->
  PyStr.lower c2 <> "" ->
  (PyStr.mem (PyStr.lower c1) compass
   && PyStr.mem (PyStr.lower c2) compass)%bool = false ->
  command sms_gateway math_cos math_sin sender [first; x1; c1; x2; c2] veh s =
  (Raise AttributeError, s, []).
Proof.
  intros Hcmd Hmode Hd1 Hd2 Hne Hmem.
  rewrite (command_move _ _ _ _ Hcmd).
  apply cmd_move_raises; [right; reflexivity | exact Hmode |].
  unfold move_displacement, arg. cbn [List.length Nat.eqb nth].
  rewrite Hd1, Hd2. cbn [rbind].
  apply String.eqb_neq in Hne. rewrite Hne. cbn [rbind].
  unfold PyStr.mem at 2. cbn [existsb]. rewrite Hne. cbn [orb].
  fold (PyStr.mem (PyStr.lower c2) compass). rewrite Hmem. reflexivity.
Qed.

(** X26: [goto] sends its [Going to] SMS before it converts the
    coordinates to integers.  When a coordinate has no integer value
    (a [nan] or an infinity), the sender has been told that the vehicle
    is going there, the conversion raises, and no position target is
    sent. *)
Theorem goto_replies_before_converting sender first rest lat lon e veh s :
  PyStr.mem (PyStr.lower first) ["goto"; "go"] = true ->
  (List.length rest = 2 \/ List.length rest = 4)%nat ->
  flightmode veh = "GUIDED" ->
  goto_target (first :: rest) = Ok (lat, lon) ->
  sms_gateway sender (SmsGoingTo lat lon) = true ->
  scaled_int lat = Raise e \/
  (exists z, scaled_int lat = Ok z /\ scaled_int lon = Raise e) ->
  command sms_gateway math_cos math_sin sender (first :: rest) veh s =
  (Raise e, s, [EvSms sender (SmsGoingTo lat lon)]).
Proof.
  intros Hcmd Hlen Hmode Htarget Hsent Hfail.
  rewrite (command_goto _ _ _ _ Hcmd). unfold cmd_goto.
  replace (negb ((List.length (first :: rest) =? 3)%nat
                 || (List.length (first :: rest) =? 5)%nat))
    with false by (simpl; destruct Hlen as [-> | ->]; reflexivity).
  rewrite Hmode. cbn [String.eqb Ascii.eqb Bool.eqb negb].
  unfold bind at 1. unfold lift at 1. rewrite Htarget. cbv beta iota.
  unfold send_sms, bind, emit, lift, ret. rewrite Hsent.
  destruct Hfail as [Hlat | (z & Hlat & Hlon)].
  - rewrite Hlat. reflexivity.
  - rewrite Hlat, Hlon. reflexivity.
Qed.

Lemma decode_shorter s c r :
  PyStr.decode s = Some (c, r) -> (String.length r < String.length s)%nat.
Proof.
  intros H. unfold PyStr.decode in H.
  destruct s as [| a [| b [| c' [| d r4]]]]; cbv beta iota zeta in H;
    repeat match type of H with
           | context [if ?x then _ else _] => destruct x
           end;
    try discriminate H; injection H as _ <-; cbn [String.length]; lia.
Qed.

Lemma space_at_head_shorter s r :
  PyStr.space_at_head s = Some r -> (String.length r < String.length s)%nat.
Proof.
  unfold PyStr.space_at_head.
  destruct (PyStr.decode s) as [[c r'] |] eqn:E; [| discriminate].
  destruct (PyStr.is_space c); [| discriminate].
  intros H. injection H as <-. exact (decode_shorter _ _ _ E).
Qed.

(** With enough fuel, what [lstrip] leaves does not begin with white
    space. *)
Lemma lstrip_from_head n : forall s,
  (String.length s <= n)%nat ->
  PyStr.space_at_head (PyStr.lstrip_from n s) = None.
Proof.
  induction n as [| n IH]; intros s Hn.
  - destruct s; [reflexivity | simpl in Hn; lia].
  - cbn [PyStr.lstrip_from].
    destruct (PyStr.space_at_head s) as [r |] eqn:E; [| exact E].
    apply IH. pose proof (space_at_head_shorter _ _ E). lia.
Qed.

Lemma lstrip_fixed s :
  PyStr.space_at_head s = None -> PyStr.lstrip s = s.
Proof.
  intros H. unfold PyStr.lstrip.
  destruct (String.length s); cbn [PyStr.lstrip_from];
    [| rewrite H]; reflexivity.
Qed.

Lemma rstrip_prefix s : String.prefix (PyStr.rstrip s) s = true.
Proof.
  induction s as [| a r IH]; [reflexivity |].
  cbn [PyStr.rstrip]. cbv zeta.
  destruct (PyStr.is_one_space (String a (PyStr.rstrip r))); [reflexivity |].
  cbn [String.prefix]. destruct (ascii_dec a a); [exact IH | contradiction].
Qed.

(** The code point at the head of a text is that of any text it
    begins. *)
Lemma decode_prefix u t c ru :
  PyStr.decode u = Some (c, ru) ->
  String.prefix u t = true ->
  exists rt, PyStr.decode t = Some (c, rt).
Proof.
  intros H Hp. unfold PyStr.decode in *.
  destruct u as [| a [| b [| c' [| d u4]]]];
    destruct t as [| a' [| b' [| c'' [| d' t4]]]];
    cbn [String.prefix] in Hp;
    repeat match type of Hp with
           | context [ascii_dec ?x ?y] =>
               destruct (ascii_dec x y); [subst | discriminate Hp]
           end;
    try discriminate Hp;
    cbv beta iota zeta in H |- *;
    repeat match type of H with
           | context [if ?x then _ else _] => destruct x
           end;
    try discriminate H; injection H as <- _; eexists; reflexivity.
Qed.

Lemma space_at_head_prefix u t :
  PyStr.space_at_head t = None ->
  String.prefix u t = true ->
  PyStr.space_at_head u = None.
Proof.
  intros Ht Hp. unfold PyStr.space_at_head in *.
  destruct (PyStr.decode u) as [[c ru] |] eqn:E; [| reflexivity].
  destruct (decode_prefix _ _ _ _ E Hp) as [rt Hd]. rewrite Hd in Ht.
  destruct (PyStr.is_space c); [discriminate Ht | reflexivity].
Qed.

Lemma rstrip_idempotent s : PyStr.rstrip (PyStr.rstrip s) = PyStr.rstrip s.
Proof.
  induction s as [| a r IH]; [reflexivity |].
  cbn [PyStr.rstrip]. cbv zeta.
  destruct (PyStr.is_one_space (String a (PyStr.rstrip r))) eqn:E;
    [reflexivity |].
  cbn [PyStr.rstrip]. cbv zeta. rewrite IH, E. reflexivity.
Qed.

Lemma strip_idempotent s : PyStr.strip (PyStr.strip s) = PyStr.strip s.
Proof.
  unfold PyStr.strip.
  assert (H : PyStr.space_at_head (PyStr.rstrip (PyStr.lstrip s)) = None).
  { apply (space_at_head_prefix _ (PyStr.lstrip s)); [| apply rstrip_prefix].
    apply lstrip_from_head. apply Nat.le_refl. }
  rewrite (lstrip_fixed _ H). apply rstrip_idempotent.
Qed.

(** The fuel of [lstrip] and of [to_ascii], the length of the text, is
    enough: more of it changes nothing. *)
Lemma lstrip_fuel n : forall m s,
  (String.length s <= n)%nat -> (String.length s <= m)%nat ->
  PyStr.lstrip_from n s = PyStr.lstrip_from m s.
Proof.
  induction n as [| n IH]; intros m s Hn Hm.
  - destruct s; [| simpl in Hn; lia].
    destruct m; reflexivity.
  - destruct m as [| m].
    + destruct s; [reflexivity | simpl in Hm; lia].
    + cbn [PyStr.lstrip_from].
      destruct (PyStr.space_at_head s) as [r |] eqn:E; [| reflexivity].
      pose proof (space_at_head_shorter _ _ E). apply IH; lia.
Qed.

Lemma to_ascii_fuel n : forall m s,
  (String.length s <= n)%nat -> (String.length s <= m)%nat ->
  PyStr.to_ascii_from n s = PyStr.to_ascii_from m s.
Proof.
  induction n as [| n IH]; intros m s Hn Hm.
  - destruct s; [| simpl in Hn; lia].
    destruct m; reflexivity.
  - destruct m as [| m].
    + destruct s; [reflexivity | simpl in Hm; lia].
    + cbn [PyStr.to_ascii_from].
      destruct s as [| a r]; [reflexivity |].
      destruct (PyStr.decode (String a r)) as [[c r'] |] eqn:E;
        [| reflexivity].
      pose proof (decode_shorter _ _ _ E).
      rewrite (IH m r') by lia. reflexivity.
Qed.


(** X27: the tokens of a command are never empty and carry no white
    space at either end, however many spaces the text has between or
    around them; so the hemisphere test of [goto], which reads the
    first character of a token, never fails on a token of the
    message. *)
Theorem tokens_are_stripped text :
  Forall (fun a => a <> "" /\ PyStr.strip a = a) (tokens text) /\
  (forall i letter,
      (i < List.length (tokens text))%nat ->
      hemisphere (arg (tokens text) i) letter <> Raise IndexError).
Proof.
  assert (H : Forall (fun a => a <> "" /\ PyStr.strip a = a) (tokens text)).
  { unfold tokens. apply Forall_forall. intros a Hin.
    apply in_map_iff in Hin as (b & <- & Hb).
    apply filter_In in Hb as [_ Hb].
    split; [| apply strip_idempotent].
    destruct (PyStr.strip b); [discriminate Hb | discriminate]. }
  split; [exact H |].
  intros i letter Hi. rewrite Forall_forall in H.
  destruct (H (arg (tokens text) i)) as [Hne _].
  { unfold arg. apply nth_In. exact Hi. }
  destruct (arg (tokens text) i); [congruence | discriminate].
Qed.

Lemma returns_ret {A} (P : A -> Prop) a : P a -> returns P (ret a).
Proof. intros H s b E. injection E as <-. exact H. Qed.

Lemma returns_raise {A} (P : A -> Prop) e : returns P (lift (Raise e)).
Proof. intros s b E. discriminate E. Qed.

Lemma returns_bind {A B} (P : B -> Prop) (m : M A) (k : A -> M B) :
  (forall a, returns P (k a)) -> returns P (bind m k).
Proof.
  intros Hk s b. unfold bind, result_of.
  destruct (m s) as [[[a | e] s1] t1]; [| discriminate].
  specialize (Hk a s1 b). unfold result_of in Hk.
  destruct (k a s1) as [[r s2] t2]. exact Hk.
Qed.

Lemma command_returns sender args veh :
  returns (fun r => r = "OK" \/ r = "Thanks")
    (command sms_gateway math_cos math_sin sender args veh).
Proof.
  unfold command, cmd_move, cmd_goto.
  repeat lazymatch goal with
         | |- returns _ (bind _ _) => apply returns_bind; intros
         | |- returns _ (ret _) => apply returns_ret; auto
         | |- returns _ (lift (Raise _)) => apply returns_raise
         | |- returns _ (if ?c then _ else _) => destruct c
         | |- returns _ (match ?x with _ => _ end) => destruct x
         end.
Qed.

(** X28: the answer of the handler to the HTTP request is one of three
    words: [DISABLED] when SMS handling is off, and otherwise [OK] or
    [Thanks], whatever the message. *)
Theorem handler_answers query veh s r :
  result_of (incoming_sms sms_gateway decode_message math_cos math_sin
               query veh s) = Ok r ->
  (sms_enabled (cfg s) = false /\ r = "DISABLED") \/
  (sms_enabled (cfg s) = true /\ (r = "OK" \/ r = "Thanks")).
Proof.
  assert (Hread : forall k : mstate -> M string, bind read k s = k s s).
  { intros k. unfold bind, read. destruct (k s s) as [[r2 s2] t2].
    reflexivity. }
  unfold incoming_sms. rewrite Hread.
  destruct (sms_enabled (cfg s)); cbn [negb].
  - intros H. right. split; [reflexivity |]. revert H.
    apply (fun Hm : returns (fun r => r = "OK" \/ r = "Thanks") _ => Hm s r).
    repeat lazymatch goal with
           | |- returns _ (bind _ _) => apply returns_bind; intros
           | |- returns _ (ret _) => apply returns_ret; auto
           | |- returns _ (if ?c then _ else _) => destruct c
           | |- returns _ (command _ _ _ _ _ _) => apply command_returns
           end.
  - intros H. left. split; [reflexivity |].
    injection H as <-. reflexivity.
Qed.

End Commands.

(** ** The poll frequency *)

Section Frequency.

Variable gateway : nat -> rpc_reply.
Variable sms_gateway : string -> sms_text -> bool.
Variable decode_message : string -> pyresult string.
Variables math_cos math_sin : float -> float.

Lemma idle_task_zero_frequency now veh s elapsed :
  started s = true ->
  Json.is_none (session s) = false ->
  F64.is_zero (freq (cfg s)) = true ->
  PyNum.sub (Float now) (last_update s) = Ok elapsed ->
  idle_task gateway now veh s = (Raise ZeroDivisionError, s, []).
Proof.
  intros Hstarted Hsession Hzero He.
  rewrite (idle_task_started _ _ _ _ Hstarted).
  unfold bind at 1. unfold login_block at 1, bind at 1, read at 1.
  rewrite Hsession. cbn [ret].
  unfold after_login, poll_block, bind, read, lift. rewrite He.
  unfold PyNum.div. cbn [rbind]. rewrite Hzero. reflexivity.
Qed.

(** X29: with the setting [freq] at zero, a tick of a logged-in module
    raises [ZeroDivisionError] where it computes the poll period: it
    polls nothing, publishes nothing and changes nothing, and so does
    every tick after it. *)
Theorem zero_frequency_stops_everything l s :
  started s = true ->
  Json.is_none (session s) = false ->
  F64.is_zero (freq (cfg s)) = true ->
  Forall (fun p => exists elapsed,
              PyNum.sub (Float (fst p)) (last_update s) = Ok elapsed) l ->
  Forall (fun p => idle_task gateway (fst p) (snd p) s =
                   (Raise ZeroDivisionError, s, [])) l /\
  run gateway sms_gateway decode_message math_cos math_sin (ticks l) s =
  (s, []).
Proof.
  intros Hstarted Hsession Hzero Hl.
  induction Hl as [| [now veh] l [elapsed He] _ [IH1 IH2]].
  - split; [constructor | reflexivity].
  - pose proof (idle_task_zero_frequency now veh s elapsed
                  Hstarted Hsession Hzero He) as H.
    split; [constructor; [exact H | exact IH1] |].
    cbn [ticks map run run_step fst snd]. rewrite H.
    fold (ticks l). rewrite IH2. reflexivity.
Qed.

End Frequency.

(** ** The further properties on sample data *)

Lemma modem_handle_is_stable_witness :
  modem (fst (run Sample.accepting Sample.sms_sent Sample.decode
                Sample.cos Sample.sin Scenario.steps Sample.logged_in)) =
    modem Sample.logged_in /\
  Forall (fun e => is_rpc_of "uci" "get" e = false)
    (snd (run Sample.accepting Sample.sms_sent Sample.decode
            Sample.cos Sample.sin Scenario.steps Sample.logged_in)).
Proof.
  exact (modem_handle_is_stable Sample.accepting Sample.sms_sent Sample.decode
           Sample.cos Sample.sin Scenario.steps Sample.logged_in eq_refl).
Defined.

Lemma unresolved_modem_ends_tick_witness :
  after_login Scenario.no_modem Sample.hundred Sample.guided
    Scenario.session_only =
  (Ok tt,
   state_of (resolve_modem Scenario.no_modem Scenario.session_only),
   trace_of (resolve_modem Scenario.no_modem Scenario.session_only)).
Proof.
  eapply (unresolved_modem_ends_tick Scenario.no_modem Sample.hundred
            Sample.guided Scenario.session_only); reflexivity.
Defined.

Lemma find_modem_takes_first_section_witness :
  find_modem [JDict [("proto", JStr "static")];
              JDict [("proto", JStr "wwan"); ("modem", JStr "3-1")];
              JDict [("modem", JStr "1-1")]] =
  Ok (Some (JStr "3-1")).
Proof.
  apply (proj1 find_modem_takes_first_section
           [JDict [("proto", JStr "static")]]
           [("proto", JStr "wwan"); ("modem", JStr "3-1")]
           [JDict [("modem", JStr "1-1")]] (JStr "3-1")).
  - constructor; [| constructor].
    exists [("proto", JStr "static")]. split; reflexivity.
  - reflexivity.
Defined.

Lemma successful_poll_reports_witness :
  report_status Sample.hundred (Scenario.with_output Scenario.cellular)
    Scenario.info (Scenario.ready Scenario.config_outputs) =
  (Ok Continue,
   set_last_update (Float Sample.hundred)
     (set_last_status
        (JDict [("signal", JStr "-71"); ("sinr", JStr "12");
                ("imsi", JStr "246020123456789")])
        (Scenario.ready Scenario.config_outputs)),
   [EvRadioStatus Sample.radio 71 255 100 12 255 0 0;
    EvCellularStatus Scenario.cellular 12 0 4 71 246 2 0]).
Proof.
  exact (successful_poll_reports Sample.hundred
           (Scenario.with_output Scenario.cellular) Scenario.info
           (JDict [("signal", JStr "-71"); ("sinr", JStr "12");
                   ("imsi", JStr "246020123456789")])
           71 12 "246020123456789" 246 2
           (Scenario.ready Scenario.config_outputs)
           eq_refl eq_refl eq_refl eq_refl eq_refl eq_refl).
Defined.

Lemma outputs_pile_up_witness :
  mav_master (after_reports 2 Sample.hundred
                (Scenario.with_output Scenario.output) Scenario.info
                (Scenario.ready Scenario.config_all)) =
    [Sample.radio; Scenario.output; Scenario.output] /\
  selected_links (after_reports 2 Sample.hundred
                    (Scenario.with_output Scenario.output) Scenario.info
                    (Scenario.ready Scenario.config_all))
    (Scenario.with_output Scenario.output) =
    [Sample.radio; Scenario.output; Scenario.output; Scenario.output].
Proof.
  exact (outputs_pile_up 2 Sample.hundred
           (Scenario.with_output Scenario.output) Scenario.info
           (Scenario.ready Scenario.config_all) eq_refl eq_refl).
Defined.

Lemma non_numeric_imsi_stops_report_witness :
  report_status Sample.hundred (Scenario.with_output Scenario.cellular)
    Scenario.info_no_sim (Scenario.ready Scenario.config_outputs) =
  (Raise ValueError,
   set_last_update (Float Sample.hundred)
     (set_last_status
        (JDict [("signal", JStr "-71"); ("sinr", JStr "12");
                ("imsi", JStr "")])
        (Scenario.ready Scenario.config_outputs)),
   [EvRadioStatus Sample.radio 71 255 100 12 255 0 0]).
Proof.
  apply (non_numeric_imsi_stops_report Sample.hundred
           (Scenario.with_output Scenario.cellular) Scenario.info_no_sim
           (JDict [("signal", JStr "-71"); ("sinr", JStr "12");
                   ("imsi", JStr "")])
           71 12 "" [Sample.radio] Scenario.cellular [] ValueError
           (Scenario.ready Scenario.config_outputs));
    try reflexivity.
  repeat constructor.
Defined.

Lemma unreadable_signal_breaks_report_witness :
  report_status Sample.hundred Sample.guided Scenario.info_numeric
    Sample.logged_in =
  (Raise AttributeError, Sample.logged_in, []).
Proof.
  apply (proj1 (unreadable_signal_breaks_report Sample.hundred Sample.guided
                  Scenario.info_numeric
                  [("signal", JInt (-71)); ("sinr", JStr "12");
                   ("imsi", JStr "246020123456789")]
                  [] "signal" ["rsrp"; "rscp"; "rsrq"] Sample.logged_in
                  eq_refl eq_refl (Forall_nil _))
           (JInt (-71))).
  - reflexivity.
  - reflexivity.
  - intros t H. discriminate H.
Defined.

Lemma failed_login_ends_tick_witness :
  idle_task Scenario.denying Sample.hundred Sample.guided Sample.fresh =
  (Ok tt, posted true (set_last_login (Float Sample.hundred) Sample.fresh),
   [EvRpc (login_request Sample.fresh) (Scenario.denying 0%nat);
    EvPrint LineFailedToLogin]).
Proof.
  eapply (failed_login_ends_tick Scenario.denying Sample.hundred Sample.guided
            Sample.fresh).
  - split; [reflexivity | split; [reflexivity |]].
    eexists. split; reflexivity.
  - reflexivity.
  - reflexivity.
  - reflexivity.
Defined.

Lemma fresh_session_is_used_at_once_witness :
  exists rest,
    trace_of (idle_task Scenario.granting Sample.hundred Sample.guided
                Sample.fresh) =
      (EvRpc (login_request Sample.fresh) (Scenario.granting 0%nat) ::
       EvPrint LineSessionStarted :: rest)%list /\
    Forall (sends_token (JStr "9f2b6c1de0a74c55b3a1d2e8f7c40612")) rest /\
    rest = trace_of (after_login Scenario.granting Sample.hundred
                       Sample.guided
                       (set_session (JStr "9f2b6c1de0a74c55b3a1d2e8f7c40612")
                          (posted true
                             (set_last_login (Float Sample.hundred)
                                Sample.fresh)))).
Proof.
  eapply (fresh_session_is_used_at_once Scenario.granting Sample.hundred
            Sample.guided Sample.fresh).
  - split; [reflexivity | split; [reflexivity |]].
    eexists. split; reflexivity.
  - reflexivity.
  - reflexivity.
  - reflexivity.
  - reflexivity.
Defined.

Lemma unusable_login_reply_raises_witness :
  idle_task Scenario.silent Sample.hundred Sample.guided Sample.fresh =
  (Raise TransportError,
   posted false (set_last_login (Float Sample.hundred) Sample.fresh),
   [EvRpc (login_request Sample.fresh) NoReply]).
Proof.
  apply (proj1 (unusable_login_reply_raises Scenario.silent Sample.hundred
                  Sample.guided Sample.fresh
                  (conj eq_refl
                     (conj eq_refl
                        (ex_intro _ (Float Sample.hundred)
                           (conj eq_refl eq_refl)))))).
  reflexivity.
Defined.


Lemma status_stops_at_non_text_witness :
  exists width,
    teltonika_status Scenario.listed_with_number =
    (Raise AttributeError, map (status_line width) [("signal", JStr "-71")]).
Proof.
  apply (status_stops_at_non_text Scenario.listed_with_number
           [("signal", JStr "-71")] "band" (JInt 3)
           [("operator", JStr "Tele2")]).
  - reflexivity.
  - reflexivity.
  - repeat constructor. eexists; reflexivity.
  - intros [t H]. discriminate H.
Defined.

Lemma keyword_case_is_ignored_witness :
  command Sample.sms_sent Sample.cos Sample.sin "+37060000000"
    ["MOVE"; "0.3"; "n"] Sample.guided Sample.logged_in =
  command Sample.sms_sent Sample.cos Sample.sin "+37060000000"
    ["move"; "0.3"; "n"] Sample.guided Sample.logged_in.
Proof.
  exact (keyword_case_is_ignored Sample.sms_sent Sample.cos Sample.sin
           "+37060000000" "MOVE" "move" ["0.3"; "n"] Sample.guided
           Sample.logged_in eq_refl).
Defined.

Lemma malformed_command_gets_usage_witness :
  command Sample.sms_sent Sample.cos Sample.sin "+37060000000"
    ["Speed"] Sample.guided Sample.logged_in =
  (Ok "OK", Sample.logged_in, [EvSms "+37060000000" SmsUsageSpeed]).
Proof.
  apply (proj1 (proj2 (proj2
           (malformed_command_gets_usage Sample.sms_sent Sample.cos Sample.sin
              "+37060000000" "Speed" [] Sample.guided Sample.logged_in)))).
  - reflexivity.
  - discriminate.
Defined.

Lemma no_motion_outside_guided_witness :
  exists text,
    command Sample.sms_sent Sample.cos Sample.sin "+37060000000"
      ["goto"; "54.6871550"; "25.2796510"] Scenario.in_auto Sample.logged_in =
    sms_reply Sample.sms_sent "+37060000000" text Sample.logged_in.
Proof.
  exact (no_motion_outside_guided Sample.sms_sent Sample.cos Sample.sin
           "+37060000000" "goto" ["54.6871550"; "25.2796510"]
           Scenario.in_auto Sample.logged_in eq_refl eq_refl).
Defined.

Lemma commands_that_raise_send_nothing_witness :
  incoming_sms Sample.sms_sent Scenario.decode Sample.cos Sample.sin
    (Sample.query "ISFzdGF0dXM=") Sample.guided Sample.logged_in =
  (Raise AttributeError, Sample.logged_in,
   [EvPrint (LineSmsFrom "+37060000000" "!!status")]).
Proof.
  apply (commands_that_raise_send_nothing Sample.sms_sent Scenario.decode
           Sample.cos Sample.sin (Sample.query "ISFzdGF0dXM=") Sample.guided
           Sample.logged_in "+37060000000" "!!status" "status" []).
  - split; [reflexivity | split; [reflexivity | split; [| split; reflexivity]]].
    exists "ISFzdGF0dXM=", "!!status". repeat split.
  - left. split; [reflexivity | left; reflexivity].
Defined.

Lemma body_frame_move_raises_witness :
  move_displacement Sample.cos Sample.sin ["move"; "10"; "fwd"] =
    Raise AttributeError /\
  command Sample.sms_sent Sample.cos Sample.sin "+37060000000"
    ["move"; "10"; "fwd"] Sample.guided Sample.logged_in =
    (Raise AttributeError, Sample.logged_in, []) /\
  Forall (fun w => PyStr.lower w = w /\
                   PyNum.int_of_string w = Raise ValueError /\
                   PyStr.mem w compass = false) body_words.
Proof.
  eapply (body_frame_move_raises Sample.sms_sent Sample.cos
            Sample.sin "+37060000000" "move" "10" "fwd");
    reflexivity.
Defined.

Lemma mixed_move_raises_witness :
  command Sample.sms_sent Sample.cos Sample.sin "+37060000000"
    ["move"; "10"; "N"; "5"; "fwd"] Sample.guided Sample.logged_in =
  (Raise AttributeError, Sample.logged_in, []).
Proof.
  eapply (mixed_move_raises Sample.sms_sent Sample.cos Sample.sin
            "+37060000000" "move" "10" "N" "5" "fwd");
    try reflexivity.
  discriminate.
Defined.

Lemma goto_replies_before_converting_witness :
  command Sample.sms_sent Sample.cos Sample.sin "+37060000000"
    ["goto"; "nan"; "0"] Sample.guided Sample.logged_in =
  (Raise ValueError, Sample.logged_in,
   [EvSms "+37060000000" (SmsGoingTo (Float S754_nan) (Float F64.pzero))]).
Proof.
  apply (goto_replies_before_converting Sample.sms_sent Sample.cos Sample.sin
           "+37060000000" "goto" ["nan"; "0"] (Float S754_nan)
           (Float F64.pzero) ValueError Sample.guided Sample.logged_in);
    try reflexivity.
  - left; reflexivity.
  - left; reflexivity.
Defined.

Lemma handler_answers_witness :
  (sms_enabled (cfg Sample.sms_off) = false /\ "DISABLED" = "DISABLED") \/
  (sms_enabled (cfg Sample.sms_off) = true /\
   ("DISABLED" = "OK" \/ "DISABLED" = "Thanks")).
Proof.
  exact (handler_answers Sample.sms_sent Sample.decode Sample.cos Sample.sin
           (Sample.query "aGVsbG8gdGhlcmU=") Sample.guided Sample.sms_off
           "DISABLED" eq_refl).
Defined.

Lemma zero_frequency_stops_everything_witness :
  Forall (fun p => idle_task Sample.accepting (fst p) (snd p)
                     (Scenario.ready Scenario.config_zero_freq) =
                   (Raise ZeroDivisionError,
                    Scenario.ready Scenario.config_zero_freq, []))
    [(Sample.ten, Sample.guided); (Sample.hundred, Sample.guided)] /\
  run Sample.accepting Sample.sms_sent Sample.decode Sample.cos Sample.sin
    (ticks [(Sample.ten, Sample.guided); (Sample.hundred, Sample.guided)])
    (Scenario.ready Scenario.config_zero_freq) =
  (Scenario.ready Scenario.config_zero_freq, []).
Proof.
  apply (zero_frequency_stops_everything Sample.accepting Sample.sms_sent
           Sample.decode Sample.cos Sample.sin
           [(Sample.ten, Sample.guided); (Sample.hundred, Sample.guided)]
           (Scenario.ready Scenario.config_zero_freq)).
  - reflexivity.
  - reflexivity.
  - reflexivity.
  - repeat constructor; eexists; reflexivity.
Defined.
